(** * OpenFF Interchange: containers, combination and OpenMM export

    A shallow embedding of the container ([System]), its combination
    operator, the box validator, the handler lookup, the supported-handler
    check, the nonbonded settings and the file exports of the container, the
    OpenMM nonbonded, bond and angle exports, the OpenMM virtual-site export,
    the electrostatics collection and the comparison helpers of the tests,
    followed by the properties established about each of them.

    Conventions of the embedding:
    - Where the code computes with doubles (the box validator, the
      virtual-site weights), a double is a primitive binary64 float
      ([float]), with its rounding, signed zeros, infinities and NaN. Numbers
      that the code only stores, moves or compares within a tolerance
      (parameters, charges, positions) are exact rationals ([Qc]). Units are
      fixed per field, as the [ArrayQuantity] annotations do.
    - A Python [dict] is an insertion-ordered association list ([pydict]).
    - A [System] object is a reference into a store; its [_inner_data]
      attribute is a reference to an [InnerSystem] held in a second store, so
      that two [System] objects can share one [InnerSystem]. The fields of an
      [InnerSystem] are held by value: a topology or a handler object that
      two [InnerSystem] objects share is not represented as shared, and the
      general properties of the combination speak of the container it returns
      and of its left operand only.
    - A raised exception is the [Raise] outcome of a computation; the store
      reached when the exception was raised is kept next to it. *)

From stdpp Require Import base option list strings numbers gmap.
From Stdlib Require Import Ascii QArith Qcanon Qcabs.
From Stdlib Require Import Floats.

Set Warnings "-inexact-float".

Close Scope Qc_scope.
Close Scope Q_scope.
Open Scope string_scope.
Open Scope list_scope.

(** ** Python values, exceptions and dictionaries *)

Module Py.

(** The exception classes that the modelled code raises. *)
Inductive exn_class :=
| LookupError
| KeyError
| IndexError
| AttributeError
| TypeError
| ValueError
| NameError
| SyntaxError
| RuntimeError
| NotImplementedError
| InvalidBoxError
| ValidationError
| UnsupportedCutoffMethodError
| SMIRNOFFHandlersNotImplementedError.

#[global] Instance exn_class_eq_dec : EqDecision exn_class.
Proof. solve_decision. Defined.

(** Values that may be passed where the code expects a key. *)
Inductive pyobj :=
| PyStr (s : string)
| PyInt (z : Z)
| PyBool (b : bool)
| PyNone.

#[global] Instance pyobj_eq_dec : EqDecision pyobj.
Proof. solve_decision. Defined.

(** [type(item)] as the name of the class. *)
Definition type_name (o : pyobj) : string :=
  match o with
  | PyStr _ => "str"
  | PyInt _ => "int"
  | PyBool _ => "bool"
  | PyNone => "NoneType"
  end.

(** The pieces of an f-string: literal text, a formatted value, the class
    of a value, and a formatted list of strings. *)
Inductive fragment :=
| Lit (s : string)
| Fmt (o : pyobj)
| FmtType (o : pyobj)
| FmtList (l : list string).

#[global] Instance fragment_eq_dec : EqDecision fragment.
Proof. solve_decision. Defined.

Record exn := mk_exn { exn_kind : exn_class; exn_args : list fragment }.

#[global] Instance exn_eq_dec : EqDecision exn.
Proof. solve_decision. Defined.

Inductive result (A : Type) :=
| Ok (a : A)
| Raise (e : exn).
Arguments Ok {A} a.
Arguments Raise {A} e.

Definition raise_bare {A} (c : exn_class) : result A := Raise (mk_exn c []).

Definition is_ok {A} (r : result A) : bool :=
  match r with Ok _ => true | Raise _ => false end.

#[global] Instance result_ret : MRet result := λ A a, Ok a.
#[global] Instance result_bind : MBind result := λ A B f r,
  match r with
  | Ok a => f a
  | Raise e => Raise e
  end.

(** *** Insertion-ordered dictionaries *)

Definition pydict (K V : Type) := list (K * V).

Section Dict.
Context {K V : Type} `{EqDecision K}.

Fixpoint dict_get (k : K) (d : pydict K V) : option V :=
  match d with
  | [] => None
  | (k', v) :: d' => if decide (k = k') then Some v else dict_get k d'
  end.

Definition dict_in (k : K) (d : pydict K V) : bool :=
  match dict_get k d with Some _ => true | None => false end.

(** [d[k] = v] and [d.update({k: v})]: an existing key keeps its place,
    a new key goes last. *)
Fixpoint dict_set (k : K) (v : V) (d : pydict K V) : pydict K V :=
  match d with
  | [] => [(k, v)]
  | (k', v') :: d' =>
      if decide (k = k') then (k', v) :: d' else (k', v') :: dict_set k v d'
  end.

(** [d.pop(k)]: the value and the remaining dictionary, or nothing when
    the key is absent (the caller raises KeyError). *)
Fixpoint dict_pop (k : K) (d : pydict K V) : option (V * pydict K V) :=
  match d with
  | [] => None
  | (k', v) :: d' =>
      if decide (k = k') then Some (v, d')
      else match dict_pop k d' with
           | Some (w, r) => Some (w, (k', v) :: r)
           | None => None
           end
  end.

Definition dict_keys (d : pydict K V) : list K := d.*1.
Definition dict_values (d : pydict K V) : list V := d.*2.
Definition dict_items (d : pydict K V) : list (K * V) := d.
End Dict.

End Py.
Export Py.

(** ** numpy arrays *)

Module Numpy.

(** An array is its shape and its elements in row-major order. *)
Record ndarray (A : Type) := mk_ndarray { shape : list nat; data : list A }.
Arguments mk_ndarray {A} shape data.
Arguments shape {A} n.
Arguments data {A} n.

#[global] Instance ndarray_eq_dec {A} `{EqDecision A} : EqDecision (ndarray A).
Proof. solve_decision. Defined.

(** An element of an array of Python objects: a number or [None]. *)
Inductive scalar :=
| Num (q : Qc)
| NoneCell.

#[global] Instance scalar_eq_dec : EqDecision scalar.
Proof. solve_decision. Defined.

(** Two doubles are the same double when their bits are; all NaNs count
    as one. *)
#[global] Instance float_eq_dec : EqDecision float.
Proof.
  intros x y. destruct (PrimFloat.Leibniz.eqb x y) eqn:E.
  - left. by apply FloatAxioms.Leibniz.eqb_spec.
  - right. intros H. apply FloatAxioms.Leibniz.eqb_spec in H. congruence.
Defined.

(** A double that is finite and whose sign bit is clear: +0.0 or a
    positive normal or subnormal number. *)
Definition finite_nonneg (x : float) : bool :=
  match classify x with
  | PNormal | PSubn | PZero => true
  | _ => false
  end.

(** Row [i] of [numpy.eye(n)]: 1.0 on the diagonal, 0.0 elsewhere. *)
Definition eye_row (n i : nat) : list float :=
  (λ j, if decide (i = j) then 1%float else 0%float) <$> seq 0 n.

Definition eye_rows (n : nat) : list (list float) := eye_row n <$> seq 0 n.

Definition eye (n : nat) : ndarray float := mk_ndarray [n; n] (concat (eye_rows n)).

(** [v * m] for a vector [v] of shape (n,) and a matrix given by its rows,
    each of length n: the vector is broadcast along the rows, so entry
    (i, j) is the double product [v[j] * m[i][j]]. *)
Definition mul_vector_rows (v : list float) (rows : list (list float)) : list (list float) :=
  (λ row, zip_with PrimFloat.mul v row) <$> rows.

(** [numpy.atleast_2d] of the operands [numpy.vstack] receives: [None]
    becomes a 1x1 array of objects holding [None]; a 0-d array becomes
    1x1; a 1-d array of n elements becomes 1xn; other arrays are kept. *)
Definition atleast_2d (a : option (ndarray scalar)) : ndarray scalar :=
  match a with
  | None => mk_ndarray [1; 1] [NoneCell]
  | Some arr =>
      match shape arr with
      | [] => mk_ndarray [1; 1] (data arr)
      | [n] => mk_ndarray [1; n] (data arr)
      | _ => arr
      end
  end.

(** [numpy.vstack([a, b])]: concatenation along the first axis of the
    two operands made at least 2-d; the other axes must agree. *)
Definition vstack (a b : option (ndarray scalar)) : result (ndarray scalar) :=
  let a2 := atleast_2d a in
  let b2 := atleast_2d b in
  match shape a2, shape b2 with
  | n :: ra, m :: rb =>
      if decide (ra = rb)
      then Ok (mk_ndarray ((n + m)%nat :: ra) (data a2 ++ data b2))
      else raise_bare ValueError
  | _, _ => raise_bare ValueError
  end.

(** [a == b] element by element, as doubles compare: a NaN equals
    nothing, the two zeros equal each other. *)
Fixpoint all_eqb (l k : list float) : bool :=
  match l, k with
  | [], [] => true
  | x :: l', y :: k' => (x =? y)%float && all_eqb l' k'
  | _, _ => false
  end.

(** [numpy.all(a == b)] for two stored boxes, each [None] or an array:
    [None == None] is true, [None == array] compares false elementwise,
    and two arrays of one shape compare element by element. Arrays of
    different shapes do not compare equal. *)
Definition all_equal (a b : option (ndarray float)) : bool :=
  match a, b with
  | None, None => true
  | Some x, Some y =>
      bool_decide (shape x = shape y) && all_eqb (data x) (data y)
  | _, _ => false
  end.

End Numpy.
Export Numpy.

(** ** The container: [openff/system/components/system.py] *)

Module SystemModel.

(** [TopologyKey]: the atom indices of an interaction site and an optional
    multiplicity. *)
Record TopologyKey := mk_TopologyKey { atom_indices : list Z; mult : option Z }.

#[global] Instance TopologyKey_eq_dec : EqDecision TopologyKey.
Proof. solve_decision. Defined.

(** The identity of a potential within a potential store. *)
Definition PotentialKey := string.

(** [Potential]: named numeric parameters. *)
Record Potential := mk_Potential { parameters : pydict string Qc }.

#[global] Instance Potential_eq_dec : EqDecision Potential.
Proof. solve_decision. Defined.

(** [PotentialHandler]: the slot map and the potential store of one force
    category. [charges] is the charge table that only an electrostatics
    handler has; on the other handlers the attribute is absent. *)
Record PotentialHandler := mk_PotentialHandler {
  method : string;
  slot_map : pydict TopologyKey PotentialKey;
  potentials : pydict PotentialKey Potential;
  charges : option (pydict TopologyKey Qc)
}.

#[global] Instance PotentialHandler_eq_dec : EqDecision PotentialHandler.
Proof. solve_decision. Defined.

Record Molecule := mk_Molecule { mol_name : string; mol_n_atoms : nat }.

#[global] Instance Molecule_eq_dec : EqDecision Molecule.
Proof. solve_decision. Defined.

(** Modelled from the spec: [OFFBioTop] (openff/system/components/mdtraj.py)
    is a topology that owns its molecules, appended to by [add_molecule],
    and carries an [mdtop] attribute, the mdtraj view whose [n_atoms] is the
    atom count at the time the view was built ([None] until it is set). *)
Record OFFBioTop := mk_OFFBioTop {
  topology_molecules : list Molecule;
  mdtop : option nat
}.

#[global] Instance OFFBioTop_eq_dec : EqDecision OFFBioTop.
Proof. solve_decision. Defined.

Definition add_molecule (m : Molecule) (t : OFFBioTop) : OFFBioTop :=
  mk_OFFBioTop (topology_molecules t ++ [m]) (mdtop t).

(** [md.Topology.from_openmm(top.to_openmm()).n_atoms]: the atoms of all
    molecules the topology holds now. *)
Definition from_openmm_n_atoms (t : OFFBioTop) : nat :=
  sum_list (mol_n_atoms <$> topology_molecules t).

(** The fields of the pydantic model [InnerSystem]. The entries of the box
    are doubles; those of the positions are only stored and stacked. *)
Record InnerSystem := mk_InnerSystem {
  handlers : pydict string PotentialHandler;
  topology : option OFFBioTop;
  box : option (ndarray float);
  positions : option (ndarray scalar)
}.

#[global] Instance InnerSystem_eq_dec : EqDecision InnerSystem.
Proof. solve_decision. Defined.

(** [InnerSystem()]: every field at its default. *)
Definition InnerSystem_default : InnerSystem := mk_InnerSystem [] None None None.

(** *** The validator of the [box] field *)

Definition validate_box (val : option (ndarray float)) : result (option (ndarray float)) :=
  match val with
  | None => Ok val
  | Some arr =>
      if decide (shape arr = [3; 3]%nat) then Ok val
      else if decide (shape arr = [3]%nat) then
        Ok (Some (mk_ndarray [3; 3]%nat (concat (mul_vector_rows (data arr) (eye_rows 3)))))
      else raise_bare InvalidBoxError
  end.

(** *** The object store *)

Abbreviation loc := nat.

(** [systems]: for each [System] object, the location its [_inner_data]
    attribute points to. [inner_data]: the [InnerSystem] objects.
    [warnings]: the warnings issued so far. *)
Record heap := mk_heap {
  systems : list loc;
  inner_data : list InnerSystem;
  warnings : list string
}.

#[global] Instance heap_eq_dec : EqDecision heap.
Proof. solve_decision. Defined.

Definition M (A : Type) : Type := heap → heap * result A.

#[global] Instance M_ret : MRet M := λ A a h, (h, Ok a).
#[global] Instance M_bind : MBind M := λ A B f m h,
  match m h with
  | (h', Ok a) => f a h'
  | (h', Raise e) => (h', Raise e)
  end.

Definition raise {A} (e : exn) : M A := λ h, (h, Raise e).
Definition lift {A} (r : result A) : M A := λ h, (h, r).
Definition get_heap : M heap := λ h, (h, Ok h).
Definition put_heap (h' : heap) : M unit := λ _, (h', Ok tt).

(** [self._inner_data] as a location. *)
Definition _inner_data (self : loc) : M loc :=
  h ← get_heap;
  match systems h !! self with
  | Some l => mret l
  | None => raise (mk_exn AttributeError [])
  end.

Definition read_inner (l : loc) : M InnerSystem :=
  h ← get_heap;
  match inner_data h !! l with
  | Some i => mret i
  | None => raise (mk_exn AttributeError [])
  end.

Definition write_inner (l : loc) (i : InnerSystem) : M unit :=
  h ← get_heap;
  put_heap (mk_heap (systems h) (<[l := i]> (inner_data h)) (warnings h)).

Definition warn (msg : string) : M unit :=
  h ← get_heap;
  put_heap (mk_heap (systems h) (inner_data h) (warnings h ++ [msg])).

(** [System()]: [__init__] stores a fresh [InnerSystem] in [_inner_data]. *)
Definition System_new : M loc :=
  h ← get_heap;
  let l := length (inner_data h) in
  let s := length (systems h) in
  put_heap (mk_heap (systems h ++ [l]) (inner_data h ++ [InnerSystem_default]) (warnings h));;
  mret s.

(** [self_copy._inner_data = value]. *)
Definition set_inner_data (self : loc) (l : loc) : M unit :=
  h ← get_heap;
  put_heap (mk_heap (<[self := l]> (systems h)) (inner_data h) (warnings h)).

(** *** Properties and setters of [System] *)

Definition get_handlers (self : loc) : M (pydict string PotentialHandler) :=
  l ← _inner_data self; i ← read_inner l; mret (handlers i).

Definition get_topology (self : loc) : M (option OFFBioTop) :=
  l ← _inner_data self; i ← read_inner l; mret (topology i).

Definition get_positions (self : loc) : M (option (ndarray scalar)) :=
  l ← _inner_data self; i ← read_inner l; mret (positions i).

Definition get_box (self : loc) : M (option (ndarray float)) :=
  l ← _inner_data self; i ← read_inner l; mret (box i).

Definition set_topology (self : loc) (value : option OFFBioTop) : M unit :=
  l ← _inner_data self; i ← read_inner l;
  write_inner l (mk_InnerSystem (handlers i) value (box i) (positions i)).

Definition set_positions (self : loc) (value : option (ndarray scalar)) : M unit :=
  l ← _inner_data self; i ← read_inner l;
  write_inner l (mk_InnerSystem (handlers i) (topology i) (box i) value).

(** What pydantic raises when the validator of a field raises: a
    [ValidationError] naming the field, in place of the validator's own
    exception. *)
Definition validation_error (field : string) : exn :=
  mk_exn ValidationError [Lit field].

(** Assigning to the [box] field of the pydantic model runs the field's
    validator; what the validator returns is what is stored, and what it
    raises ([InvalidBoxError], a [ValueError]) reaches the caller as a
    [ValidationError]. *)
Definition set_box (self : loc) (value : option (ndarray float)) : M unit :=
  l ← _inner_data self; i ← read_inner l;
  match validate_box value with
  | Ok v => write_inner l (mk_InnerSystem (handlers i) (topology i) v (positions i))
  | Raise _ => raise (validation_error "box")
  end.

Definition add_handler (self : loc) (handler_name : string) (handler : PotentialHandler) : M unit :=
  l ← _inner_data self; i ← read_inner l;
  write_inner l (mk_InnerSystem (dict_set handler_name handler (handlers i))
                   (topology i) (box i) (positions i)).

Definition remove_handler (self : loc) (handler_name : string) : M unit :=
  l ← _inner_data self; i ← read_inner l;
  match dict_pop handler_name (handlers i) with
  | Some (_, rest) => write_inner l (mk_InnerSystem rest (topology i) (box i) (positions i))
  | None => raise (mk_exn KeyError [Fmt (PyStr handler_name)])
  end.

(** *** The supported-handler check *)

Definition _SUPPORTED_SMIRNOFF_HANDLERS : gset string :=
  {[ "Constraints"; "Bonds"; "Angles"; "ProperTorsions"; "ImproperTorsions";
     "vdW"; "Electrostatics"; "LibraryCharges"; "ChargeIncrementModel" ]}.

(** The part of the toolkit's [ForceField] the check reads. *)
Record ForceField := mk_ForceField { registered_parameter_handlers : list string }.

(** The loop of [_check_supported_handlers]: [unsupported] is the list
    built so far. *)
Fixpoint collect_unsupported (names : list string) (unsupported : list string) : list string :=
  match names with
  | [] => unsupported
  | handler :: rest =>
      if decide (handler ∈ ({[ "ToolkitAM1BCC" ]} : gset string)) then
        collect_unsupported rest unsupported
      else if decide (handler ∉ _SUPPORTED_SMIRNOFF_HANDLERS) then
        collect_unsupported rest (unsupported ++ [handler])
      else collect_unsupported rest unsupported
  end.

Definition _check_supported_handlers (force_field : ForceField) : result unit :=
  let unsupported := collect_unsupported (registered_parameter_handlers force_field) [] in
  match unsupported with
  | [] => Ok tt
  | _ => Raise (mk_exn SMIRNOFFHandlersNotImplementedError [FmtList unsupported])
  end.

(** *** Lookup by name *)

Inductive component :=
| CPositions (p : option (ndarray scalar))
| CBox (b : option (ndarray float))
| CHandler (h : PotentialHandler).

(** The characters that the escapes [\n] and [\t] of a Python string
    literal stand for. *)
Definition newline : string := String "010"%char EmptyString.
Definition tab : string := String "009"%char EmptyString.

Definition only_str_error (item : pyobj) : exn :=
  mk_exn LookupError
    [Lit ("Only str arguments can be currently be used for lookups." +:+ newline
          +:+ "Found item ");
     Fmt item; Lit " of type "; FmtType item].

Definition could_not_find_error (item : pyobj) (names : list string) : exn :=
  mk_exn LookupError
    [Lit "Could not find component "; Fmt item;
     Lit (". This object has the following potential handlers registered:" +:+ newline
          +:+ tab);
     FmtList names].

Definition __getitem__ (self : loc) (item : pyobj) : M component :=
  match item with
  | PyStr s =>
      if decide (s = "positions") then
        p ← get_positions self; mret (CPositions p)
      else if decide (s ∈ ({[ "box"; "box_vectors" ]} : gset string)) then
        b ← get_box self; mret (CBox b)
      else
        hs ← get_handlers self;
        match dict_get s hs with
        | Some h => mret (CHandler h)
        | None => raise (could_not_find_error item (dict_keys hs))
        end
  | _ => raise (only_str_error item)
  end.

(** *** Combination *)

(** Iteration over the items of a dictionary that lives in the store.
    [read] fetches the dictionary as it is now; [n0] is its size when the
    iterator was made and [i] the position reached. Before each step the
    iterator compares the present size with [n0] and raises RuntimeError
    when they differ; otherwise it yields the entry at position [i], with
    the value stored there now. *)
Fixpoint iterate_items {K V} (read : M (pydict K V)) (n0 i fuel : nat)
    (body : K → V → M unit) : M unit :=
  d ← read;
  if decide (length d ≠ n0) then raise (mk_exn RuntimeError [Lit "dictionary changed size during iteration"])
  else
    match fuel with
    | O => mret tt
    | S fuel' =>
        match d !! i with
        | None => mret tt
        | Some (k, v) => body k v;; iterate_items read n0 (S i) fuel' body
        end
    end.

Definition for_items {K V} (read : M (pydict K V)) (body : K → V → M unit) : M unit :=
  d ← read;
  iterate_items read (length d) 0 (length d) body.

Fixpoint for_each {A} (l : list A) (body : A → M unit) : M unit :=
  match l with
  | [] => mret tt
  | x :: rest => body x;; for_each rest body
  end.

(** The handler registered under [name] in the [InnerSystem] at [l]. *)
Definition read_handler (l : loc) (name : string) : M PotentialHandler :=
  i ← read_inner l;
  match dict_get name (handlers i) with
  | Some h => mret h
  | None => raise (mk_exn KeyError [Fmt (PyStr name)])
  end.

(** In-place change of the handler registered under [name] at [l]. *)
Definition write_handler (l : loc) (name : string) (h : PotentialHandler) : M unit :=
  i ← read_inner l;
  write_inner l (mk_InnerSystem (dict_set name h (handlers i)) (topology i) (box i) (positions i)).

Definition slot_map_update (l : loc) (name : string) (k : TopologyKey) (v : PotentialKey) : M unit :=
  h ← read_handler l name;
  write_handler l name
    (mk_PotentialHandler (method h) (dict_set k v (slot_map h)) (potentials h) (charges h)).

Definition potentials_update (l : loc) (name : string) (k : PotentialKey) (v : Potential) : M unit :=
  h ← read_handler l name;
  write_handler l name
    (mk_PotentialHandler (method h) (slot_map h) (dict_set k v (potentials h)) (charges h)).

(** In-place change of the topology object held at [l]. *)
Definition modify_topology (l : loc) (f : OFFBioTop → OFFBioTop) : M unit :=
  i ← read_inner l;
  match topology i with
  | Some t => write_inner l (mk_InnerSystem (handlers i) (Some (f t)) (box i) (positions i))
  | None => raise (mk_exn AttributeError [])
  end.

(** [x["Electrostatics"].charges] read from the store. *)
Definition electrostatics_charges (x : loc) : M (pydict TopologyKey Qc) :=
  c ← __getitem__ x (PyStr "Electrostatics");
  match c with
  | CHandler h =>
      match charges h with
      | Some t => mret t
      | None => raise (mk_exn AttributeError [])
      end
  | _ => raise (mk_exn AttributeError [])
  end.

(** [x["Electrostatics"].charges.update({k: v})]. *)
Definition electrostatics_charges_update (x : loc) (k : TopologyKey) (v : Qc) : M unit :=
  t ← electrostatics_charges x;
  l ← _inner_data x;
  h ← read_handler l "Electrostatics";
  write_handler l "Electrostatics"
    (mk_PotentialHandler (method h) (slot_map h) (potentials h) (Some (dict_set k v t))).

Definition offset_key (atom_offset : Z) (top_key : TopologyKey) : TopologyKey :=
  mk_TopologyKey ((λ idx, (idx + atom_offset)%Z) <$> atom_indices top_key) (mult top_key).

Definition combination_warning : string :=
  "System combination is experimental and likely to produce strange results. Use with caution!".

Definition unequal_box_error : exn :=
  mk_exn NotImplementedError
    [Lit "Combination with unequal box vectors is not curretnly supported"].

(** The body of the loop over [handler.slot_map.items()]: [ls] holds the
    inner data of [self_copy], [lo] that of [other]. *)
Definition combine_slot (ls lo : loc) (atom_offset : Z) (handler_name : string)
    (top_key : TopologyKey) (pot_key : PotentialKey) : M unit :=
  let new_top_key := offset_key atom_offset top_key in
  slot_map_update ls handler_name new_top_key pot_key;;
  handler ← read_handler lo handler_name;
  match dict_get pot_key (potentials handler) with
  | Some p => potentials_update ls handler_name pot_key p
  | None => raise (mk_exn KeyError [Fmt (PyStr pot_key)])
  end.

(** The body of the loop over [other.handlers.items()]. The handler the
    loop holds is an object of the store: what it contains is read again,
    under its name, each time the body uses it. *)
Definition combine_handler (ls lo : loc) (atom_offset : Z) (handler_name : string)
    (handler : PotentialHandler) : M unit :=
  _ ← read_handler ls handler_name;
  if decide (handler_name = "Electrostatics") then mret tt
  else
    for_items (h ← read_handler lo handler_name; mret (slot_map h))
      (combine_slot ls lo atom_offset handler_name).

(** The body of the loop over [other["Electrostatics"].charges.items()]. *)
Definition combine_charge (self_copy : loc) (atom_offset : Z)
    (atom_key : TopologyKey) (charge : Qc) : M unit :=
  match atom_indices atom_key with
  | idx :: _ =>
      let new_top_key := mk_TopologyKey [(idx + atom_offset)%Z] (mult atom_key) in
      electrostatics_charges_update self_copy new_top_key charge
  | [] => raise (mk_exn IndexError [])
  end.

Definition __add__ (self other : loc) : M loc :=
  warn combination_warning;;
  self_copy ← System_new;
  ls ← _inner_data self;
  set_inner_data self_copy ls;;
  (* atom_offset = self_copy.topology.mdtop.n_atoms *)
  top ← get_topology self_copy;
  atom_offset ←
    match top with
    | Some t =>
        match mdtop t with
        | Some n => mret (Z.of_nat n)
        | None => raise (mk_exn AttributeError [])
        end
    | None => raise (mk_exn AttributeError [])
    end;
  (* other_top = deepcopy(other.topology) *)
  other_top ← get_topology other;
  mols ←
    match other_top with
    | Some t => mret (topology_molecules t)
    | None => raise (mk_exn AttributeError [])
    end;
  for_each mols (λ top_mol, modify_topology ls (add_molecule top_mol));;
  modify_topology ls (λ t, mk_OFFBioTop (topology_molecules t) (Some (from_openmm_n_atoms t)));;
  lo ← _inner_data other;
  for_items (i ← read_inner lo; mret (handlers i)) (combine_handler ls lo atom_offset);;
  for_items (electrostatics_charges other) (combine_charge self_copy atom_offset);;
  p_self ← get_positions self_copy;
  p_other ← get_positions other;
  new_positions ← lift (vstack p_self p_other);
  set_positions self_copy (Some new_positions);;
  b_self ← get_box self_copy;
  b_other ← get_box other;
  if all_equal b_self b_other then mret self_copy
  else raise unequal_box_error.

(** *** The per-particle parameter table *)

Definition atom_index (k : TopologyKey) : Z := hd 0%Z (atom_indices k).

(** Insertion of a slot-map entry into a list ordered by atom index; an
    entry goes after the entries of the same atom already there. *)
Fixpoint insert_by_atom (e : TopologyKey * PotentialKey)
    (l : list (TopologyKey * PotentialKey)) : list (TopologyKey * PotentialKey) :=
  match l with
  | [] => [e]
  | x :: rest =>
      if decide (atom_index e.1 < atom_index x.1)%Z then e :: x :: rest
      else x :: insert_by_atom e rest
  end.

Definition sort_by_atom (l : list (TopologyKey * PotentialKey)) : list (TopologyKey * PotentialKey) :=
  foldl (λ acc e, insert_by_atom e acc) [] l.

Definition parameter_row (p : Potential) : list Qc := dict_values (parameters p).

Fixpoint rows_of (pots : pydict PotentialKey Potential)
    (entries : list (TopologyKey * PotentialKey)) : result (list (list Qc)) :=
  match entries with
  | [] => Ok []
  | (_, pot_key) :: rest =>
      match dict_get pot_key pots with
      | Some p => rs ← rows_of pots rest; mret (parameter_row p :: rs)
      | None => Raise (mk_exn KeyError [Fmt (PyStr pot_key)])
      end
  end.

(** Modelled from the spec: [PotentialHandler.get_system_parameters]
    (openff/system/components/potentials.py) is missing from the sources.
    For a per-particle handler it produces the numeric parameter rows in
    atom index order, each row being the parameters of the potential the
    atom's slot resolves to; a slot whose potential is absent from the
    store makes it fail. *)
Definition get_system_parameters (h : PotentialHandler) : result (list (list Qc)) :=
  rows_of (potentials h) (sort_by_atom (slot_map h)).

End SystemModel.

(** ** OpenMM export of the nonbonded handlers: [openff/system/interop/openmm.py] *)

Module OpenMMExport.

(** The handlers as this exporter reads them: slot maps keyed and valued
    by strings, and a charge map on the electrostatics handler. *)
Record Handler := mk_Handler {
  method : string;
  cutoff : Qc;
  slot_map : pydict string string;
  potentials : pydict string (Qc * Qc);
  charge_map : pydict string Qc
}.

Record OpenFFSystem := mk_OpenFFSystem {
  handlers : pydict string Handler;
  box : option (ndarray float)
}.

Inductive NonbondedMethod := NoCutoff | CutoffNonPeriodic | CutoffPeriodic | Ewald | PME.

(** The calls an exporter can make on an [openmm.NonbondedForce]. *)
Inductive force_call :=
| setNonbondedMethod (m : NonbondedMethod)
| setUseDispersionCorrection (b : bool)
| setCutoffDistance (d : Qc)
| setParticleParameters (atom_idx : Z) (charge sigma epsilon : Qc).

(** An [openmm.NonbondedForce] is known by the calls made on it since it
    was constructed, oldest first. *)
Record NonbondedForce := mk_NonbondedForce { calls : list force_call }.

Definition is_setNonbondedMethod (c : force_call) : bool :=
  match c with setNonbondedMethod _ => true | _ => false end.

(** Whether the nonbonded method of the force was ever set. *)
Definition method_configured (f : NonbondedForce) : bool :=
  existsb is_setNonbondedMethod (calls f).

(** [getNonbondedMethod()]: the last method set, the engine's default
    [NoCutoff] when none was. *)
Definition getNonbondedMethod (f : NonbondedForce) : NonbondedMethod :=
  foldl (λ m c, match c with setNonbondedMethod m' => m' | _ => m end) NoCutoff (calls f).

(** An [openmm.System] is known by the forces added to it. *)
Record OpenMMSystem := mk_OpenMMSystem { forces : list NonbondedForce }.

Definition X (A : Type) : Type := OpenMMSystem → OpenMMSystem * result A.

#[global] Instance X_ret : MRet X := λ A a s, (s, Ok a).
#[global] Instance X_bind : MBind X := λ A B f m s,
  match m s with
  | (s', Ok a) => f a s'
  | (s', Raise e) => (s', Raise e)
  end.

Definition xraise {A} (c : exn_class) : X A := λ s, (s, Raise (mk_exn c [])).

Definition addForce (f : NonbondedForce) : X unit :=
  λ s, (mk_OpenMMSystem (forces s ++ [f]), Ok tt).

(** A call on the force added last, which is the one the exporter holds. *)
Definition call_force (c : force_call) : X unit :=
  λ s,
    match reverse (forces s) with
    | f :: before => (mk_OpenMMSystem (reverse before ++ [mk_NonbondedForce (calls f ++ [c])]), Ok tt)
    | [] => (s, Ok tt)
    end.

Definition lookup_handler (openff_sys : OpenFFSystem) (name : string) : X Handler :=
  match dict_get name (handlers openff_sys) with
  | Some h => mret h
  | None => xraise KeyError
  end.

Definition is_digit (c : ascii) : bool :=
  let n := nat_of_ascii c in (48 <=? n)%nat && (n <=? 57)%nat.

Definition is_identifier_start (c : ascii) : bool :=
  let n := nat_of_ascii c in
  ((65 <=? n)%nat && (n <=? 90)%nat) || ((97 <=? n)%nat && (n <=? 122)%nat) || (n =? 95)%nat.

(** [eval(vdw_atom)[0]] where [vdw_atom] is one character of a string: a
    digit evaluates to an int, which cannot be subscripted; a letter or an
    underscore is a name that is not bound in the scope of the function;
    any other character is not an expression. *)
Definition eval_subscript_error (c : ascii) : exn_class :=
  if is_digit c then TypeError
  else if is_identifier_start c then NameError
  else SyntaxError.

(** The body of the loop over [vdw_handler.slot_map.values()]: the value is
    unpacked into two, which a string allows when it has two characters. *)
Definition particle_step (value : string) : X unit :=
  match String.list_ascii_of_string value with
  | [vdw_atom; vdw_smirks] => xraise (eval_subscript_error vdw_atom)
  | _ => xraise ValueError
  end.

Fixpoint particle_loop (values : list string) : X unit :=
  match values with
  | [] => mret tt
  | v :: rest => particle_step v;; particle_loop rest
  end.

(** Store the pairings, not just the supported methods for each. *)
Definition supported_cutoff_methods : list (string * string) := [("Cutoff", "PME")].

Definition _process_nonbonded_forces (openff_sys : OpenFFSystem) : X unit :=
  vdw_handler ← lookup_handler openff_sys "vdW";
  if decide (method vdw_handler ∉ supported_cutoff_methods.*1) then
    xraise UnsupportedCutoffMethodError
  else
    let vdw_cutoff := cutoff vdw_handler in
    electrostatics_handler ← lookup_handler openff_sys "Electrostatics";
    if decide (method electrostatics_handler ∉ supported_cutoff_methods.*2) then
      xraise UnsupportedCutoffMethodError
    else
      addForce (mk_NonbondedForce []);;
      (if decide (method vdw_handler = "cutoff") then
         match box openff_sys with
         | None => call_force (setNonbondedMethod NoCutoff)
         | Some _ =>
             call_force (setNonbondedMethod PME);;
             call_force (setUseDispersionCorrection true);;
             call_force (setCutoffDistance vdw_cutoff)
         end
       else mret tt);;
      particle_loop (dict_values (slot_map vdw_handler)).

End OpenMMExport.

(** ** OpenMM export of virtual sites:
       [openff/interchange/interop/openmm/_virtual_sites.py] *)

Module VirtualSites.

Inductive site_class :=
| _BondChargeVirtualSite
| _MonovalentLonePairVirtualSite
| _DivalentLonePairVirtualSite
| _TrivalentLonePairVirtualSite.

#[global] Instance site_class_eq_dec : EqDecision site_class.
Proof. solve_decision. Defined.

Definition vec3 : Type := float * float * float.

(** Modelled from the spec: the virtual-site classes
    (openff/interchange/components/_particles.py) are missing from the
    sources. A virtual site has orientation atoms, a distance, for a lone
    pair an out-of-plane angle, and the weights and position of its local
    coordinate frame. Lengths are magnitudes in nanometers, the angle is a
    magnitude in its own unit; all are doubles. *)
Record _VirtualSite := mk_VirtualSite {
  class_of : site_class;
  orientations : list Z;
  distance : float;
  out_of_plane_angle : float;
  local_frame_weights : list float * list float * list float;
  local_frame_positions : vec3
}.

Inductive VirtualSite :=
| TwoParticleAverageSite (p1 p2 : Z) (w1 w2 : float)
| ThreeParticleAverageSite (p1 p2 p3 : Z) (w1 w2 w3 : float)
| LocalCoordinatesSite (particles : list Z) (originwt xdir ydir : list float) (pos : vec3).

Fixpoint lookup_all (m : gmap Z Z) (keys : list Z) : result (list Z) :=
  match keys with
  | [] => Ok []
  | k :: rest =>
      match m !! k with
      | Some v => vs ← lookup_all m rest; mret (v :: vs)
      | None => Raise (mk_exn KeyError [Fmt (PyInt k)])
      end
  end.

Definition index (l : list Z) (i : nat) : result Z :=
  match l !! i with
  | Some x => Ok x
  | None => raise_bare IndexError
  end.

(** [x ** 2] on a double. *)
Definition square (x : float) : float := (x * x)%float.

Section Exporter.

(** [_get_separation_by_atom_indices(interchange, atom_indices)] for the
    container being exported: the distance between two atoms in
    nanometers, read from its positions. The function is defined in
    openff/interchange/interop/_virtual_sites.py, outside the sources. *)
Variable _get_separation_by_atom_indices : list Z → result float.

(** [numpy.arccos] and [numpy.cos] on doubles; neither raises (outside
    [-1, 1] the arc cosine is NaN). *)
Variable arccos : float → float.
Variable cos : float → float.

Definition local_frame_site (virtual_site : _VirtualSite) (openmm_indices : list Z) : VirtualSite :=
  let '(originwt, xdir, ydir) := local_frame_weights virtual_site in
  LocalCoordinatesSite openmm_indices originwt xdir ydir (local_frame_positions virtual_site).

Definition _create_openmm_virtual_site (virtual_site : _VirtualSite)
    (openff_openmm_particle_map : gmap Z Z) : result VirtualSite :=
  openmm_indices ← lookup_all openff_openmm_particle_map (orientations virtual_site);
  match class_of virtual_site with
  | _BondChargeVirtualSite =>
      separation ← _get_separation_by_atom_indices (orientations virtual_site);
      let ratio := (distance virtual_site / separation)%float in
      match openmm_indices with
      | [p1; p2] => Ok (TwoParticleAverageSite p1 p2 (1 + ratio)%float (0 - ratio)%float)
      | _ => raise_bare TypeError
      end
  | _DivalentLonePairVirtualSite =>
      r12 ← _get_separation_by_atom_indices (take 2 (orientations virtual_site));
      o0 ← index (orientations virtual_site) 0;
      o2 ← index (orientations virtual_site) 2;
      r13 ← _get_separation_by_atom_indices [o0; o2];
      if (r12 =? r13)%float && (out_of_plane_angle virtual_site =? 0)%float then
        r23 ← _get_separation_by_atom_indices (drop 1 (orientations virtual_site));
        let theta := arccos ((square r23 - square r12 - square r13) / (-2 * r12 * r13))%float in
        let r1mid := (cos (theta / 2) * r12)%float in
        let w1 := (1 + distance virtual_site / r1mid)%float in
        match openmm_indices with
        | [p1; p2; p3] =>
            Ok (ThreeParticleAverageSite p1 p2 p3 w1 ((1 - w1) / 2)%float ((1 - w1) / 2)%float)
        | _ => raise_bare TypeError
        end
      else Ok (local_frame_site virtual_site openmm_indices)
  | _ => Ok (local_frame_site virtual_site openmm_indices)
  end.

End Exporter.

End VirtualSites.

(** ** The electrostatics collection:
       [openff/interchange/common/_nonbonded.py] *)

Module Nonbonded.

(** A key of the charge table: a [TopologyKey] or a
    [LibraryChargeTopologyKey], which may span several atoms. *)
Inductive charge_key :=
| TopologyKey (atom_indices : list Z) (mult : option Z)
| LibraryChargeTopologyKey (this_atom_index : Z).

#[global] Instance charge_key_eq_dec : EqDecision charge_key.
Proof. solve_decision. Defined.

Record ElectrostaticsCollection := mk_ElectrostaticsCollection {
  cutoff : Qc;
  scale_12 : Qc;
  scale_13 : Qc;
  scale_14 : Qc;
  scale_15 : Qc;
  periodic_potential : string;
  nonperiodic_potential : string;
  exception_potential : string;
  _charges : pydict charge_key Qc;
  _charges_cached : bool
}.

(** The [charges] property: the total partial charge on each atom,
    including virtual sites. *)
Definition charges (self : ElectrostaticsCollection) : result (pydict charge_key Qc) :=
  raise_bare NotImplementedError.

Definition _get_charges (self : ElectrostaticsCollection) : result (pydict charge_key Qc) :=
  raise_bare NotImplementedError.

End Nonbonded.

(** ** Concrete inputs used by the examples below *)

Module Inputs.
Import SystemModel.

Definition q (z : Z) : Qc := Q2Qc (inject_Z z).

(** The 3-vector [[a, b, c]] and the matrix [diag(a, b, c)], whose
    entries off the diagonal are +0.0. *)
Definition vector3 (a b c : float) : ndarray float := mk_ndarray [3]%nat [a; b; c].
Definition diagonal3 (a b c : float) : ndarray float :=
  mk_ndarray [3; 3]%nat [a; 0%float; 0%float; 0%float; b; 0%float; 0%float; 0%float; c].

(** A box given as lengths and angles, [[2, 2, 3, 90, 90, 90]]. *)
Definition lengths_and_angles : ndarray float :=
  mk_ndarray [6]%nat [2%float; 2%float; 3%float; 90%float; 90%float; 90%float].

Definition atom (i : Z) : TopologyKey := mk_TopologyKey [i] None.

Definition lj (sigma epsilon : Z) : Potential :=
  mk_Potential [("sigma", q sigma); ("epsilon", q epsilon)].

Definition one_atom_top : OFFBioTop := mk_OFFBioTop [mk_Molecule "C" 1] (Some 1%nat).

Definition vdw_of (p : Potential) : PotentialHandler :=
  mk_PotentialHandler "cutoff" [(atom 0, "[#6:1]")] [("[#6:1]", p)] None.

Definition electrostatics_of (charge : Qc) : PotentialHandler :=
  mk_PotentialHandler "pme" [] [] (Some [(atom 0, charge)]).

Definition one_position (x : Z) : ndarray scalar :=
  mk_ndarray [1; 3]%nat [Num (q x); Num (q x); Num (q x)].

(** A one-atom container, with the given vdW potential and positions. *)
Definition one_atom (p : Potential) (pos : option (ndarray scalar)) : InnerSystem :=
  mk_InnerSystem [("vdW", vdw_of p); ("Electrostatics", electrostatics_of 0%Qc)]
    (Some one_atom_top) None pos.

(** A store with two containers, at locations 0 and 1, each with its own
    [InnerSystem]. *)
Definition two_systems (a b : InnerSystem) : heap := mk_heap [0; 1]%nat [a; b] [].

Definition positioned_unpositioned : heap :=
  two_systems (one_atom (lj 1 2) (Some (one_position 0))) (one_atom (lj 1 2) None).

Definition unpositioned_unpositioned : heap :=
  two_systems (one_atom (lj 1 2) None) (one_atom (lj 1 2) None).

Definition positioned_positioned : heap :=
  two_systems (one_atom (lj 1 2) (Some (one_position 0)))
              (one_atom (lj 1 2) (Some (one_position 1))).

(** Two positioned containers whose vdW stores give one potential
    identity two different parameter sets. *)
Definition clashing_identities : heap :=
  two_systems (one_atom (lj 1 2) (Some (one_position 0)))
              (one_atom (lj 3 4) (Some (one_position 1))).

(** A periodic system whose handlers name the methods the exporter
    supports. *)
Definition supported_periodic : OpenMMExport.OpenFFSystem :=
  OpenMMExport.mk_OpenFFSystem
    [("vdW", OpenMMExport.mk_Handler "Cutoff" (q 9) [] [] []);
     ("Electrostatics", OpenMMExport.mk_Handler "PME" (q 9) [] [] [])]
    (Some (diagonal3 4 4 4)).

(** The same system with one atom in the vdW slot map. *)
Definition supported_periodic_one_atom : OpenMMExport.OpenFFSystem :=
  OpenMMExport.mk_OpenFFSystem
    [("vdW", OpenMMExport.mk_Handler "Cutoff" (q 9) [("(0,)", "[#6:1]")] [("[#6:1]", (q 1, q 2))] []);
     ("Electrostatics", OpenMMExport.mk_Handler "PME" (q 9) [] [] [("(0,)", 0%Qc)])]
    (Some (diagonal3 4 4 4)).

Definition empty_openmm : OpenMMExport.OpenMMSystem := OpenMMExport.mk_OpenMMSystem [].

Definition identity_map3 : gmap Z Z := {[ 0%Z := 0%Z; 1%Z := 1%Z; 2%Z := 2%Z ]}.

(** A particle map of a system in which the atoms are not the first
    particles: atoms 0, 1 and 2 are the particles 5, 7 and 6. *)
Definition shuffled_map3 : gmap Z Z := {[ 0%Z := 5%Z; 1%Z := 7%Z; 2%Z := 6%Z ]}.

(** A bond-charge site on atoms 0 and 1, at the given distance. *)
Definition bond_charge_site_at (distance : float) : VirtualSites._VirtualSite :=
  VirtualSites.mk_VirtualSite VirtualSites._BondChargeVirtualSite [0%Z; 1%Z] distance 0%float
    ([1%float; 0%float], [(-1)%float; 1%float], [(-1)%float; 1%float])
    (0%float, 0%float, 0%float).

(** A bond-charge site on atoms 0 and 1, at distance 1. *)
Definition bond_charge_site : VirtualSites._VirtualSite := bond_charge_site_at 1.

(** A divalent lone-pair site on atoms 0, 1 and 2, at distance 1, with
    the given out-of-plane angle. *)
Definition divalent_site (angle : float) : VirtualSites._VirtualSite :=
  VirtualSites.mk_VirtualSite VirtualSites._DivalentLonePairVirtualSite [0%Z; 1%Z; 2%Z] 1%float angle
    ([1%float; 0%float; 0%float], [(-1)%float; 1%float; 0%float], [(-1)%float; 0%float; 1%float])
    (1%float, 0%float, 0%float).

(** Atoms 2 apart from each other, whichever pair is asked for. *)
Definition separation_two (atom_indices : list Z) : result float := Ok 2%float.

(** Atoms 0.6 apart from each other. *)
Definition separation_six_tenths (atom_indices : list Z) : result float := Ok 0.6%float.


(** Atoms 1 and 2 are at one place, 2 away from atom 0. *)
Definition separation_coincident (atom_indices : list Z) : result float :=
  if decide (atom_indices = [1%Z; 2%Z]) then Ok 0%float else Ok 2%float.

(** [numpy.arccos] and [numpy.cos] at the one argument each that the
    examples reach, where their values are exact: the arc cosine of 1.0 is
    0.0 and the cosine of 0.0 is 1.0. NaN stands for the values at the
    other arguments, which the examples do not use. *)
Definition arccos_at_one (x : float) : float :=
  if (x =? 1)%float then 0%float else nan.
Definition cos_at_zero (x : float) : float :=
  if (x =? 0)%float then 1%float else nan.

(** An electrostatics collection with a charge stored for atom 0. *)
Definition charged_collection : Nonbonded.ElectrostaticsCollection :=
  Nonbonded.mk_ElectrostaticsCollection (q 9) 0%Qc 0%Qc (Q2Qc (1 # 2)) (q 1)
    "Ewald3D-ConductingBoundary" "Coulomb" "Coulomb"
    [(Nonbonded.TopologyKey [0%Z] None, Q2Qc (1 # 2))] false.

End Inputs.

(** ** Reading a container out of the store *)

Module Combination.
Import SystemModel.

(** The handler registered under [name] in the container at [x]. *)
Definition handler_of (h : heap) (x : loc) (name : string) : option PotentialHandler :=
  l ← systems h !! x;
  i ← inner_data h !! l;
  dict_get name (handlers i).

(** [x.topology.mdtop.n_atoms], the atom count of the container at [x]. *)
Definition n_atoms_of (h : heap) (x : loc) : option nat :=
  l ← systems h !! x;
  i ← inner_data h !! l;
  t ← topology i;
  mdtop t.

Definition box_of (h : heap) (x : loc) : option (option (ndarray float)) :=
  l ← systems h !! x;
  i ← inner_data h !! l;
  Some (box i).

(** What one pass of the inner loop of [__add__] does to the handler of
    the left operand, for the slot-map entry [e] of the handler
    [other_h] of the right operand. *)
Definition merge_entry (atom_offset : Z) (other_h self_h : PotentialHandler)
    (e : TopologyKey * PotentialKey) : PotentialHandler :=
  mk_PotentialHandler (method self_h)
    (dict_set (offset_key atom_offset e.1) e.2 (slot_map self_h))
    (match dict_get e.2 (potentials other_h) with
     | Some p => dict_set e.2 p (potentials self_h)
     | None => potentials self_h
     end)
    (charges self_h).

Definition merge_handler (atom_offset : Z) (other_h self_h : PotentialHandler) : PotentialHandler :=
  foldl (merge_entry atom_offset other_h) self_h (slot_map other_h).

Definition with_handlers (hs : pydict string PotentialHandler) (i : InnerSystem) : InnerSystem :=
  mk_InnerSystem hs (topology i) (box i) (positions i).

(** The store while [__add__ self other] runs on the store [h], once the
    new [System] object points to the inner data of [self], held at [ls]:
    [x] is what that [InnerSystem] has become. *)
Definition state_with (h : heap) (ls : loc) (x : InnerSystem) : heap :=
  mk_heap (systems h ++ [ls])
    (<[ls := x]> (inner_data h ++ [InnerSystem_default]))
    (warnings h ++ [combination_warning]).

(** The stores the loops of [__add__] go through. *)
Definition reached_from (h : heap) (ls : loc) (s : heap) : Prop :=
  ∃ x, s = state_with h ls x.

Definition shift_entry (atom_offset : Z) (e : TopologyKey * PotentialKey) : TopologyKey * PotentialKey :=
  (offset_key atom_offset e.1, e.2).

End Combination.

(** ** What the combination stores *)

Module Written.
Import SystemModel.

(** The key under which [__add__] stores the charge that the right operand
    holds under [k]: the first atom index of [k] raised by the offset. *)
Definition moved_charge_key (atom_offset : Z) (k : TopologyKey) : TopologyKey :=
  mk_TopologyKey [(atom_index k + atom_offset)%Z] (mult k).

(** The charge table of the left operand once the loop over the charges
    of the right operand has run. *)
Definition merge_charges (atom_offset : Z) (ca cb : pydict TopologyKey Qc) : pydict TopologyKey Qc :=
  foldl (λ t e, dict_set (moved_charge_key atom_offset e.1) e.2 t) ca cb.

Definition shift_charge (atom_offset : Z) (e : TopologyKey * Qc) : TopologyKey * Qc :=
  (offset_key atom_offset e.1, e.2).

(** The store [s'] has the objects and the warnings of [s]: the same
    [System] objects, pointing where they did, as many [InnerSystem]
    objects, and the same warnings. *)
Definition same_objects (s s' : heap) : Prop :=
  systems s' = systems s
  ∧ warnings s' = warnings s
  ∧ length (inner_data s') = length (inner_data s).

(** A computation that, run where the object [sc] points to [ls], creates
    no object, redirects none and issues no warning, whether it returns or
    raises. *)
Definition confined {A} (sc ls : loc) (m : M A) : Prop :=
  ∀ s, systems s !! sc = Some ls → same_objects s (m s).1.

End Written.

(** ** The exports and the nonbonded settings of the container:
       [openff/system/components/system.py] *)

Module SystemExports.
Import SystemModel.

(** The exceptions of [openff.system.exceptions] that these methods raise,
    next to the built-in ones. *)
Inductive export_exn :=
| InternalInconsistencyError (msg : string)
| MissingPositionsError (msg : string)
| UnsupportedExportError
| Builtin (e : exn).

#[global] Instance export_exn_eq_dec : EqDecision export_exn.
Proof. solve_decision. Defined.

(** A call that leaves this file: the writers are defined in modules
    ([openff.system.interop.external], [openff.system.interop.internal])
    that the methods import when they run. The call is recorded with its
    arguments and is taken to return. *)
Inductive delegation :=
| ParmEdWrapper_to_file (self : loc) (file_path : string)
| gromacs_to_gro (self : loc) (file_path : string) (decimal : Z)
| gromacs_to_top (self : loc) (file_path : string)
| lammps_to_lammps (self : loc) (file_path : string).

#[global] Instance delegation_eq_dec : EqDecision delegation.
Proof. solve_decision. Defined.

(** The object store and the calls made to the writers so far. *)
Record world := mk_world { store : heap; delegated : list delegation }.

Inductive outcome (A : Type) :=
| Returned (a : A)
| Failed (e : export_exn).
Arguments Returned {A} a.
Arguments Failed {A} e.

Definition E (A : Type) : Type := world → world * outcome A.

#[global] Instance E_ret : MRet E := λ A a w, (w, Returned a).
#[global] Instance E_bind : MBind E := λ A B f m w,
  match m w with
  | (w', Returned a) => f a w'
  | (w', Failed e) => (w', Failed e)
  end.

Definition fail {A} (e : export_exn) : E A := λ w, (w, Failed e).

(** A computation on the object store, run inside [E]. *)
Definition from_store {A} (m : M A) : E A := λ w,
  match m (store w) with
  | (h', Ok a) => (mk_world h' (delegated w), Returned a)
  | (h', Raise e) => (mk_world h' (delegated w), Failed (Builtin e))
  end.

Definition delegate (d : delegation) : E unit := λ w,
  (mk_world (store w) (delegated w ++ [d]), Returned tt).

Record nonbonded_methods := mk_nonbonded_methods {
  electrostatics_method : string;
  vdw_method : string;
  periodic_topology : bool
}.

Definition handler_item (self : loc) (name : string) : E PotentialHandler :=
  hs ← from_store (get_handlers self);
  match dict_get name hs with
  | Some hd => mret hd
  | None => fail (Builtin (mk_exn KeyError [Fmt (PyStr name)]))
  end.

Definition _get_nonbonded_methods (self : loc) : E nonbonded_methods :=
  hs ← from_store (get_handlers self);
  nonbonded_handler ←
    (if dict_in "vdW" hs then mret "vdW"
     else if dict_in "Buckingham-6" hs then mret "Buckingham-6"
     else fail (InternalInconsistencyError "Found no non-bonded handlers"));
  electrostatics ← handler_item self "Electrostatics";
  nonbonded ← handler_item self nonbonded_handler;
  b ← from_store (get_box self);
  mret (mk_nonbonded_methods (method electrostatics) (method nonbonded)
          (match b with Some _ => true | None => false end)).

(** The absolute tolerance of [numpy.allclose]. *)
Definition atol : Qc := Q2Qc (1 # 100000000).

(** [numpy.allclose(a, 0)]: every element within [atol] of zero; an array
    that holds [None] cannot be compared. *)
Definition allclose_zero (a : ndarray scalar) : result bool :=
  if existsb (λ c, match c with NoneCell => true | Num _ => false end) (data a)
  then raise_bare TypeError
  else Ok (forallb (λ c, match c with
                         | Num x => bool_decide (Qcabs (x - 0) <= atol)%Qc
                         | NoneCell => false
                         end) (data a)).

Definition missing_positions_error : export_exn :=
  MissingPositionsError "Positions are required to write a `.gro` file but found None.".

Definition zero_positions_warning : string :=
  "Positions seem to all be zero. Result coordinate file may be non-physical.".

Definition to_gro (self : loc) (file_path : string) (writer : string) (decimal : Z) : E unit :=
  p ← from_store (get_positions self);
  match p with
  | None => fail missing_positions_error
  | Some a =>
      all_zero ← from_store (lift (allclose_zero a));
      if (all_zero : bool) then from_store (warn zero_positions_warning) else mret tt
  end;;
  if decide (writer = "parmed") then delegate (ParmEdWrapper_to_file self file_path)
  else if decide (writer = "internal") then delegate (gromacs_to_gro self file_path decimal)
  else mret tt.

Definition to_top (self : loc) (file_path : string) (writer : string) : E unit :=
  if decide (writer = "parmed") then delegate (ParmEdWrapper_to_file self file_path)
  else if decide (writer = "internal") then delegate (gromacs_to_top self file_path)
  else mret tt.

Definition to_lammps (self : loc) (file_path : string) (writer : string) : E unit :=
  if decide (writer ≠ "internal") then fail UnsupportedExportError
  else delegate (lammps_to_lammps self file_path).

Definition to_prmtop (self : loc) (file_path : string) (writer : string) : E unit :=
  if decide (writer = "parmed") then delegate (ParmEdWrapper_to_file self file_path)
  else fail UnsupportedExportError.

Definition to_crd (self : loc) (file_path : string) (writer : string) : E unit :=
  if decide (writer = "parmed") then delegate (ParmEdWrapper_to_file self file_path)
  else fail UnsupportedExportError.

End SystemExports.

(** ** What an exported virtual site holds *)

Module VirtualSiteViews.
Import VirtualSites.

(** The particles an OpenMM virtual site depends on, in the order they
    were given to its constructor. *)
Definition particles_of (site : VirtualSite) : list Z :=
  match site with
  | TwoParticleAverageSite p1 p2 _ _ => [p1; p2]
  | ThreeParticleAverageSite p1 p2 p3 _ _ _ => [p1; p2; p3]
  | LocalCoordinatesSite particles _ _ _ _ => particles
  end.

End VirtualSiteViews.

(** ** OpenMM export of the bond and angle handlers:
       [openff/system/interop/openmm.py] *)

Module OpenMMBonded.

(** The units the module multiplies parameters by: [kcal_ang] and
    [kcal_rad] are its own constants, [angstrom] and [degree] come from
    [simtk.unit]. *)
Inductive openmm_unit := kcal_ang | kcal_rad | angstrom | degree.

#[global] Instance openmm_unit_eq_dec : EqDecision openmm_unit.
Proof. solve_decision. Defined.

(** A number times a unit. *)
Record Quantity := mk_Quantity { magnitude : Qc; unit_of : openmm_unit }.

#[global] Instance Quantity_eq_dec : EqDecision Quantity.
Proof. solve_decision. Defined.

(** The handlers as these exporters read them: a slot map from keys to
    potential identities, and potentials with named parameters. *)
Record Potential := mk_Potential { parameters : pydict string Qc }.

Record Handler := mk_Handler {
  slot_map : pydict string string;
  potentials : pydict string Potential
}.

Record OpenFFSystem := mk_OpenFFSystem { handlers : pydict string Handler }.

(** The calls the exporters make on a bonded force. *)
Inductive bonded_call :=
| addBond (particle1 particle2 : Z) (length k : Quantity)
| addAngle (particle1 particle2 particle3 : Z) (angle k : Quantity).

#[global] Instance bonded_call_eq_dec : EqDecision bonded_call.
Proof. solve_decision. Defined.

Inductive force_class := HarmonicBondForce | HarmonicAngleForce.

#[global] Instance force_class_eq_dec : EqDecision force_class.
Proof. solve_decision. Defined.

(** A force is known by its class and the calls made on it since it was
    constructed, oldest first. *)
Record Force := mk_Force { class_of_force : force_class; calls : list bonded_call }.

Record OpenMMSystem := mk_OpenMMSystem { forces : list Force }.

Definition B (A : Type) : Type := OpenMMSystem → OpenMMSystem * result A.

#[global] Instance B_ret : MRet B := λ A a s, (s, Ok a).
#[global] Instance B_bind : MBind B := λ A B f m s,
  match m s with
  | (s', Ok a) => f a s'
  | (s', Raise e) => (s', Raise e)
  end.

Definition braise {A} (e : exn) : B A := λ s, (s, Raise e).
Definition blift {A} (r : result A) : B A := λ s, (s, r).

Definition addForce (f : Force) : B unit :=
  λ s, (mk_OpenMMSystem (forces s ++ [f]), Ok tt).

(** What a unit measures. *)
Inductive dimension := Length | Angle | EnergyPerLength2 | EnergyPerAngle2.

#[global] Instance dimension_eq_dec : EqDecision dimension.
Proof. solve_decision. Defined.

Definition dimension_of (u : openmm_unit) : dimension :=
  match u with
  | kcal_ang => EnergyPerLength2
  | kcal_rad => EnergyPerAngle2
  | angstrom => Length
  | degree => Angle
  end.

(** OpenMM takes the value of each unit-bearing argument in the unit it
    expects for it, which fails with TypeError when the argument measures
    something else. It expects a length and an energy per squared length of
    [addBond], an angle and an energy per squared angle of [addAngle]. *)
Definition accepted (c : bonded_call) : bool :=
  match c with
  | addBond _ _ length k =>
      bool_decide (dimension_of (unit_of length) = Length)
      && bool_decide (dimension_of (unit_of k) = EnergyPerLength2)
  | addAngle _ _ _ angle k =>
      bool_decide (dimension_of (unit_of angle) = Angle)
      && bool_decide (dimension_of (unit_of k) = EnergyPerAngle2)
  end.

(** A call on the force added last, which is the one the exporter holds. *)
Definition call_force (c : bonded_call) : B unit :=
  λ s,
    if accepted c then
      match reverse (forces s) with
      | f :: before =>
          (mk_OpenMMSystem (reverse before ++ [mk_Force (class_of_force f) (calls f ++ [c])]),
           Ok tt)
      | [] => (s, Ok tt)
      end
    else (s, Raise (mk_exn TypeError [])).

(** [d[k]] *)
Definition getitem {V} (d : pydict string V) (k : string) : B V :=
  match dict_get k d with
  | Some v => mret v
  | None => braise (mk_exn KeyError [Fmt (PyStr k)])
  end.

(** [indices[i]] *)
Definition subscript (indices : list Z) (i : nat) : B Z :=
  match indices !! i with
  | Some x => mret x
  | None => braise (mk_exn IndexError [])
  end.

Section Exporters.

(** [eval(key)] for a key of a slot map, which the exporters subscript as
    a sequence of atom indices; an exception raised by the evaluation is
    its error result. *)
Variable py_eval : string → result (list Z).

(** The body of the loop of [_process_bond_forces]. *)
Definition bond_step (bond_handler : Handler) (bond key : string) : B unit :=
  indices ← blift (py_eval bond);
  potential ← getitem (potentials bond_handler) key;
  let params := parameters potential in
  k ← getitem params "k";
  length ← getitem params "length";
  particle1 ← subscript indices 0;
  particle2 ← subscript indices 1;
  call_force (addBond particle1 particle2 (mk_Quantity length angstrom) (mk_Quantity k kcal_ang)).

Fixpoint bond_loop (bond_handler : Handler) (items : list (string * string)) : B unit :=
  match items with
  | [] => mret tt
  | (bond, key) :: rest => bond_step bond_handler bond key;; bond_loop bond_handler rest
  end.

Definition _process_bond_forces (openff_sys : OpenFFSystem) : B unit :=
  addForce (mk_Force HarmonicBondForce []);;
  bond_handler ← getitem (handlers openff_sys) "Bonds";
  bond_loop bond_handler (dict_items (slot_map bond_handler)).

(** The body of the loop of [_process_angle_forces]. *)
Definition angle_step (angle_handler : Handler) (angle key : string) : B unit :=
  indices ← blift (py_eval angle);
  potential ← getitem (potentials angle_handler) key;
  let params := parameters potential in
  k ← getitem params "k";
  angle ← getitem params "angle";
  particle1 ← subscript indices 0;
  particle2 ← subscript indices 1;
  particle3 ← subscript indices 2;
  call_force (addAngle particle1 particle2 particle3
                (mk_Quantity angle degree) (mk_Quantity k kcal_ang)).

Fixpoint angle_loop (angle_handler : Handler) (items : list (string * string)) : B unit :=
  match items with
  | [] => mret tt
  | (angle, key) :: rest => angle_step angle_handler angle key;; angle_loop angle_handler rest
  end.

Definition _process_angle_forces (openff_sys : OpenFFSystem) : B unit :=
  addForce (mk_Force HarmonicAngleForce []);;
  angle_handler ← getitem (handlers openff_sys) "Angles";
  angle_loop angle_handler (dict_items (slot_map angle_handler)).

Definition _process_proper_torsion_forces (openff_sys : OpenFFSystem) : B unit := mret tt.

Definition _process_impproper_torsion_forces (openff_sys : OpenFFSystem) : B unit := mret tt.

(** The bonded part of [to_openmm]: the four calls that precede the
    nonbonded export. *)
Definition process_bonded_forces (openff_sys : OpenFFSystem) : B unit :=
  _process_bond_forces openff_sys;;
  _process_angle_forces openff_sys;;
  _process_proper_torsion_forces openff_sys;;
  _process_impproper_torsion_forces openff_sys.

End Exporters.

End OpenMMBonded.

(** ** The call the bonded exporters make for one slot *)

Module BondedViews.
Import OpenMMBonded.

Definition ok_value {A} (r : result A) : option A :=
  match r with Ok a => Some a | Raise _ => None end.

Section Slots.
Variable py_eval : string → result (list Z).

(** The bond a slot of the bond handler stands for: the first two indices
    its key evaluates to, with the length and the force constant of the
    potential the slot resolves to. *)
Definition bond_of_slot (bond_handler : Handler) (slot : string * string) : option bonded_call :=
  indices ← ok_value (py_eval slot.1);
  potential ← dict_get slot.2 (potentials bond_handler);
  k ← dict_get "k" (parameters potential);
  length ← dict_get "length" (parameters potential);
  particle1 ← indices !! 0%nat;
  particle2 ← indices !! 1%nat;
  Some (addBond particle1 particle2 (mk_Quantity length angstrom) (mk_Quantity k kcal_ang)).

Definition angle_of_slot (angle_handler : Handler) (slot : string * string) : option bonded_call :=
  indices ← ok_value (py_eval slot.1);
  potential ← dict_get slot.2 (potentials angle_handler);
  k ← dict_get "k" (parameters potential);
  angle ← dict_get "angle" (parameters potential);
  particle1 ← indices !! 0%nat;
  particle2 ← indices !! 1%nat;
  particle3 ← indices !! 2%nat;
  Some (addAngle particle1 particle2 particle3
          (mk_Quantity angle degree) (mk_Quantity k kcal_ang)).

End Slots.

(** A stand-in for [eval] on the two keys the examples use. *)
Definition eval_example (key : string) : result (list Z) :=
  if decide (key = "(0, 1)") then Ok [0%Z; 1%Z]
  else if decide (key = "(0, 1, 2)") then Ok [0%Z; 1%Z; 2%Z]
  else raise_bare SyntaxError.

Definition one_bond : Handler :=
  mk_Handler [("(0, 1)", "[#6:1]-[#1:2]")]
    [("[#6:1]-[#1:2]",
      mk_Potential [("k", Q2Qc (inject_Z 680)); ("length", Q2Qc (inject_Z 1))])].

Definition one_angle : Handler :=
  mk_Handler [("(0, 1, 2)", "[#1:1]-[#6:2]-[#1:3]")]
    [("[#1:1]-[#6:2]-[#1:3]",
      mk_Potential [("k", Q2Qc (inject_Z 100)); ("angle", Q2Qc (inject_Z 109))])].

(** A container with one bond and one angle. *)
Definition bonded_example : OpenFFSystem :=
  mk_OpenFFSystem [("Bonds", one_bond); ("Angles", one_angle)].

(** A container with one bond and an "Angles" handler without angles. *)
Definition bond_only_example : OpenFFSystem :=
  mk_OpenFFSystem [("Bonds", one_bond); ("Angles", mk_Handler [] [])].

End BondedViews.

(** ** The comparison helpers of the tests:
       [openff/interchange/_tests/__init__.py] *)

Module TestHelpers.

(** A piece of the message of a failed assertion: text or a formatted
    number. *)
Inductive piece :=
| Text (s : string)
| Value (x : Qc).

(** How a helper ends: it returns, an [assert] fails, or another exception
    is raised. *)
Inductive outcome (A : Type) :=
| Done (a : A)
| AssertionError (message : list piece)
| Raised (e : exn).
Arguments Done {A} a.
Arguments AssertionError {A} message.
Arguments Raised {A} e.

#[global] Instance outcome_ret : MRet outcome := λ A a, Done a.
#[global] Instance outcome_bind : MBind outcome := λ A B f m,
  match m with
  | Done a => f a
  | AssertionError msg => AssertionError msg
  | Raised e => Raised e
  end.

(** [assert condition, message] *)
Definition assert_ (condition : bool) (message : list piece) : outcome unit :=
  if condition then Done tt else AssertionError message.

Fixpoint for_each_o {A} (l : list A) (body : A → outcome unit) : outcome unit :=
  match l with
  | [] => Done tt
  | x :: rest => body x;; for_each_o rest body
  end.

(** [l[i]] *)
Definition item {A} (l : list A) (i : nat) : outcome A :=
  match l !! i with
  | Some x => Done x
  | None => Raised (mk_exn IndexError [])
  end.

(** [d[k]] on a plain dictionary. *)
Definition getitem {K V} `{EqDecision K} (d : pydict K V) (k : K) : outcome V :=
  match dict_get k d with
  | Some v => Done v
  | None => Raised (mk_exn KeyError [])
  end.

(** [d[k]] on a [defaultdict(list)]: a missing key is entered with an
    empty list, which is the value read. *)
Definition defaultdict_getitem {K V} `{EqDecision K} (k : K) (d : pydict K (list V)) :
    list V * pydict K (list V) :=
  match dict_get k d with
  | Some l => (l, d)
  | None => ([], dict_set k [] d)
  end.

(** What [getTorsionParameters(i)] returns for one torsion of an
    [openmm.PeriodicTorsionForce]; the force is the list of its torsions. *)
Record torsion := mk_torsion {
  t_p1 : Z; t_p2 : Z; t_p3 : Z; t_p4 : Z;
  periodicity : Z; phase : Qc; t_k : Qc
}.

Definition torsion_key : Type := Z * Z * Z * Z.
Definition torsion_term : Type := Z * Qc * Qc.

Definition key_of (t : torsion) : torsion_key := (t_p1 t, t_p2 t, t_p3 t, t_p4 t).
Definition term_of (t : torsion) : torsion_term := (periodicity t, phase t, t_k t).

(** The body of the loop of [_create_torsion_dict]. *)
Definition add_torsion (torsions : pydict torsion_key (list torsion_term)) (t : torsion) :
    pydict torsion_key (list torsion_term) :=
  let key := key_of t in
  let torsions1 := (defaultdict_getitem key torsions).2 in
  let '(terms, torsions2) := defaultdict_getitem key torsions1 in
  dict_set key (terms ++ [term_of t]) torsions2.

Definition _create_torsion_dict (torsion_force : list torsion) :
    pydict torsion_key (list torsion_term) :=
  foldl add_torsion [] torsion_force.

(** What [getBondParameters(i)] returns for one bond of an
    [openmm.HarmonicBondForce]. *)
Record bond := mk_bond { b_p1 : Z; b_p2 : Z; b_length : Qc; b_k : Qc }.


Definition tol_12 : Qc := Q2Qc (1 # 1000000000000).
Definition tol_8 : Qc := Q2Qc (1 # 100000000).




(** What [getParticleParameters(i)] returns for one particle of an
    [openmm.NonbondedForce]: charge, sigma and epsilon. *)
Definition particle : Type := Qc * Qc * Qc.

Definition _compare_nonbonded_parameters (force1 force2 : list particle) : outcome unit :=
  assert_ (bool_decide (length force1 = length force2))
    [Text "found different number of particles"];;
  for_each_o (seq 0 (length force1)) (λ i,
    '(q1, sig1, eps1) ← item force1 i;
    '(q2, sig2, eps2) ← item force2 i;
    assert_ (bool_decide (Qcabs (q2 - q1) < tol_8)%Qc)
      [Text "charge mismatch in particle "; Value (Q2Qc (inject_Z (Z.of_nat i)));
       Text ": "; Value q1; Text " vs "; Value q2];;
    assert_ (bool_decide (Qcabs (sig2 - sig1) < tol_12)%Qc)
      [Text "sigma mismatch in particle "; Value (Q2Qc (inject_Z (Z.of_nat i)));
       Text ": "; Value sig1; Text " vs "; Value sig2];;
    assert_ (bool_decide (Qcabs (eps2 - eps1) < tol_12)%Qc)
      [Text "epsilon mismatch in particle "; Value (Q2Qc (inject_Z (Z.of_nat i)));
       Text ": "; Value eps1; Text " vs "; Value eps2]).

End TestHelpers.

(** ** Relations between the forces the helpers compare *)

Module TestHelperViews.
Import TestHelpers.

(** The number of terms a torsion dictionary holds, over all its keys. *)
Definition total_terms (d : pydict torsion_key (list torsion_term)) : nat :=
  sum_list (length <$> dict_values d).




End TestHelperViews.

(** * Properties *)

Import SystemModel Inputs Combination Written VirtualSiteViews.

(** ** The supported-handler check *)

(** The names the check reports: registered, not the exempted name, and
    outside the supported set. *)
Definition reported (name : string) : Prop :=
  name ≠ "ToolkitAM1BCC" ∧ name ∉ _SUPPORTED_SMIRNOFF_HANDLERS.

#[global] Instance reported_dec name : Decision (reported name).
Proof. unfold reported. apply _. Defined.

Lemma collect_unsupported_filter names acc :
  collect_unsupported names acc = acc ++ filter reported names.
Proof.
  revert acc. induction names as [|n rest IH]; intros acc; simpl.
  - by rewrite app_nil_r.
  - rewrite filter_cons. destruct (decide (n ∈ ({[ "ToolkitAM1BCC" ]} : gset string))) as [Hin|Hout].
    + apply elem_of_singleton in Hin. rewrite decide_False; [apply IH|].
      unfold reported. intros [Hne _]. done.
    + assert (n ≠ "ToolkitAM1BCC") as Hne by (intros ->; apply Hout; set_solver).
      destruct (decide (n ∉ _SUPPORTED_SMIRNOFF_HANDLERS)) as [Hns|Hs].
      * rewrite decide_True by done. rewrite IH. by rewrite <- app_assoc.
      * rewrite decide_False; [apply IH|]. intros [_ ?]. done.
Qed.

(** C10: the check reports exactly the registered names that are neither
    "ToolkitAM1BCC" nor in the supported set, in registration order, and
    raises the handlers-not-implemented error when there is one; the
    exempted name is not in the supported set, and a force field that
    registers only it passes. *)
Theorem check_supported_handlers_exempts_am1bcc :
  (∀ force_field,
     _check_supported_handlers force_field =
       match filter reported (registered_parameter_handlers force_field) with
       | [] => Ok tt
       | u :: us => Raise (mk_exn SMIRNOFFHandlersNotImplementedError [FmtList (u :: us)])
       end)
  ∧ bool_decide ("ToolkitAM1BCC" ∈ _SUPPORTED_SMIRNOFF_HANDLERS) = false
  ∧ bool_decide (reported "ToolkitAM1BCC") = false
  ∧ _check_supported_handlers (mk_ForceField ["ToolkitAM1BCC"; "Bonds"]) = Ok tt
  ∧ _check_supported_handlers (mk_ForceField ["ToolkitAM1BCC"; "GBSA"; "Bonds"; "VirtualSites"])
    = Raise (mk_exn SMIRNOFFHandlersNotImplementedError [FmtList ["GBSA"; "VirtualSites"]]).
Proof.
  split; [|by vm_compute].
  intros [names]. unfold _check_supported_handlers. simpl.
  rewrite collect_unsupported_filter. simpl. by destruct (filter reported names).
Qed.

(** ** Products of doubles with 1.0 and 0.0 *)

Lemma finite_nonneg_spec x :
  finite_nonneg x = true →
  Prim2SF x = S754_zero false ∨ ∃ m e, Prim2SF x = S754_finite false m e.
Proof.
  unfold finite_nonneg. rewrite classify_spec. unfold SF64classify, SFclassify.
  destruct (Prim2SF x) as [[]|[]| |[] m e]; try done; try (by left).
  - by destruct (_ =? _)%Z.
  - intros _. right. by eexists _, _.
Qed.

Lemma float_mul_zero x : finite_nonneg x = true → (x * 0)%float = 0%float.
Proof.
  intros H. apply Prim2SF_inj. rewrite mul_spec.
  destruct (finite_nonneg_spec x H) as [->|(m & e & ->)]; reflexivity.
Qed.

Lemma shr_shifted_mantissa m :
  iter_pos shr_1 52 (Build_shr_record (Zpos (Pos.iter xO m 52)) false false)
  = Build_shr_record (Zpos m) false false.
Proof. reflexivity. Qed.

Lemma digits_shifted_mantissa m :
  Zpos (digits2_pos (Pos.iter xO m 52)) = (Zpos (digits2_pos m) + 52)%Z.
Proof. simpl. lia. Qed.

(** The product of a finite double with 1.0 = 2^52 * 2^-52 is rounded to
    the double itself. *)
Lemma SFmul_one s m e :
  bounded prec emax m e = true →
  SFmul prec emax (S754_finite s m e) (S754_finite false 4503599627370496 (-52))
  = S754_finite s m e.
Proof.
  intros Hb. unfold bounded, canonical_mantissa in Hb.
  apply andb_prop in Hb as [Hc He]. apply Z.eqb_eq in Hc.
  unfold SFmul.
  replace (m * 4503599627370496)%positive with (Pos.iter xO m 52)
    by (rewrite Pos.mul_comm; reflexivity).
  unfold binary_round_aux.
  unfold shr_fexp at 1. unfold Zdigits2. rewrite digits_shifted_mantissa.
  replace (Z.pos (digits2_pos m) + 52 + (e + -52))%Z with (Z.pos (digits2_pos m) + e)%Z by lia.
  rewrite Hc. replace (e - (e + -52))%Z with 52%Z by lia.
  unfold shr_record_of_loc, shr. rewrite shr_shifted_mantissa.
  cbn [shr_m loc_of_shr_record round_nearest_even].
  unfold shr_fexp. unfold Zdigits2.
  replace (e + -52 + 52)%Z with e by lia.
  rewrite Hc. rewrite Z.sub_diag. cbn [shr shr_record_of_loc shr_m].
  rewrite He. by destruct s.
Qed.

Lemma float_mul_one x : (x * 1)%float = x.
Proof.
  apply Prim2SF_inj. rewrite mul_spec.
  change (Prim2SF 1) with (S754_finite false 4503599627370496 (-52)).
  pose proof (Prim2SF_valid x) as Hv.
  destruct (Prim2SF x) as [[]|[]| |s m e]; try reflexivity.
  by apply SFmul_one.
Qed.

(** ** The box setter *)

Lemma set_box_run h self ls i value :
  systems h !! self = Some ls →
  inner_data h !! ls = Some i →
  set_box self value h =
    match validate_box value with
    | Ok v => (mk_heap (systems h)
                 (<[ls := mk_InnerSystem (handlers i) (topology i) v (positions i)]> (inner_data h))
                 (warnings h), Ok tt)
    | Raise e => (h, Raise (validation_error "box"))
    end.
Proof.
  intros Hs Hi. unfold set_box, _inner_data, read_inner, write_inner, get_heap, put_heap.
  unfold mbind, M_bind, mret, M_ret. rewrite Hs. simpl. rewrite Hi. simpl.
  by destruct (validate_box value).
Qed.

Lemma get_box_run h self ls i :
  systems h !! self = Some ls →
  inner_data h !! ls = Some i →
  get_box self h = (h, Ok (box i)).
Proof.
  intros Hs Hi. unfold get_box, _inner_data, read_inner, get_heap.
  unfold mbind, M_bind, mret, M_ret. rewrite Hs. simpl. by rewrite Hi.
Qed.

(** What the validator makes of a 3-vector: the lengths on the diagonal,
    their products with 0.0 off it. *)
Lemma validate_box_vector a b c :
  validate_box (Some (vector3 a b c))
  = Ok (Some (mk_ndarray [3; 3]%nat
                [a; (b * 0)%float; (c * 0)%float;
                 (a * 0)%float; b; (c * 0)%float;
                 (a * 0)%float; (b * 0)%float; c])).
Proof.
  unfold validate_box, vector3. simpl. by rewrite !float_mul_one.
Qed.

Lemma validate_box_diagonal a b c :
  validate_box (Some (diagonal3 a b c)) = Ok (Some (diagonal3 a b c)).
Proof. reflexivity. Qed.

(** C7, as amended: on a container, setting the box to the 3-vector
    [a, b, c] stores the matrix with a, b and c on the diagonal and, off the
    diagonal, the double products of the lengths with 0.0, each in its
    column. For lengths that are finite with the sign bit clear this is
    diag(a, b, c) bit for bit: the store is the same as after setting the
    box to diag(a, b, c), which is the box read back. Setting it to None
    stores None. An array whose shape is neither (3,) nor (3, 3) makes the
    validator raise the invalid-box error, which reaches the caller as a
    validation error, and nothing is stored. *)
Theorem box_setter_vector_matrix_none_invalid (h : heap) (self ls : loc) (i : InnerSystem) :
  systems h !! self = Some ls →
  inner_data h !! ls = Some i →
  (∀ a b c,
     ∃ h', set_box self (Some (vector3 a b c)) h = (h', Ok tt)
           ∧ get_box self h'
             = (h', Ok (Some (mk_ndarray [3; 3]%nat
                                [a; (b * 0)%float; (c * 0)%float;
                                 (a * 0)%float; b; (c * 0)%float;
                                 (a * 0)%float; (b * 0)%float; c]))))
  ∧ (∀ a b c,
       finite_nonneg a = true → finite_nonneg b = true → finite_nonneg c = true →
       set_box self (Some (vector3 a b c)) h = set_box self (Some (diagonal3 a b c)) h
       ∧ ∃ h', set_box self (Some (vector3 a b c)) h = (h', Ok tt)
              ∧ get_box self h' = (h', Ok (Some (diagonal3 a b c))))
  ∧ (∃ h', set_box self None h = (h', Ok tt) ∧ get_box self h' = (h', Ok None))
  ∧ (∀ arr, shape arr ≠ [3; 3]%nat → shape arr ≠ [3]%nat →
       validate_box (Some arr) = Raise (mk_exn InvalidBoxError [])
       ∧ set_box self (Some arr) h = (h, Raise (mk_exn ValidationError [Lit "box"]))).
Proof.
  intros Hs Hi.
  assert (ls < length (inner_data h))%nat as Hlt by (by eapply lookup_lt_Some).
  split; [|split; [|split]].
  - intros a b c. rewrite (set_box_run h self ls i) by done.
    rewrite validate_box_vector.
    eexists. split; [reflexivity|].
    erewrite get_box_run; cycle 1;
      [done | simpl; by apply list_lookup_insert_eq | reflexivity].
  - intros a b c Ha Hb Hc. rewrite !(set_box_run h self ls i) by done.
    rewrite validate_box_vector, validate_box_diagonal.
    rewrite !float_mul_zero by done. split; [done|].
    eexists. split; [reflexivity|].
    erewrite get_box_run; cycle 1;
      [done | simpl; by apply list_lookup_insert_eq | reflexivity].
  - rewrite (set_box_run h self ls i) by done. simpl.
    eexists. split; [reflexivity|].
    erewrite get_box_run; cycle 1;
      [done | simpl; by apply list_lookup_insert_eq | reflexivity].
  - intros arr H33 H3. rewrite (set_box_run h self ls i) by done.
    unfold validate_box. by rewrite !decide_False.
Qed.

Lemma box_setter_witness :
  set_box 0 (Some (vector3 2 2 3)) positioned_positioned
    = set_box 0 (Some (diagonal3 2 2 3)) positioned_positioned
  ∧ (∃ h', set_box 0 (Some (vector3 2 2 3)) positioned_positioned = (h', Ok tt)
           ∧ get_box 0 h' = (h', Ok (Some (diagonal3 2 2 3))))
  ∧ set_box 0 (Some lengths_and_angles) positioned_positioned
    = (positioned_positioned, Raise (mk_exn ValidationError [Lit "box"])).
Proof.
  destruct (box_setter_vector_matrix_none_invalid positioned_positioned 0 0
              (one_atom (lj 1 2) (Some (one_position 0))) eq_refl eq_refl)
    as (_ & Hv & _ & Hbad).
  split; [|split].
  - apply Hv; reflexivity.
  - apply Hv; reflexivity.
  - apply Hbad; discriminate.
Defined.

(** C7, the claim as stated fails: with the length -1.0 the products
    -1.0 * 0.0 of the first column are -0.0, so that the box stored for the
    vector [-1, 2, 3] differs from diag(-1, 2, 3) in the sign bit of two
    entries, although the two compare equal as numbers. *)
Lemma box_setter_negative_length :
  (∃ h', set_box 0 (Some (vector3 (-1) 2 3)) positioned_positioned = (h', Ok tt)
         ∧ get_box 0 h'
           = (h', Ok (Some (mk_ndarray [3; 3]%nat
                              [(-1)%float; 0%float; 0%float;
                               (-0)%float; 2%float; 0%float;
                               (-0)%float; 0%float; 3%float]))))
  ∧ set_box 0 (Some (vector3 (-1) 2 3)) positioned_positioned
    ≠ set_box 0 (Some (diagonal3 (-1) 2 3)) positioned_positioned
  ∧ all_equal (Some (mk_ndarray [3; 3]%nat
                       [(-1)%float; 0%float; 0%float;
                        (-0)%float; 2%float; 0%float;
                        (-0)%float; 0%float; 3%float]))
              (Some (diagonal3 (-1) 2 3)) = true.
Proof.
  split; [|split].
  - eexists. split; reflexivity.
  - intros H. apply (f_equal fst) in H. revert H.
    apply (proj1 (bool_decide_eq_false _)). vm_compute. reflexivity.
  - vm_compute. reflexivity.
Qed.

(** ** Lookup by name *)

Lemma get_handlers_run h self ls i :
  systems h !! self = Some ls →
  inner_data h !! ls = Some i →
  get_handlers self h = (h, Ok (handlers i)).
Proof.
  intros Hs Hi. unfold get_handlers, _inner_data, read_inner, get_heap.
  unfold mbind, M_bind, mret, M_ret. rewrite Hs. simpl. by rewrite Hi.
Qed.

Lemma getitem_handler_name h self ls i s :
  systems h !! self = Some ls →
  inner_data h !! ls = Some i →
  s ≠ "positions" → s ≠ "box" → s ≠ "box_vectors" →
  __getitem__ self (PyStr s) h =
    match dict_get s (handlers i) with
    | Some hd => (h, Ok (CHandler hd))
    | None => (h, Raise (could_not_find_error (PyStr s) (dict_keys (handlers i))))
    end.
Proof.
  intros Hs Hi Hp Hb Hbv. unfold __getitem__.
  rewrite decide_False by done.
  rewrite decide_False
    by (rewrite elem_of_union, !elem_of_singleton; intros [?|?]; done).
  unfold mbind, M_bind. erewrite get_handlers_run by done.
  by destruct (dict_get s (handlers i)).
Qed.

(** C6, as the code has it: a key that is not a string raises LookupError
    with the "Only str" message; a string that is neither "positions",
    "box" nor "box_vectors" and names no registered handler raises
    LookupError with the "Could not find" message, which lists the
    registered handler names in registration order; a registered name other
    than those three returns its handler. Both errors are of the one class
    LookupError and differ in their message. *)
Theorem getitem_lookup_errors (h : heap) (self ls : loc) (i : InnerSystem) :
  systems h !! self = Some ls →
  inner_data h !! ls = Some i →
  (∀ item, type_name item ≠ "str" →
     __getitem__ self item h = (h, Raise (only_str_error item)))
  ∧ (∀ s, s ≠ "positions" → s ≠ "box" → s ≠ "box_vectors" →
       dict_get s (handlers i) = None →
       __getitem__ self (PyStr s) h
         = (h, Raise (could_not_find_error (PyStr s) (dict_keys (handlers i)))))
  ∧ (∀ s hd, s ≠ "positions" → s ≠ "box" → s ≠ "box_vectors" →
       dict_get s (handlers i) = Some hd →
       __getitem__ self (PyStr s) h = (h, Ok (CHandler hd)))
  ∧ (∀ item item' names,
       exn_kind (only_str_error item) = LookupError
       ∧ exn_kind (could_not_find_error item' names) = LookupError
       ∧ only_str_error item ≠ could_not_find_error item' names).
Proof.
  intros Hs Hi. repeat split.
  - intros item Hty. destruct item; try done.
  - intros s Hp Hb Hbv Hnone. rewrite (getitem_handler_name h self ls i) by done. by rewrite Hnone.
  - intros s hd Hp Hb Hbv Hsome. rewrite (getitem_handler_name h self ls i) by done. by rewrite Hsome.
  - discriminate.
Qed.

Lemma getitem_lookup_errors_witness :
  __getitem__ 0 (PyInt 1) positioned_positioned
    = (positioned_positioned, Raise (only_str_error (PyInt 1)))
  ∧ __getitem__ 0 (PyStr "CMAPs") positioned_positioned
    = (positioned_positioned,
       Raise (could_not_find_error (PyStr "CMAPs") ["vdW"; "Electrostatics"]))
  ∧ __getitem__ 0 (PyStr "vdW") positioned_positioned
    = (positioned_positioned, Ok (CHandler (vdw_of (lj 1 2)))).
Proof.
  destruct (getitem_lookup_errors positioned_positioned 0 0
              (one_atom (lj 1 2) (Some (one_position 0))) eq_refl eq_refl)
    as (Hint & Hmiss & Hhit & _).
  split; [|split].
  - apply Hint. simpl. discriminate.
  - apply (Hmiss "CMAPs"); (discriminate || reflexivity).
  - apply (Hhit "vdW"); (discriminate || reflexivity).
Defined.

(** C6, as the claim states it, fails: the error for the key 1 and the
    error for the unregistered name "CMAPs" are of the same kind. *)
Lemma getitem_errors_same_kind :
  ∃ e1 e2,
    (__getitem__ 0 (PyInt 1) positioned_positioned).2 = Raise e1
    ∧ (__getitem__ 0 (PyStr "CMAPs") positioned_positioned).2 = Raise e2
    ∧ ¬ (exn_kind e1 ≠ exn_kind e2).
Proof.
  eexists _, _. split; [reflexivity|]. split; [reflexivity|].
  intros Hne. by apply Hne.
Qed.

(** ** The electrostatics collection *)

(** C5, as the code has it: reading [charges] on an electrostatics
    collection raises the not-yet-implemented error whatever the collection
    holds, and so does [_get_charges]; no charge table is returned. *)
Theorem charges_always_not_implemented (c : Nonbonded.ElectrostaticsCollection) :
  Nonbonded.charges c = Raise (mk_exn NotImplementedError [])
  ∧ Nonbonded._get_charges c = Raise (mk_exn NotImplementedError [])
  ∧ is_ok (Nonbonded.charges c) = false.
Proof. done. Qed.

(** C5, as the claim states it, fails: a collection that holds a charge for
    atom 0 does not return a charge table. *)
Lemma charges_registered_source_fails :
  Nonbonded._charges charged_collection ≠ []
  ∧ ¬ ∃ table, Nonbonded.charges charged_collection = Ok table.
Proof.
  split; [discriminate|]. intros [table H]. discriminate H.
Qed.

(** ** Facts about dictionaries *)

Section DictFacts.
Context {K V : Type} `{EqDecision K}.
Implicit Types (k : K) (v : V) (d : pydict K V).

Lemma dict_get_set_eq k v d : dict_get k (dict_set k v d) = Some v.
Proof.
  induction d as [|[k' v'] d IH]; simpl.
  - by rewrite decide_True.
  - destruct (decide (k = k')) as [->|Hne]; simpl.
    + by rewrite decide_True.
    + by rewrite decide_False.
Qed.

Lemma dict_get_set_ne k k' v d : k ≠ k' → dict_get k' (dict_set k v d) = dict_get k' d.
Proof.
  intros Hne. induction d as [|[k0 v0] d IH]; simpl.
  - by rewrite decide_False.
  - destruct (decide (k = k0)) as [->|Hne0]; simpl.
    + by rewrite !decide_False.
    + destruct (decide (k' = k0)); [done|apply IH].
Qed.

Lemma dict_get_None k d : dict_get k d = None ↔ k ∉ dict_keys d.
Proof.
  unfold dict_keys. induction d as [|[k' v'] d IH]; simpl.
  - split; [intros _; apply not_elem_of_nil|done].
  - rewrite not_elem_of_cons. destruct (decide (k = k')) as [->|Hne].
    + split; [done|]. intros [? _]. done.
    + rewrite IH. tauto.
Qed.

Lemma dict_set_fresh k v d : k ∉ dict_keys d → dict_set k v d = d ++ [(k, v)].
Proof.
  unfold dict_keys. induction d as [|[k' v'] d IH]; simpl; [done|].
  rewrite not_elem_of_cons. intros [Hne Hnin].
  rewrite decide_False by done. by rewrite IH.
Qed.

Lemma dict_set_keys_present k v d :
  k ∈ dict_keys d → dict_keys (dict_set k v d) = dict_keys d.
Proof.
  unfold dict_keys. induction d as [|[k' v'] d IH]; simpl.
  - intros Hin. by apply elem_of_nil in Hin.
  - intros Hin. destruct (decide (k = k')) as [->|Hne]; csimpl; [done|].
    apply elem_of_cons in Hin as [?|Hin]; [done|]. by rewrite IH.
Qed.

Lemma dict_get_Some_keys k v d : dict_get k d = Some v → k ∈ dict_keys d.
Proof.
  intros Hget. destruct (decide (k ∈ dict_keys d)) as [|Hnin]; [done|].
  apply dict_get_None in Hnin. congruence.
Qed.

Lemma dict_get_head k v d : dict_get k ((k, v) :: d) = Some v.
Proof. simpl. by rewrite decide_True. Qed.

Lemma dict_get_NoDup k v d :
  NoDup (dict_keys d) → (k, v) ∈ d → dict_get k d = Some v.
Proof.
  unfold dict_keys. induction d as [|[k' v'] d IH]; simpl.
  - intros _ Hin. by apply elem_of_nil in Hin.
  - intros Hnd Hin. apply NoDup_cons in Hnd as [Hnin Hnd].
    apply elem_of_cons in Hin as [Heq|Hin].
    + inversion Heq; subst. by rewrite decide_True.
    + rewrite decide_False; [by apply IH|].
      intros ->. apply Hnin. apply list_elem_of_fmap. by exists (k', v).
Qed.
End DictFacts.

(** ** Facts about the per-particle table *)

Lemma offset_key_inj n : Inj (=) (=) (offset_key n).
Proof.
  intros [a1 m1] [a2 m2]. unfold offset_key. simpl. intros Heq.
  inversion Heq as [[Ha Hm]]. clear Heq. f_equal.
  revert a2 Ha. induction a1 as [|x a1 IH]; intros [|y a2]; csimpl; try done.
  intros Hxy. inversion Hxy. f_equal; [lia|by apply IH].
Qed.

Lemma atom_index_offset n k :
  atom_indices k ≠ [] → atom_index (offset_key n k) = (atom_index k + n)%Z.
Proof. destruct k as [[|x a] m]; [done|]. by intros _. Qed.

Lemma elem_of_insert_by_atom x e l : x ∈ insert_by_atom e l ↔ x = e ∨ x ∈ l.
Proof.
  induction l as [|y l IH]; simpl.
  - rewrite list_elem_of_singleton. rewrite elem_of_nil. tauto.
  - destruct (decide (atom_index e.1 < atom_index y.1)%Z).
    + by rewrite elem_of_cons.
    + rewrite !elem_of_cons, IH. tauto.
Qed.

Lemma elem_of_foldl_insert x acc l :
  x ∈ foldl (λ acc e, insert_by_atom e acc) acc l ↔ x ∈ acc ∨ x ∈ l.
Proof.
  revert acc. induction l as [|e l IH]; intros acc; simpl.
  - rewrite elem_of_nil. tauto.
  - rewrite IH, elem_of_insert_by_atom, elem_of_cons. tauto.
Qed.

Lemma elem_of_sort_by_atom x l : x ∈ sort_by_atom l ↔ x ∈ l.
Proof. unfold sort_by_atom. rewrite elem_of_foldl_insert, elem_of_nil. tauto. Qed.

Lemma insert_by_atom_app e front back :
  (∀ x, x ∈ front → (atom_index x.1 ≤ atom_index e.1)%Z) →
  insert_by_atom e (front ++ back) = front ++ insert_by_atom e back.
Proof.
  induction front as [|y front IH]; intros Hle; simpl; [done|].
  rewrite decide_False.
  - f_equal. apply IH. intros x Hx. apply Hle. by right.
  - assert (atom_index y.1 ≤ atom_index e.1)%Z by (apply Hle; by left). lia.
Qed.

Lemma foldl_insert_app front back l :
  (∀ e x, e ∈ l → x ∈ front → (atom_index x.1 ≤ atom_index e.1)%Z) →
  foldl (λ acc e, insert_by_atom e acc) (front ++ back) l
    = front ++ foldl (λ acc e, insert_by_atom e acc) back l.
Proof.
  revert back. induction l as [|e l IH]; intros back Hle; simpl; [done|].
  rewrite insert_by_atom_app.
  - apply IH. intros e' x He' Hx. apply Hle; [by right|done].
  - intros x Hx. apply Hle; [by left|done].
Qed.

Lemma sort_by_atom_app la lb :
  (∀ e x, e ∈ lb → x ∈ la → (atom_index x.1 ≤ atom_index e.1)%Z) →
  sort_by_atom (la ++ lb) = sort_by_atom la ++ sort_by_atom lb.
Proof.
  intros Hle. unfold sort_by_atom. rewrite foldl_app.
  rewrite <- (app_nil_r (foldl _ [] la)) at 1.
  apply foldl_insert_app. intros e x He Hx. apply Hle; [done|].
  by apply elem_of_sort_by_atom.
Qed.

Lemma insert_by_atom_shift n e l :
  atom_indices e.1 ≠ [] →
  (∀ x, x ∈ l → atom_indices x.1 ≠ []) →
  insert_by_atom (shift_entry n e) (shift_entry n <$> l)
    = shift_entry n <$> insert_by_atom e l.
Proof.
  intros He. induction l as [|y l IH]; intros Hl; simpl; [done|].
  rewrite !atom_index_offset by (done || apply Hl; by left).
  destruct (decide (atom_index e.1 < atom_index y.1)%Z).
  - by rewrite decide_True by lia.
  - rewrite decide_False by lia. simpl. f_equal. apply IH.
    intros x Hx. apply Hl. by right.
Qed.

Lemma foldl_insert_shift n acc l :
  (∀ x, x ∈ acc → atom_indices x.1 ≠ []) →
  (∀ x, x ∈ l → atom_indices x.1 ≠ []) →
  foldl (λ acc e, insert_by_atom e acc) (shift_entry n <$> acc) (shift_entry n <$> l)
    = shift_entry n <$> foldl (λ acc e, insert_by_atom e acc) acc l.
Proof.
  revert acc. induction l as [|e l IH]; intros acc Hacc Hl; simpl; [done|].
  rewrite insert_by_atom_shift; [|apply Hl; by left|done].
  apply IH.
  - intros x Hx. apply elem_of_insert_by_atom in Hx as [->|Hx]; [apply Hl; by left|by apply Hacc].
  - intros x Hx. apply Hl. by right.
Qed.

Lemma sort_by_atom_shift n l :
  (∀ x, x ∈ l → atom_indices x.1 ≠ []) →
  sort_by_atom (shift_entry n <$> l) = shift_entry n <$> sort_by_atom l.
Proof.
  intros Hl. unfold sort_by_atom.
  apply (foldl_insert_shift n [] l); [|done]. intros x Hx. by apply elem_of_nil in Hx.
Qed.

Lemma rows_of_shift n pots l : rows_of pots (shift_entry n <$> l) = rows_of pots l.
Proof.
  induction l as [|[k pk] l IH]; csimpl; [done|].
  destruct (dict_get pk pots); [|done]. by rewrite IH.
Qed.

Lemma rows_of_app pots l1 l2 r1 r2 :
  rows_of pots l1 = Ok r1 → rows_of pots l2 = Ok r2 →
  rows_of pots (l1 ++ l2) = Ok (r1 ++ r2).
Proof.
  revert r1. induction l1 as [|[k pk] l1 IH]; intros r1; simpl.
  - intros [= <-]. done.
  - destruct (dict_get pk pots) as [p|]; [|done].
    destruct (rows_of pots l1) as [rs|] eqn:Hrs; simpl; [|done].
    intros [= <-] H2. by rewrite (IH rs eq_refl H2).
Qed.

Lemma rows_of_ext pots pots' l :
  (∀ e, e ∈ l → dict_get e.2 pots' = dict_get e.2 pots) →
  rows_of pots' l = rows_of pots l.
Proof.
  induction l as [|[k pk] l IH]; intros Hext; simpl; [done|].
  pose proof (Hext (k, pk)) as Hk. simpl in Hk. rewrite Hk by (by left).
  rewrite IH; [done|]. intros e He. apply Hext. by right.
Qed.

Lemma rows_of_Ok_lookup pots l rs e :
  rows_of pots l = Ok rs → e ∈ l → is_Some (dict_get e.2 pots).
Proof.
  revert rs. induction l as [|[k pk] l IH]; intros rs; simpl.
  - intros _ He. by apply elem_of_nil in He.
  - destruct (dict_get pk pots) as [p|] eqn:Hp; [|done].
    destruct (rows_of pots l) as [rs'|]; simpl; [|done].
    intros _ He. apply elem_of_cons in He as [->|He]; [simpl; by rewrite Hp|by eapply IH].
Qed.

(** ** The merged handler *)

Lemma merge_fold_slot_map n vb x l :
  slot_map (foldl (merge_entry n vb) x l)
    = foldl (λ sm e, dict_set (offset_key n e.1) e.2 sm) (slot_map x) l.
Proof. revert x. induction l as [|e l IH]; intros x; simpl; [done|]. by rewrite IH. Qed.

Lemma merge_fold_potentials n vb x l :
  potentials (foldl (merge_entry n vb) x l)
    = foldl (λ ps (e : TopologyKey * PotentialKey),
               match dict_get e.2 (potentials vb) with
               | Some p => dict_set e.2 p ps
               | None => ps
               end) (potentials x) l.
Proof. revert x. induction l as [|e l IH]; intros x; simpl; [done|]. by rewrite IH. Qed.

Lemma merge_fold_charges n vb x l :
  charges (foldl (merge_entry n vb) x l) = charges x
  ∧ method (foldl (merge_entry n vb) x l) = method x.
Proof. revert x. induction l as [|e l IH]; intros x; simpl; [done|]. by rewrite !(proj1 (IH _)), !(proj2 (IH _)). Qed.

Lemma foldl_set_fresh n (sm : pydict TopologyKey PotentialKey) (l : list (TopologyKey * PotentialKey)) :
  NoDup l.*1 →
  (∀ e, e ∈ l → offset_key n e.1 ∉ dict_keys sm) →
  foldl (λ sm e, dict_set (offset_key n e.1) e.2 sm) sm l = sm ++ (shift_entry n <$> l).
Proof.
  revert sm. induction l as [|e l IH]; intros sm Hnd Hfresh; csimpl.
  - by rewrite app_nil_r.
  - apply NoDup_cons in Hnd as [Hnin Hnd].
    rewrite dict_set_fresh by (apply Hfresh; by left).
    rewrite IH; [by rewrite <- app_assoc|done|].
    intros e' He'. unfold dict_keys. rewrite fmap_app, elem_of_app. intros [Hin|Hin].
    + eapply Hfresh; [by right|done].
    + simpl in Hin. apply list_elem_of_singleton in Hin.
      apply offset_key_inj in Hin. apply Hnin. rewrite <- Hin.
      apply list_elem_of_fmap. by exists e'.
Qed.

Section PotentialStores.
Variable pb : pydict PotentialKey Potential.

Let step (ps : pydict PotentialKey Potential) (e : TopologyKey * PotentialKey) :=
  match dict_get e.2 pb with
  | Some p => dict_set e.2 p ps
  | None => ps
  end.

Lemma potentials_kept ps l pk p :
  dict_get pk ps = Some p →
  (∀ p', dict_get pk pb = Some p' → p' = p) →
  dict_get pk (foldl step ps l) = Some p.
Proof.
  intros Hget Hagree. revert ps Hget.
  induction l as [|e l IH]; intros ps Hget; simpl; [done|].
  apply IH. unfold step. destruct (dict_get e.2 pb) as [p0|] eqn:Hp0; [|done].
  destruct (decide (e.2 = pk)) as [Heq|Hne].
  - rewrite Heq in *. rewrite dict_get_set_eq. f_equal. by apply Hagree.
  - by rewrite dict_get_set_ne.
Qed.

Lemma potentials_taken ps l pk p :
  pk ∈ l.*2 →
  dict_get pk pb = Some p →
  dict_get pk (foldl step ps l) = Some p.
Proof.
  intros Hin Hget. revert ps Hin.
  induction l as [|e l IH]; intros ps Hin; csimpl in *.
  - by apply elem_of_nil in Hin.
  - destruct (decide (e.2 = pk)) as [Heq|Hne].
    + apply potentials_kept; [|congruence].
      unfold step. rewrite Heq, Hget. apply dict_get_set_eq.
    + apply IH. apply elem_of_cons in Hin as [?|?]; [congruence|done].
Qed.
End PotentialStores.

Lemma merged_slot_map n va vb :
  NoDup (dict_keys (slot_map vb)) →
  (∀ k, k ∈ dict_keys (slot_map va) → (atom_index k < n)%Z) →
  (∀ k, k ∈ dict_keys (slot_map vb) → atom_indices k ≠ [] ∧ (0 ≤ atom_index k)%Z) →
  slot_map (merge_handler n vb va) = slot_map va ++ (shift_entry n <$> slot_map vb).
Proof.
  intros Hnd Ha Hb.
  unfold merge_handler. rewrite merge_fold_slot_map. apply foldl_set_fresh; [done|].
  intros e He Hin. apply list_elem_of_fmap in Hin as (x & Hx & Hxin).
  assert (atom_index x.1 < n)%Z as Hlt.
  { apply Ha. apply list_elem_of_fmap. by exists x. }
  destruct (Hb e.1) as [Hne Hge]; [apply list_elem_of_fmap; by exists e|].
  rewrite <- Hx in Hlt. rewrite atom_index_offset in Hlt by done. lia.
Qed.

Lemma merged_table n va vb ta tb :
  NoDup (dict_keys (slot_map vb)) →
  (∀ k, k ∈ dict_keys (slot_map va) → (atom_index k < n)%Z) →
  (∀ k, k ∈ dict_keys (slot_map vb) → atom_indices k ≠ [] ∧ (0 ≤ atom_index k)%Z) →
  (∀ pk p p', dict_get pk (potentials va) = Some p →
              dict_get pk (potentials vb) = Some p' → p = p') →
  get_system_parameters va = Ok ta →
  get_system_parameters vb = Ok tb →
  slot_map (merge_handler n vb va) = slot_map va ++ (shift_entry n <$> slot_map vb)
  ∧ get_system_parameters (merge_handler n vb va) = Ok (ta ++ tb).
Proof.
  intros Hnd Ha Hb Hagree Hta Htb.
  assert (∀ e, e ∈ slot_map va → (atom_index e.1 < n)%Z) as Ha'.
  { intros e He. apply Ha. apply list_elem_of_fmap. by exists e. }
  assert (∀ e, e ∈ slot_map vb → atom_indices e.1 ≠ [] ∧ (0 ≤ atom_index e.1)%Z) as Hb'.
  { intros e He. apply Hb. apply list_elem_of_fmap. by exists e. }
  assert (slot_map (merge_handler n vb va) = slot_map va ++ (shift_entry n <$> slot_map vb)) as Hsm
    by (by apply merged_slot_map).
  split; [done|].
  unfold get_system_parameters in *. rewrite Hsm.
  rewrite sort_by_atom_app.
  - rewrite sort_by_atom_shift by (intros x Hx; by apply Hb').
    apply rows_of_app.
    + rewrite <- Hta. apply rows_of_ext. intros e He.
      destruct (rows_of_Ok_lookup _ _ _ e Hta He) as [p Hp]. rewrite Hp.
      unfold merge_handler. rewrite merge_fold_potentials.
      apply potentials_kept; [done|]. intros p' Hp'. symmetry. by eapply Hagree.
    + rewrite rows_of_shift. rewrite <- Htb. apply rows_of_ext. intros e He.
      destruct (rows_of_Ok_lookup _ _ _ e Htb He) as [p Hp]. rewrite Hp.
      unfold merge_handler. rewrite merge_fold_potentials.
      apply potentials_taken; [|done].
      apply list_elem_of_fmap. exists e. split; [done|]. by apply elem_of_sort_by_atom.
  - intros e x He Hx. apply list_elem_of_fmap in He as (y & -> & Hy).
    specialize (Ha' x Hx). destruct (Hb' y Hy) as [Hne Hge].
    simpl. rewrite atom_index_offset by done. lia.
Qed.

(** ** Running the store computations *)

Lemma bind_run {A B} (m : M A) (f : A → M B) s :
  (m ≫= f) s = match m s with
               | (s', Ok a) => f a s'
               | (s', Raise e) => (s', Raise e)
               end.
Proof. reflexivity. Qed.

Lemma dict_set_id {K V} `{EqDecision K} (k : K) (v : V) d :
  dict_get k d = Some v → dict_set k v d = d.
Proof.
  induction d as [|[k' v'] d IH]; simpl; [done|].
  destruct (decide (k = k')) as [->|Hne]; [by intros [= ->]|].
  intros Hget. by rewrite IH.
Qed.

Lemma dict_set_set {K V} `{EqDecision K} (k : K) (v w : V) d :
  dict_set k w (dict_set k v d) = dict_set k w d.
Proof.
  induction d as [|[k' v'] d IH]; simpl.
  - by rewrite decide_True.
  - destruct (decide (k = k')) as [->|Hne]; simpl.
    + by rewrite decide_True.
    + rewrite decide_False by done. by rewrite IH.
Qed.

Lemma with_handlers_same x : with_handlers (handlers x) x = x.
Proof. by destruct x. Qed.

(** Live iteration over a dictionary that the body leaves alone is plain
    iteration over its items. [P] holds of the stores the loop goes
    through. *)
Lemma iterate_items_stable {K V} (P : heap → Prop) (read : M (pydict K V)) d
    (body : K → V → M unit) :
  (∀ s, P s → read s = (s, Ok d)) →
  (∀ s k v s', P s → body k v s = (s', Ok tt) → P s') →
  ∀ fuel i s, P s → (i + fuel = length d)%nat →
    iterate_items read (length d) i fuel body s
      = for_each (drop i d) (λ e, body e.1 e.2) s.
Proof.
  intros Hread Hbody fuel. induction fuel as [|fuel IH]; intros i s HP Hlen.
  - simpl. rewrite bind_run, Hread by done. rewrite decide_False by (intros Hne; by apply Hne).
    rewrite drop_ge by lia. done.
  - simpl. rewrite bind_run, Hread by done. rewrite decide_False by (intros Hne; by apply Hne).
    match goal with
    | |- context [match ?o with Some _ => _ | None => _ end] =>
        destruct o as [[k v]|] eqn:Hi
    end.
    + rewrite (drop_S _ _ _ Hi). simpl. rewrite !bind_run.
      destruct (body k v s) as [s' [[]|e]] eqn:Hb; [|done].
      apply IH; [by eapply Hbody|lia].
    + apply lookup_ge_None in Hi. lia.
Qed.

Lemma for_items_stable {K V} (P : heap → Prop) (read : M (pydict K V)) (r : result (pydict K V))
    (body : K → V → M unit) :
  (∀ s, P s → read s = (s, r)) →
  (∀ s k v s', P s → body k v s = (s', Ok tt) → P s') →
  ∀ s, P s →
    for_items read body s
      = match r with
        | Ok d => for_each d (λ e, body e.1 e.2) s
        | Raise e => (s, Raise e)
        end.
Proof.
  intros Hread Hbody s HP. unfold for_items. rewrite bind_run, Hread by done.
  destruct r as [d|e]; [|done].
  by rewrite (iterate_items_stable P read d body Hread Hbody (length d) 0 s HP).
Qed.

Section Running.
Variables (h : heap) (self other ls lo : loc) (ia ib : InnerSystem).
Hypothesis Hself : systems h !! self = Some ls.
Hypothesis Hother : systems h !! other = Some lo.
Hypothesis Hdistinct : ls ≠ lo.
Hypothesis Hia : inner_data h !! ls = Some ia.
Hypothesis Hib : inner_data h !! lo = Some ib.

Local Abbreviation St := (state_with h ls).
Local Abbreviation self_copy := (length (systems h)).

Lemma ls_in_range : (ls < length (inner_data h ++ [InnerSystem_default]))%nat.
Proof. rewrite length_app. apply lookup_lt_Some in Hia. lia. Qed.

Lemma St_inner_ls x : inner_data (St x) !! ls = Some x.
Proof. simpl. apply list_lookup_insert_eq. apply ls_in_range. Qed.

Lemma St_inner_lo x : inner_data (St x) !! lo = Some ib.
Proof.
  simpl. rewrite list_lookup_insert_ne by done.
  by apply lookup_app_l_Some.
Qed.

Lemma St_systems_copy x : systems (St x) !! self_copy = Some ls.
Proof. simpl. by rewrite lookup_app_r, Nat.sub_diag. Qed.

Lemma St_systems_other x : systems (St x) !! other = Some lo.
Proof. simpl. by apply lookup_app_l_Some. Qed.

Lemma St_write x y : write_inner ls y (St x) = (St y, Ok tt).
Proof.
  unfold write_inner, state_with. rewrite bind_run. simpl.
  unfold put_heap. simpl. by rewrite list_insert_insert_eq.
Qed.

Lemma St_read_ls x : read_inner ls (St x) = (St x, Ok x).
Proof. unfold read_inner. rewrite bind_run. unfold get_heap. by rewrite St_inner_ls. Qed.

Lemma St_read_lo x : read_inner lo (St x) = (St x, Ok ib).
Proof. unfold read_inner. rewrite bind_run. unfold get_heap. by rewrite St_inner_lo. Qed.

Lemma St_ref_copy x : _inner_data self_copy (St x) = (St x, Ok ls).
Proof. unfold _inner_data. rewrite bind_run. unfold get_heap. by rewrite St_systems_copy. Qed.

Lemma St_ref_other x : _inner_data other (St x) = (St x, Ok lo).
Proof. unfold _inner_data. rewrite bind_run. unfold get_heap. by rewrite St_systems_other. Qed.

Lemma St_read_handler_ls x name :
  read_handler ls name (St x)
    = (St x, match dict_get name (handlers x) with
             | Some hd => Ok hd
             | None => Raise (mk_exn KeyError [Fmt (PyStr name)])
             end).
Proof.
  unfold read_handler. rewrite bind_run, St_read_ls.
  by destruct (dict_get name (handlers x)).
Qed.

Lemma St_read_handler_lo x name :
  read_handler lo name (St x)
    = (St x, match dict_get name (handlers ib) with
             | Some hd => Ok hd
             | None => Raise (mk_exn KeyError [Fmt (PyStr name)])
             end).
Proof.
  unfold read_handler. rewrite bind_run, St_read_lo.
  by destruct (dict_get name (handlers ib)).
Qed.

Lemma St_write_handler x name hd :
  write_handler ls name hd (St x)
    = (St (with_handlers (dict_set name hd (handlers x)) x), Ok tt).
Proof. unfold write_handler. rewrite bind_run, St_read_ls. apply St_write. Qed.

(** *** The inner loop: one handler of the right operand *)

Section InnerLoop.
Variables (n : Z) (name : string) (hb : PotentialHandler).
Hypothesis Hhb : dict_get name (handlers ib) = Some hb.

Local Abbreviation inner_body := (combine_slot ls lo n name).

Lemma inner_body_run x hd k pk s' :
  dict_get name (handlers x) = Some hd →
  inner_body k pk (St x) = (s', Ok tt) →
  s' = St (with_handlers (dict_set name (merge_entry n hb hd (k, pk)) (handlers x)) x).
Proof.
  intros Hhd. unfold combine_slot, slot_map_update, potentials_update.
  rewrite !bind_run, St_read_handler_ls, Hhd, St_write_handler.
  rewrite bind_run, St_read_handler_lo, Hhb.
  unfold merge_entry. simpl.
  destruct (dict_get pk (potentials hb)) as [p|]; [|done].
  rewrite bind_run, St_read_handler_ls. simpl. rewrite dict_get_set_eq.
  rewrite St_write_handler. simpl. rewrite dict_set_set.
  by intros [= <-].
Qed.

Lemma inner_body_absent x k pk s' :
  dict_get name (handlers x) = None →
  inner_body k pk (St x) = (s', Ok tt) → False.
Proof.
  intros Hhd. unfold combine_slot, slot_map_update.
  rewrite !bind_run, St_read_handler_ls, Hhd. done.
Qed.

Lemma inner_loop_run l x hd s' :
  dict_get name (handlers x) = Some hd →
  for_each l (λ e, inner_body e.1 e.2) (St x) = (s', Ok tt) →
  s' = St (with_handlers (dict_set name (foldl (merge_entry n hb) hd l) (handlers x)) x).
Proof.
  revert x hd. induction l as [|[k pk] l IH]; intros x hd Hhd; simpl.
  - intros [= <-]. by rewrite dict_set_id, with_handlers_same.
  - rewrite bind_run.
    destruct (inner_body k pk (St x)) as [s1 [[]|e]] eqn:Hb; [|done].
    apply (inner_body_run x hd) in Hb; [|done]. subst s1.
    intros Hrest. eapply IH in Hrest; [|simpl; apply dict_get_set_eq].
    subst s'. simpl. by rewrite dict_set_set.
Qed.
End InnerLoop.

Local Abbreviation reached := (reached_from h ls).

(** *** The loop over the handlers of the right operand *)

Section HandlersLoop.
Variable n : Z.

Lemma combine_handler_run x name hb s' :
  dict_get name (handlers ib) = Some hb →
  combine_handler ls lo n name hb (St x) = (s', Ok tt) →
  ∃ hd, dict_get name (handlers x) = Some hd
    ∧ s' = St (if decide (name = "Electrostatics") then x
               else with_handlers (dict_set name (merge_handler n hb hd) (handlers x)) x).
Proof.
  intros Hhb. unfold combine_handler.
  rewrite bind_run, St_read_handler_ls.
  destruct (dict_get name (handlers x)) as [hd|] eqn:Hhd; [|done].
  intros Hrun. exists hd. split; [done|].
  destruct (decide (name = "Electrostatics")); [by inversion Hrun|].
  rewrite (for_items_stable reached _ (Ok (slot_map hb))) in Hrun.
  - by apply (inner_loop_run n name hb Hhb _ x hd) in Hrun.
  - intros s [y ->]. by rewrite bind_run, St_read_handler_lo, Hhb.
  - intros s k v s1 [y ->] Hb.
    destruct (dict_get name (handlers y)) as [hy|] eqn:Hy.
    + eexists. by eapply inner_body_run.
    + by eapply inner_body_absent in Hb.
  - by exists x.
Qed.

Lemma handlers_loop_run l x s' vb :
  dict_get "vdW" (handlers ib) = Some vb →
  (∀ name hb, (name, hb) ∈ l → dict_get name (handlers ib) = Some hb) →
  NoDup l.*1 →
  for_each l (λ e, combine_handler ls lo n e.1 e.2) (St x) = (s', Ok tt) →
  ∃ x', s' = St x'
    ∧ topology x' = topology x ∧ box x' = box x ∧ positions x' = positions x
    ∧ dict_get "vdW" (handlers x')
      = if decide ("vdW" ∈ l.*1) then merge_handler n vb <$> dict_get "vdW" (handlers x)
        else dict_get "vdW" (handlers x).
Proof.
  intros Hvb. revert x. induction l as [|[name hb] l IH]; intros x Hl Hnd; csimpl.
  - intros [= <-]. exists x. repeat split; try done.
  - apply NoDup_cons in Hnd as [Hnin Hnd].
    rewrite bind_run.
    destruct (combine_handler ls lo n name hb (St x)) as [s1 [[]|e]] eqn:Hstep; [|done].
    apply combine_handler_run in Hstep as (hd & Hhd & ->); [|apply Hl; by left].
    intros Hrest. apply IH in Hrest as (x' & -> & Ht & Hb & Hp & Hv);
      [|intros ???; apply Hl; by right|done].
    exists x'. split; [done|].
    destruct (decide (name = "Electrostatics")) as [->|Hne].
    + repeat split; try done. rewrite Hv.
      destruct (decide ("vdW" ∈ l.*1)).
      * rewrite decide_True; [done|by right].
      * rewrite decide_False; [done|]. rewrite not_elem_of_cons. done.
    + repeat split; try done. rewrite Hv. simpl.
      destruct (decide (name = "vdW")) as [->|Hnv].
      * rewrite decide_False by done. rewrite decide_True by (by left).
        rewrite dict_get_set_eq, Hhd. simpl.
        assert (dict_get "vdW" (handlers ib) = Some hb) as Hhb by (apply Hl; by left).
        congruence.
      * rewrite dict_get_set_ne by done.
        destruct (decide ("vdW" ∈ l.*1)).
        -- rewrite decide_True; [done|by right].
        -- rewrite decide_False; [done|]. rewrite not_elem_of_cons. done.
Qed.
End HandlersLoop.

(** *** The other steps of the combination *)

Lemma add_start {A} (k : loc → loc → M A) :
  (warn combination_warning;;
   self_copy ← System_new;
   l ← _inner_data self;
   set_inner_data self_copy l;;
   k self_copy l) h
  = k self_copy ls (St ia).
Proof.
  unfold warn, System_new, _inner_data, set_inner_data, get_heap, put_heap.
  unfold mbind, M_bind, mret, M_ret. simpl.
  rewrite (lookup_app_l_Some _ _ _ _ Hself). simpl.
  unfold state_with. do 2 f_equal.
  f_equal.
  - rewrite insert_app_r_alt by done. by rewrite Nat.sub_diag.
  - symmetry. apply list_insert_id. by apply lookup_app_l_Some.
Qed.

Lemma St_get_topology_copy x : get_topology self_copy (St x) = (St x, Ok (topology x)).
Proof. unfold get_topology. by rewrite bind_run, St_ref_copy, bind_run, St_read_ls. Qed.

Lemma St_get_topology_other x : get_topology other (St x) = (St x, Ok (topology ib)).
Proof. unfold get_topology. by rewrite bind_run, St_ref_other, bind_run, St_read_lo. Qed.

Lemma St_get_positions_copy x : get_positions self_copy (St x) = (St x, Ok (positions x)).
Proof. unfold get_positions. by rewrite bind_run, St_ref_copy, bind_run, St_read_ls. Qed.

Lemma St_get_positions_other x : get_positions other (St x) = (St x, Ok (positions ib)).
Proof. unfold get_positions. by rewrite bind_run, St_ref_other, bind_run, St_read_lo. Qed.

Lemma St_get_box_copy x : get_box self_copy (St x) = (St x, Ok (box x)).
Proof. unfold get_box. by rewrite bind_run, St_ref_copy, bind_run, St_read_ls. Qed.

Lemma St_get_box_other x : get_box other (St x) = (St x, Ok (box ib)).
Proof. unfold get_box. by rewrite bind_run, St_ref_other, bind_run, St_read_lo. Qed.

Lemma St_set_positions x p :
  set_positions self_copy p (St x)
    = (St (mk_InnerSystem (handlers x) (topology x) (box x) p), Ok tt).
Proof.
  unfold set_positions. by rewrite bind_run, St_ref_copy, bind_run, St_read_ls, St_write.
Qed.

Lemma St_modify_topology x f s' :
  modify_topology ls f (St x) = (s', Ok tt) →
  ∃ x', s' = St x' ∧ handlers x' = handlers x.
Proof.
  unfold modify_topology. rewrite bind_run, St_read_ls.
  destruct (topology x) as [t|]; [|done].
  rewrite St_write. intros [= <-]. by eexists.
Qed.

Lemma topology_loop_run mols x s' :
  for_each mols (λ top_mol, modify_topology ls (add_molecule top_mol)) (St x) = (s', Ok tt) →
  ∃ x', s' = St x' ∧ handlers x' = handlers x.
Proof.
  revert x. induction mols as [|m mols IH]; intros x; simpl.
  - intros [= <-]. by exists x.
  - rewrite bind_run.
    destruct (modify_topology ls (add_molecule m) (St x)) as [s1 [[]|e]] eqn:Hstep; [|done].
    apply St_modify_topology in Hstep as (x1 & -> & Hh1).
    intros Hrest. apply IH in Hrest as (x' & -> & Hh). exists x'. split; [done|congruence].
Qed.

Lemma St_getitem_copy x name :
  name ≠ "positions" → name ≠ "box" → name ≠ "box_vectors" →
  __getitem__ self_copy (PyStr name) (St x)
    = match dict_get name (handlers x) with
      | Some hd => (St x, Ok (CHandler hd))
      | None => (St x, Raise (could_not_find_error (PyStr name) (dict_keys (handlers x))))
      end.
Proof.
  intros. apply (getitem_handler_name (St x) self_copy ls x); try done.
  - apply St_systems_copy.
  - apply St_inner_ls.
Qed.

Lemma St_getitem_other x name :
  name ≠ "positions" → name ≠ "box" → name ≠ "box_vectors" →
  __getitem__ other (PyStr name) (St x)
    = match dict_get name (handlers ib) with
      | Some hd => (St x, Ok (CHandler hd))
      | None => (St x, Raise (could_not_find_error (PyStr name) (dict_keys (handlers ib))))
      end.
Proof.
  intros. apply (getitem_handler_name (St x) other lo ib); try done.
  - apply St_systems_other.
  - apply St_inner_lo.
Qed.

(** What [other["Electrostatics"].charges] evaluates to, read off the
    right operand. *)
Lemma St_charges_other : ∃ r, ∀ x, electrostatics_charges other (St x) = (St x, r).
Proof.
  unfold electrostatics_charges.
  destruct (dict_get "Electrostatics" (handlers ib)) as [hd|] eqn:Hes.
  - destruct (charges hd) as [t|] eqn:Ht.
    + exists (Ok t). intros x. rewrite bind_run, St_getitem_other, Hes by done. by rewrite Ht.
    + eexists. intros x. rewrite bind_run, St_getitem_other, Hes by done. by rewrite Ht.
  - eexists. intros x. by rewrite bind_run, St_getitem_other, Hes by done.
Qed.

Lemma combine_charge_run n x k c s' :
  combine_charge self_copy n k c (St x) = (s', Ok tt) →
  ∃ x', s' = St x' ∧ dict_get "vdW" (handlers x') = dict_get "vdW" (handlers x).
Proof.
  unfold combine_charge. destruct (atom_indices k) as [|idx rest]; [done|].
  unfold electrostatics_charges_update, electrostatics_charges.
  rewrite !bind_run, St_getitem_copy by done.
  destruct (dict_get "Electrostatics" (handlers x)) as [hd|] eqn:Hes; [|done].
  destruct (charges hd) as [t|]; [|done].
  unfold mret, M_ret.
  rewrite bind_run, St_ref_copy, bind_run, St_read_handler_ls, Hes, St_write_handler.
  intros [= <-]. eexists. split; [done|]. simpl. by rewrite dict_get_set_ne.
Qed.

Lemma charges_loop_run n l x s' :
  for_each l (λ e, combine_charge self_copy n e.1 e.2) (St x) = (s', Ok tt) →
  ∃ x', s' = St x' ∧ dict_get "vdW" (handlers x') = dict_get "vdW" (handlers x).
Proof.
  revert x. induction l as [|[k c] l IH]; intros x; simpl.
  - intros [= <-]. by exists x.
  - rewrite bind_run.
    destruct (combine_charge self_copy n k c (St x)) as [s1 [[]|e]] eqn:Hstep; [|done].
    apply combine_charge_run in Hstep as (x1 & -> & Hv1).
    intros Hrest. apply IH in Hrest as (x' & -> & Hv). exists x'. split; [done|congruence].
Qed.

(** *** The combination as a whole *)

Lemma add_run_vdw n0 va vb h' c :
  (t ← topology ia; mdtop t) = Some n0 →
  dict_get "vdW" (handlers ia) = Some va →
  dict_get "vdW" (handlers ib) = Some vb →
  NoDup (dict_keys (handlers ib)) →
  __add__ self other h = (h', Ok c) →
  c = self_copy
  ∧ ∃ x, h' = St x ∧ dict_get "vdW" (handlers x) = Some (merge_handler (Z.of_nat n0) vb va).
Proof.
  intros Hn Hva Hvb Hnd. unfold __add__. rewrite add_start.
  rewrite bind_run, St_get_topology_copy.
  destruct (topology ia) as [ta|]; [|done]. simpl in Hn. rewrite Hn.
  rewrite bind_run. simpl.
  rewrite bind_run, St_get_topology_other.
  destruct (topology ib) as [tb|]; [|done].
  rewrite bind_run. simpl. rewrite bind_run.
  destruct (for_each (topology_molecules tb) _ (St ia)) as [s1 [[]|e]] eqn:Htop; [|done].
  apply topology_loop_run in Htop as (x1 & -> & Hh1).
  rewrite bind_run.
  destruct (modify_topology ls _ (St x1)) as [s2 [[]|e]] eqn:Hmd; [|done].
  apply St_modify_topology in Hmd as (x2 & -> & Hh2).
  rewrite bind_run, St_ref_other, bind_run.
  rewrite (for_items_stable reached _ (Ok (handlers ib)));
    [|intros s [y ->]; by rewrite bind_run, St_read_lo
     |intros s k v s' [y ->] Hb;
      destruct (dict_get k (handlers y)) as [hy|] eqn:Hy;
      [|unfold combine_handler in Hb; by rewrite bind_run, St_read_handler_ls, Hy in Hb];
      idtac
     |by exists x2].
  2:{ unfold combine_handler in Hb. rewrite bind_run, St_read_handler_ls, Hy in Hb.
      destruct (decide (k = "Electrostatics")); [inversion Hb; by eexists|].
      destruct (dict_get k (handlers ib)) as [hk|] eqn:Hk.
      - rewrite (for_items_stable reached _ (Ok (slot_map hk))) in Hb.
        + apply (inner_loop_run _ k hk Hk _ y hy) in Hb; [by eexists|done].
        + intros s [z ->]. by rewrite bind_run, St_read_handler_lo, Hk.
        + intros s k' v' s1 [z ->] Hb'.
          destruct (dict_get k (handlers z)) as [hz|] eqn:Hz.
          * eexists. by eapply inner_body_run.
          * by eapply inner_body_absent in Hb'.
        + by exists y.
      - unfold for_items in Hb. by rewrite !bind_run, St_read_handler_lo, Hk in Hb. }
  destruct (for_each (handlers ib) _ (St x2)) as [s3 [[]|e]] eqn:Hloop; [|done].
  apply (handlers_loop_run _ _ _ _ vb) in Hloop as (x3 & -> & _ & _ & _ & Hv3);
    [|done|intros ???; by apply dict_get_NoDup|done].
  rewrite decide_True in Hv3 by (by eapply dict_get_Some_keys).
  rewrite Hh2, Hh1, Hva in Hv3. simpl in Hv3.
  rewrite bind_run.
  destruct St_charges_other as [r Hr].
  rewrite (for_items_stable reached _ r);
    [|intros s [y ->]; apply Hr
     |intros s k v s' [y ->] Hb; apply combine_charge_run in Hb as (y' & -> & _); by eexists
     |by exists x3].
  destruct r as [charge_table|e]; [|done].
  destruct (for_each charge_table _ (St x3)) as [s4 [[]|e]] eqn:Hcl; [|done].
  apply charges_loop_run in Hcl as (x4 & -> & Hv4).
  rewrite bind_run, St_get_positions_copy, bind_run, St_get_positions_other, bind_run.
  unfold lift. destruct (vstack (positions x4) (positions ib)) as [np|e]; [|done].
  rewrite bind_run, St_set_positions, bind_run, St_get_box_copy, bind_run, St_get_box_other.
  simpl. destruct (all_equal (box x4) (box ib)); [|done].
  intros [= <- <-]. split; [done|]. eexists. split; [done|]. simpl. congruence.
Qed.
(** *** What the combination leaves alone, and what it returns *)

Lemma combine_handler_frame n x name hb0 s' :
  combine_handler ls lo n name hb0 (St x) = (s', Ok tt) →
  ∃ x', s' = St x' ∧ positions x' = positions x ∧ box x' = box x.
Proof.
  unfold combine_handler. rewrite bind_run, St_read_handler_ls.
  destruct (dict_get name (handlers x)) as [hd|] eqn:Hhd; [|done].
  destruct (decide (name = "Electrostatics")); [intros [= <-]; by exists x|].
  destruct (dict_get name (handlers ib)) as [hk|] eqn:Hk.
  - intros Hrun. rewrite (for_items_stable reached _ (Ok (slot_map hk))) in Hrun.
    + apply (inner_loop_run n name hk Hk _ x hd) in Hrun; [|done]. by eexists.
    + intros s [y ->]. by rewrite bind_run, St_read_handler_lo, Hk.
    + intros s k v s1 [y ->] Hb.
      destruct (dict_get name (handlers y)) as [hy|] eqn:Hy.
      * eexists. by eapply inner_body_run.
      * by eapply inner_body_absent in Hb.
    + by exists x.
  - unfold for_items. by rewrite !bind_run, St_read_handler_lo, Hk.
Qed.

Lemma handlers_loop_frame n (l : list (string * PotentialHandler)) x s' :
  for_each l (λ e, combine_handler ls lo n e.1 e.2) (St x) = (s', Ok tt) →
  ∃ x', s' = St x' ∧ positions x' = positions x ∧ box x' = box x.
Proof.
  revert x. induction l as [|[name hb] l IH]; intros x; simpl.
  - intros [= <-]. by exists x.
  - rewrite bind_run.
    destruct (combine_handler ls lo n name hb (St x)) as [s1 [[]|e]] eqn:Hstep; [|done].
    apply combine_handler_frame in Hstep as (x1 & -> & Hp1 & Hb1).
    intros Hrest. apply IH in Hrest as (x' & -> & Hp & Hb).
    exists x'. split; [done|]. split; congruence.
Qed.

Lemma combine_charge_frame n x k c s' :
  combine_charge self_copy n k c (St x) = (s', Ok tt) →
  ∃ x', s' = St x' ∧ positions x' = positions x ∧ box x' = box x.
Proof.
  unfold combine_charge. destruct (atom_indices k) as [|idx rest]; [done|].
  unfold electrostatics_charges_update, electrostatics_charges.
  rewrite !bind_run, St_getitem_copy by done.
  destruct (dict_get "Electrostatics" (handlers x)) as [hd|] eqn:Hes; [|done].
  destruct (charges hd) as [t|]; [|done].
  unfold mret, M_ret.
  rewrite bind_run, St_ref_copy, bind_run, St_read_handler_ls, Hes, St_write_handler.
  intros [= <-]. by eexists.
Qed.

Lemma charges_loop_frame n (l : list (TopologyKey * Qc)) x s' :
  for_each l (λ e, combine_charge self_copy n e.1 e.2) (St x) = (s', Ok tt) →
  ∃ x', s' = St x' ∧ positions x' = positions x ∧ box x' = box x.
Proof.
  revert x. induction l as [|[k c] l IH]; intros x; simpl.
  - intros [= <-]. by exists x.
  - rewrite bind_run.
    destruct (combine_charge self_copy n k c (St x)) as [s1 [[]|e]] eqn:Hstep; [|done].
    apply combine_charge_frame in Hstep as (x1 & -> & Hp1 & Hb1).
    intros Hrest. apply IH in Hrest as (x' & -> & Hp & Hb).
    exists x'. split; [done|]. split; congruence.
Qed.

Lemma St_modify_topology_frame x f s' :
  modify_topology ls f (St x) = (s', Ok tt) →
  ∃ x', s' = St x' ∧ positions x' = positions x ∧ box x' = box x.
Proof.
  unfold modify_topology. rewrite bind_run, St_read_ls.
  destruct (topology x) as [t|]; [|done].
  rewrite St_write. intros [= <-]. by eexists.
Qed.

Lemma topology_loop_frame mols x s' :
  for_each mols (λ top_mol, modify_topology ls (add_molecule top_mol)) (St x) = (s', Ok tt) →
  ∃ x', s' = St x' ∧ positions x' = positions x ∧ box x' = box x.
Proof.
  revert x. induction mols as [|m mols IH]; intros x; simpl.
  - intros [= <-]. by exists x.
  - rewrite bind_run.
    destruct (modify_topology ls (add_molecule m) (St x)) as [s1 [[]|e]] eqn:Hstep; [|done].
    apply St_modify_topology_frame in Hstep as (x1 & -> & Hp1 & Hb1).
    intros Hrest. apply IH in Hrest as (x' & -> & Hp & Hb).
    exists x'. split; [done|]. split; congruence.
Qed.

Lemma add_run h' c :
  __add__ self other h = (h', Ok c) →
  c = self_copy
  ∧ ∃ x new_positions,
      h' = St x
      ∧ vstack (positions ia) (positions ib) = Ok new_positions
      ∧ positions x = Some new_positions
      ∧ all_equal (box ia) (box ib) = true.
Proof.
  unfold __add__. rewrite add_start.
  rewrite bind_run, St_get_topology_copy.
  destruct (topology ia) as [ta|]; [|done].
  destruct (mdtop ta) as [n|]; [|done].
  rewrite bind_run. simpl.
  rewrite bind_run, St_get_topology_other.
  destruct (topology ib) as [tb|]; [|done].
  rewrite bind_run. simpl. rewrite bind_run.
  destruct (for_each (topology_molecules tb) _ (St ia)) as [s1 [[]|e]] eqn:Htop; [|done].
  apply topology_loop_frame in Htop as (x1 & -> & Hp1 & Hb1).
  rewrite bind_run.
  destruct (modify_topology ls _ (St x1)) as [s2 [[]|e]] eqn:Hmd; [|done].
  apply St_modify_topology_frame in Hmd as (x2 & -> & Hp2 & Hb2).
  rewrite bind_run, St_ref_other, bind_run.
  rewrite (for_items_stable reached _ (Ok (handlers ib)));
    [|intros s [y ->]; by rewrite bind_run, St_read_lo
     |intros s k v s' [y ->] Hb;
      apply combine_handler_frame in Hb as (y' & -> & _); by eexists
     |by exists x2].
  destruct (for_each (handlers ib) _ (St x2)) as [s3 [[]|e]] eqn:Hloop; [|done].
  apply handlers_loop_frame in Hloop as (x3 & -> & Hp3 & Hb3).
  rewrite bind_run.
  destruct St_charges_other as [r Hr].
  rewrite (for_items_stable reached _ r);
    [|intros s [y ->]; apply Hr
     |intros s k v s' [y ->] Hb; apply combine_charge_frame in Hb as (y' & -> & _); by eexists
     |by exists x3].
  destruct r as [charge_table|e]; [|done].
  destruct (for_each charge_table _ (St x3)) as [s4 [[]|e]] eqn:Hcl; [|done].
  apply charges_loop_frame in Hcl as (x4 & -> & Hp4 & Hb4).
  rewrite bind_run, St_get_positions_copy, bind_run, St_get_positions_other, bind_run.
  assert (positions x4 = positions ia) as -> by congruence.
  unfold lift. destruct (vstack (positions ia) (positions ib)) as [np|e]; [|done].
  rewrite bind_run, St_set_positions, bind_run, St_get_box_copy, bind_run, St_get_box_other.
  simpl. assert (box x4 = box ia) as -> by congruence.
  destruct (all_equal (box ia) (box ib)); [|done].
  intros [= <- <-]. split; [done|]. by eexists _, _.
Qed.

(** *** The shape of the store after each loop *)

Lemma combine_handler_shape n x name hb0 s' :
  combine_handler ls lo n name hb0 (St x) = (s', Ok tt) →
  ∃ hd hd', dict_get name (handlers x) = Some hd
    ∧ s' = St (if decide (name = "Electrostatics") then x
               else with_handlers (dict_set name hd' (handlers x)) x).
Proof.
  unfold combine_handler. rewrite bind_run, St_read_handler_ls.
  destruct (dict_get name (handlers x)) as [hd|] eqn:Hhd; [|done].
  destruct (decide (name = "Electrostatics")); [intros [= <-]; by exists hd, hd|].
  destruct (dict_get name (handlers ib)) as [hk|] eqn:Hk.
  - intros Hrun. rewrite (for_items_stable reached _ (Ok (slot_map hk))) in Hrun.
    + apply (inner_loop_run n name hk Hk _ x hd) in Hrun; [|done]. by eexists _, _.
    + intros s [y ->]. by rewrite bind_run, St_read_handler_lo, Hk.
    + intros s k v s1 [y ->] Hb.
      destruct (dict_get name (handlers y)) as [hy|] eqn:Hy.
      * eexists. by eapply inner_body_run.
      * by eapply inner_body_absent in Hb.
    + by exists x.
  - unfold for_items. by rewrite !bind_run, St_read_handler_lo, Hk.
Qed.

Lemma handlers_loop_shape n (l : list (string * PotentialHandler)) x s' :
  for_each l (λ e, combine_handler ls lo n e.1 e.2) (St x) = (s', Ok tt) →
  ∃ x', s' = St x'
    ∧ topology x' = topology x
    ∧ dict_keys (handlers x') = dict_keys (handlers x)
    ∧ dict_get "Electrostatics" (handlers x') = dict_get "Electrostatics" (handlers x)
    ∧ ∀ name, name ∈ l.*1 → name ∈ dict_keys (handlers x).
Proof.
  revert x. induction l as [|[name hb] l IH]; intros x; csimpl.
  - intros [= <-]. exists x. repeat split; try done. intros name Hin. by apply elem_of_nil in Hin.
  - rewrite bind_run.
    destruct (combine_handler ls lo n name hb (St x)) as [s1 [[]|e]] eqn:Hstep; [|done].
    apply combine_handler_shape in Hstep as (hd & hd' & Hhd & ->).
    intros Hrest. apply IH in Hrest as (x' & -> & Ht & Hk & Hes & Hin).
    assert (name ∈ dict_keys (handlers x)) as Hname by (by eapply dict_get_Some_keys).
    exists x'. split; [done|].
    destruct (decide (name = "Electrostatics")) as [->|Hne].
    + repeat split; try done.
      intros name' Hin'. apply elem_of_cons in Hin' as [->|Hin']; [done|by apply Hin].
    + simpl in *. rewrite dict_set_keys_present in Hk, Hin by done.
      rewrite dict_get_set_ne in Hes by done.
      repeat split; try done.
      intros name' Hin'. apply elem_of_cons in Hin' as [->|Hin']; [done|by apply Hin].
Qed.

Lemma St_modify_topology_shape x t f :
  topology x = Some t →
  modify_topology ls f (St x)
    = (St (mk_InnerSystem (handlers x) (Some (f t)) (box x) (positions x)), Ok tt).
Proof.
  intros Ht. unfold modify_topology. rewrite bind_run, St_read_ls, Ht. apply St_write.
Qed.

Lemma topology_loop_shape mols x t s' :
  topology x = Some t →
  for_each mols (λ top_mol, modify_topology ls (add_molecule top_mol)) (St x) = (s', Ok tt) →
  s' = St (mk_InnerSystem (handlers x)
             (Some (mk_OFFBioTop (topology_molecules t ++ mols) (mdtop t)))
             (box x) (positions x)).
Proof.
  revert x t. induction mols as [|m mols IH]; intros x t Ht; simpl.
  - intros [= <-]. rewrite app_nil_r. destruct x, t. simpl in *. by subst.
  - rewrite bind_run, (St_modify_topology_shape x t) by done.
    intros Hrest. eapply IH in Hrest; [|done]. subst s'. simpl.
    by rewrite <- app_assoc.
Qed.

Lemma St_charges_other_inv x s tbl :
  electrostatics_charges other (St x) = (s, Ok tbl) →
  ∃ eb, dict_get "Electrostatics" (handlers ib) = Some eb ∧ charges eb = Some tbl.
Proof.
  unfold electrostatics_charges. rewrite bind_run, St_getitem_other by done.
  destruct (dict_get "Electrostatics" (handlers ib)) as [eb|]; [|done].
  destruct (charges eb) as [t|] eqn:Ht; [|done].
  intros [= _ <-]. by exists eb.
Qed.

Lemma combine_charge_shape n x k c es t :
  dict_get "Electrostatics" (handlers x) = Some es →
  charges es = Some t →
  atom_indices k ≠ [] →
  combine_charge self_copy n k c (St x)
    = (St (with_handlers
             (dict_set "Electrostatics"
                (mk_PotentialHandler (method es) (slot_map es) (potentials es)
                   (Some (dict_set (moved_charge_key n k) c t)))
                (handlers x)) x), Ok tt).
Proof.
  intros Hes Ht Hk. unfold combine_charge, moved_charge_key, atom_index.
  destruct (atom_indices k) as [|idx rest]; [done|].
  unfold electrostatics_charges_update, electrostatics_charges.
  rewrite !bind_run, St_getitem_copy by done.
  rewrite Hes, Ht. unfold mret, M_ret.
  by rewrite bind_run, St_ref_copy, bind_run, St_read_handler_ls, Hes, St_write_handler.
Qed.

Lemma combine_charge_inv n x k c s' :
  combine_charge self_copy n k c (St x) = (s', Ok tt) →
  atom_indices k ≠ []
  ∧ ∃ es t, dict_get "Electrostatics" (handlers x) = Some es ∧ charges es = Some t.
Proof.
  unfold combine_charge. destruct (atom_indices k) as [|idx rest]; [done|].
  unfold electrostatics_charges_update, electrostatics_charges.
  rewrite !bind_run, St_getitem_copy by done.
  destruct (dict_get "Electrostatics" (handlers x)) as [hd|] eqn:Hes; [|done].
  destruct (charges hd) as [t|] eqn:Ht; [|done].
  intros _. split; [done|]. by exists hd, t.
Qed.

Lemma charges_loop_shape n (l : list (TopologyKey * Qc)) x es t s' :
  dict_get "Electrostatics" (handlers x) = Some es →
  charges es = Some t →
  for_each l (λ e, combine_charge self_copy n e.1 e.2) (St x) = (s', Ok tt) →
  s' = St (with_handlers
             (dict_set "Electrostatics"
                (mk_PotentialHandler (method es) (slot_map es) (potentials es)
                   (Some (merge_charges n t l)))
                (handlers x)) x).
Proof.
  revert x es t. induction l as [|[k c] l IH]; intros x es t Hes Ht; simpl.
  - intros [= <-]. unfold merge_charges. simpl. rewrite <- Ht.
    replace (mk_PotentialHandler (method es) (slot_map es) (potentials es) (charges es))
      with es by (by destruct es).
    by rewrite dict_set_id, with_handlers_same.
  - rewrite bind_run.
    destruct (combine_charge self_copy n k c (St x)) as [s1 [[]|e]] eqn:Hstep; [|done].
    destruct (combine_charge_inv _ _ _ _ _ Hstep) as [Hk _].
    rewrite (combine_charge_shape n x k c es t) in Hstep by done.
    injection Hstep as <-.
    intros Hrest. eapply IH in Hrest; [|simpl; apply dict_get_set_eq|done].
    subst s'. simpl. by rewrite dict_set_set.
Qed.

Lemma charges_loop_keeps n (l : list (TopologyKey * Qc)) x s' :
  for_each l (λ e, combine_charge self_copy n e.1 e.2) (St x) = (s', Ok tt) →
  ∃ x', s' = St x'
    ∧ topology x' = topology x
    ∧ dict_keys (handlers x') = dict_keys (handlers x).
Proof.
  destruct l as [|[k c] l].
  - intros [= <-]. by exists x.
  - intros Hrun. pose proof Hrun as Hfirst. simpl in Hfirst. rewrite bind_run in Hfirst.
    destruct (combine_charge self_copy n k c (St x)) as [s1 [[]|e]] eqn:Hstep; [|done].
    destruct (combine_charge_inv _ _ _ _ _ Hstep) as (_ & es & t & Hes & Ht).
    apply (charges_loop_shape n _ x es t) in Hrun; [|done..].
    eexists. split; [done|]. split; [done|]. simpl.
    apply dict_set_keys_present. by eapply dict_get_Some_keys.
Qed.

Lemma add_run_shape h' c :
  __add__ self other h = (h', Ok c) →
  ∃ ta n tb eb cb x,
    topology ia = Some ta ∧ mdtop ta = Some n ∧ topology ib = Some tb
    ∧ dict_get "Electrostatics" (handlers ib) = Some eb ∧ charges eb = Some cb
    ∧ (∀ name, name ∈ dict_keys (handlers ib) → name ∈ dict_keys (handlers ia))
    ∧ h' = St x
    ∧ dict_keys (handlers x) = dict_keys (handlers ia)
    ∧ topology x
      = Some (mk_OFFBioTop (topology_molecules ta ++ topology_molecules tb)
                (Some (sum_list (mol_n_atoms <$> topology_molecules ta ++ topology_molecules tb))))
    ∧ (∀ ea ca, dict_get "Electrostatics" (handlers ia) = Some ea → charges ea = Some ca →
         dict_get "Electrostatics" (handlers x)
           = Some (mk_PotentialHandler (method ea) (slot_map ea) (potentials ea)
                     (Some (merge_charges (Z.of_nat n) ca cb)))).
Proof.
  unfold __add__. rewrite add_start.
  rewrite bind_run, St_get_topology_copy.
  destruct (topology ia) as [ta|] eqn:Hta; [|done].
  destruct (mdtop ta) as [n|] eqn:Hn; [|done].
  rewrite bind_run. simpl.
  rewrite bind_run, St_get_topology_other.
  destruct (topology ib) as [tb|] eqn:Htb; [|done].
  rewrite bind_run. simpl. rewrite bind_run.
  destruct (for_each (topology_molecules tb) _ (St ia)) as [s1 [[]|e]] eqn:Htop; [|done].
  apply (topology_loop_shape _ ia ta) in Htop; [|done]. subst s1.
  rewrite bind_run. erewrite St_modify_topology_shape by (simpl; reflexivity).
  simpl.
  rewrite bind_run, St_ref_other, bind_run.
  rewrite (for_items_stable reached _ (Ok (handlers ib)));
    [|intros s [y ->]; by rewrite bind_run, St_read_lo
     |intros s k v s' [y ->] Hb;
      apply combine_handler_frame in Hb as (y' & -> & _); by eexists
     |by eexists].
  match goal with
  | |- context [for_each (handlers ib) ?body (St ?x0)] =>
      destruct (for_each (handlers ib) body (St x0)) as [s3 [[]|e]] eqn:Hloop; [|done];
      set (x2 := x0) in *
  end.
  apply handlers_loop_shape in Hloop as (x3 & -> & Ht3 & Hk3 & Hes3 & Hin3).
  rewrite bind_run.
  destruct St_charges_other as [r Hr].
  rewrite (for_items_stable reached _ r);
    [|intros s [y ->]; apply Hr
     |intros s k v s' [y ->] Hb; apply combine_charge_frame in Hb as (y' & -> & _); by eexists
     |by exists x3].
  destruct r as [cb|e]; [|done].
  destruct (St_charges_other_inv ia _ _ (Hr ia)) as (eb & Heb & Hcb).
  destruct (for_each cb _ (St x3)) as [s4 [[]|e]] eqn:Hcl; [|done].
  pose proof Hcl as Hkeep. apply charges_loop_keeps in Hkeep as (x4 & -> & Ht4 & Hk4).
  rewrite bind_run, St_get_positions_copy, bind_run, St_get_positions_other, bind_run.
  unfold lift. destruct (vstack (positions x4) (positions ib)) as [np|e]; [|done].
  rewrite bind_run, St_set_positions, bind_run, St_get_box_copy, bind_run, St_get_box_other.
  simpl. destruct (all_equal (box x4) (box ib)); [|done].
  intros [= <- <-].
  exists ta, n, tb, eb, cb. eexists.
  split; [done|]. split; [done|]. split; [done|]. split; [done|]. split; [done|].
  split; [exact Hin3|].
  split; [reflexivity|]. simpl.
  split; [by rewrite Hk4, Hk3|].
  split; [by rewrite Ht4, Ht3|].
  intros ea ca Hea Hca.
  assert (dict_get "Electrostatics" (handlers x3) = Some ea) as Hea3 by (by rewrite Hes3).
  apply (charges_loop_shape _ _ x3 ea ca) in Hcl; [|done..].
  apply (f_equal inner_data) in Hcl. simpl in Hcl.
  apply (f_equal (λ l, l !! ls)) in Hcl.
  rewrite !list_lookup_insert_eq in Hcl by apply ls_in_range.
  injection Hcl as ->. simpl. apply dict_get_set_eq.
Qed.

End Running.

(** X11: whenever the combination of two containers that hold distinct
    inner data returns, the object returned is a new one, its [_inner_data]
    is that of the left operand, the boxes of the operands compared equal,
    and the positions of the result are the stacked array, never [None]. *)
Theorem add_returns_alias_with_positions (h h' : heap) (self other c ls lo : loc)
    (ia ib : InnerSystem) :
  systems h !! self = Some ls →
  systems h !! other = Some lo →
  ls ≠ lo →
  inner_data h !! ls = Some ia →
  inner_data h !! lo = Some ib →
  __add__ self other h = (h', Ok c) →
  c = length (systems h)
  ∧ c ≠ self ∧ c ≠ other
  ∧ systems h' !! c = Some ls
  ∧ systems h' !! self = Some ls
  ∧ all_equal (box ia) (box ib) = true
  ∧ ∃ new_positions,
      vstack (positions ia) (positions ib) = Ok new_positions
      ∧ get_positions c h' = (h', Ok (Some new_positions)).
Proof.
  intros Hself Hother Hne Hia Hib Hadd.
  destruct (add_run h self other ls lo ia ib Hself Hother Hne Hia Hib h' c Hadd)
    as (-> & x & np & -> & Hstack & Hpos & Hbox).
  split; [done|].
  split; [apply lookup_lt_Some in Hself; lia|].
  split; [apply lookup_lt_Some in Hother; lia|].
  split; [by apply St_systems_copy|].
  split; [simpl; by apply lookup_app_l_Some|].
  split; [done|].
  exists np. split; [done|].
  erewrite St_get_positions_copy by done. by rewrite Hpos.
Qed.

Lemma add_returns_alias_with_positions_witness :
  2%nat = length (systems positioned_positioned)
  ∧ 2%nat ≠ 0%nat ∧ 2%nat ≠ 1%nat
  ∧ systems (__add__ 0 1 positioned_positioned).1 !! 2%nat = Some 0%nat
  ∧ systems (__add__ 0 1 positioned_positioned).1 !! 0%nat = Some 0%nat
  ∧ all_equal (None : option (ndarray float)) None = true
  ∧ ∃ new_positions,
      vstack (Some (one_position 0)) (Some (one_position 1)) = Ok new_positions
      ∧ get_positions 2 (__add__ 0 1 positioned_positioned).1
        = ((__add__ 0 1 positioned_positioned).1, Ok (Some new_positions)).
Proof.
  apply (add_returns_alias_with_positions positioned_positioned
           (__add__ 0 1 positioned_positioned).1 0 1 2 0 1
           (one_atom (lj 1 2) (Some (one_position 0)))
           (one_atom (lj 1 2) (Some (one_position 1)))).
  - reflexivity.
  - reflexivity.
  - discriminate.
  - reflexivity.
  - reflexivity.
  - by vm_compute.
Defined.

(** ** Combination: what it requires, and the topology *)

(** X12: the combination of two containers that hold distinct inner data
    returns only if the left operand has a topology with a recorded atom
    count, the right operand has a topology, every handler name of the
    right operand is registered in the left operand, and the right operand
    has an "Electrostatics" handler with a charge table. The handler names
    of the result are those of the left operand, in the same order: a
    handler that only the right operand has is never added. *)
Theorem add_returns_only_with_registered_handlers (h h' : heap) (self other c ls lo : loc)
    (ia ib : InnerSystem) :
  systems h !! self = Some ls →
  systems h !! other = Some lo →
  ls ≠ lo →
  inner_data h !! ls = Some ia →
  inner_data h !! lo = Some ib →
  __add__ self other h = (h', Ok c) →
  (∃ ta n, topology ia = Some ta ∧ mdtop ta = Some n)
  ∧ is_Some (topology ib)
  ∧ (∀ name, name ∈ dict_keys (handlers ib) → name ∈ dict_keys (handlers ia))
  ∧ (∃ eb cb, dict_get "Electrostatics" (handlers ib) = Some eb ∧ charges eb = Some cb)
  ∧ (∃ x, inner_data h' !! ls = Some x
          ∧ dict_keys (handlers x) = dict_keys (handlers ia)).
Proof.
  intros Hself Hother Hne Hia Hib Hadd.
  destruct (add_run_shape h self other ls lo ia ib Hself Hother Hne Hia Hib h' c Hadd)
    as (ta & n & tb & eb & cb & x & Hta & Hn & Htb & Heb & Hcb & Hin & -> & Hk & _).
  split; [by exists ta, n|].
  split; [by exists tb|].
  split; [done|].
  split; [by exists eb, cb|].
  exists x. split; [by eapply St_inner_ls|done].
Qed.

Lemma add_returns_only_with_registered_handlers_witness :
  (∀ name, name ∈ dict_keys (handlers (one_atom (lj 1 2) (Some (one_position 1)))) →
           name ∈ dict_keys (handlers (one_atom (lj 1 2) (Some (one_position 0)))))
  ∧ ∃ x, inner_data (__add__ 0 1 positioned_positioned).1 !! 0%nat = Some x
         ∧ dict_keys (handlers x)
           = dict_keys (handlers (one_atom (lj 1 2) (Some (one_position 0)))).
Proof.
  destruct (add_returns_only_with_registered_handlers positioned_positioned
              (__add__ 0 1 positioned_positioned).1 0 1 2 0 1
              (one_atom (lj 1 2) (Some (one_position 0)))
              (one_atom (lj 1 2) (Some (one_position 1))))
    as (_ & _ & Hin & _ & Hx); [reflexivity|reflexivity|discriminate|reflexivity|reflexivity| |].
  - by vm_compute.
  - by split.
Defined.

Lemma sum_list_append (l k : list nat) :
  sum_list (l ++ k) = (sum_list l + sum_list k)%nat.
Proof. induction l as [|x l IH]; simpl; [done|]. rewrite IH. lia. Qed.

(** X13: when the combination of two containers that hold distinct inner
    data returns, the topology of the result, which is also the topology of
    the left operand from then on, holds the molecules of the left operand
    followed by those of the right operand, and its atom count is the
    number of atoms of all these molecules. *)
Theorem add_concatenates_topologies (h h' : heap) (self other c ls lo : loc)
    (ia ib : InnerSystem) (ta tb : OFFBioTop) :
  systems h !! self = Some ls →
  systems h !! other = Some lo →
  ls ≠ lo →
  inner_data h !! ls = Some ia →
  inner_data h !! lo = Some ib →
  topology ia = Some ta →
  topology ib = Some tb →
  __add__ self other h = (h', Ok c) →
  get_topology c h'
    = (h', Ok (Some (mk_OFFBioTop (topology_molecules ta ++ topology_molecules tb)
                       (Some (sum_list (mol_n_atoms <$> topology_molecules ta)
                              + sum_list (mol_n_atoms <$> topology_molecules tb))%nat))))
  ∧ get_topology self h' = get_topology c h'.
Proof.
  intros Hself Hother Hne Hia Hib Hta Htb Hadd.
  destruct (add_run h self other ls lo ia ib Hself Hother Hne Hia Hib h' c Hadd)
    as (-> & _).
  destruct (add_run_shape h self other ls lo ia ib Hself Hother Hne Hia Hib h' _ Hadd)
    as (ta' & n & tb' & eb & cb & x & Hta' & Hn & Htb' & _ & _ & _ & -> & _ & Htop & _).
  assert (ta' = ta) as -> by congruence. assert (tb' = tb) as -> by congruence.
  assert (get_topology (length (systems h)) (state_with h ls x)
          = (state_with h ls x,
             Ok (Some (mk_OFFBioTop (topology_molecules ta ++ topology_molecules tb)
                         (Some (sum_list (mol_n_atoms <$> topology_molecules ta)
                                + sum_list (mol_n_atoms <$> topology_molecules tb))%nat)))))
    as Hc.
  { erewrite St_get_topology_copy by done. rewrite Htop.
    by rewrite fmap_app, sum_list_append. }
  split; [done|].
  rewrite Hc. unfold get_topology, _inner_data, read_inner, get_heap.
  unfold mbind, M_bind, mret, M_ret. simpl.
  rewrite (lookup_app_l_Some _ _ _ _ Hself). simpl.
  rewrite list_lookup_insert_eq
    by (rewrite length_app; apply lookup_lt_Some in Hia; lia).
  rewrite Htop. by rewrite fmap_app, sum_list_append.
Qed.

Lemma add_concatenates_topologies_witness :
  get_topology 2 (__add__ 0 1 positioned_positioned).1
    = ((__add__ 0 1 positioned_positioned).1,
       Ok (Some (mk_OFFBioTop ([mk_Molecule "C" 1] ++ [mk_Molecule "C" 1])
                   (Some (sum_list (mol_n_atoms <$> [mk_Molecule "C" 1])
                          + sum_list (mol_n_atoms <$> [mk_Molecule "C" 1]))%nat))))
  ∧ get_topology 0 (__add__ 0 1 positioned_positioned).1
    = get_topology 2 (__add__ 0 1 positioned_positioned).1.
Proof.
  apply (add_concatenates_topologies positioned_positioned
           (__add__ 0 1 positioned_positioned).1 0 1 2 0 1
           (one_atom (lj 1 2) (Some (one_position 0)))
           (one_atom (lj 1 2) (Some (one_position 1)))
           one_atom_top one_atom_top).
  - reflexivity.
  - reflexivity.
  - discriminate.
  - reflexivity.
  - reflexivity.
  - reflexivity.
  - reflexivity.
  - by vm_compute.
Defined.

(** ** Combination: the objects and the warning *)

Lemma same_objects_refl s : same_objects s s.
Proof. by repeat split. Qed.

Lemma same_objects_trans s1 s2 s3 :
  same_objects s1 s2 → same_objects s2 s3 → same_objects s1 s3.
Proof.
  intros (Hs1 & Hw1 & Hl1) (Hs2 & Hw2 & Hl2). repeat split; congruence.
Qed.

Section Confined.
Variables (sc ls : loc).

Lemma confined_read {A} (m : M A) : (∀ s, (m s).1 = s) → confined sc ls m.
Proof. intros Hm s _. rewrite Hm. apply same_objects_refl. Qed.

Lemma confined_ret {A} (a : A) : confined sc ls (mret a).
Proof. by apply confined_read. Qed.

Lemma confined_raise {A} (e : exn) : confined sc ls (raise e : M A).
Proof. by apply confined_read. Qed.

Lemma confined_lift {A} (r : result A) : confined sc ls (lift r).
Proof. by apply confined_read. Qed.

Lemma confined_bind {A B} (m : M A) (f : A → M B) :
  confined sc ls m → (∀ a, confined sc ls (f a)) → confined sc ls (m ≫= f).
Proof.
  intros Hm Hf s Hsc. rewrite bind_run. specialize (Hm s Hsc).
  destruct (m s) as [s1 [a|e]]; simpl in *; [|done].
  eapply same_objects_trans; [done|]. apply Hf.
  destruct Hm as (Hsys & _). by rewrite Hsys.
Qed.

Lemma inner_data_ref_reads x s : (_inner_data x s).1 = s.
Proof.
  unfold _inner_data, get_heap, raise. unfold mbind, M_bind, mret, M_ret.
  by destruct (systems s !! x).
Qed.

Lemma read_inner_reads l s : (read_inner l s).1 = s.
Proof.
  unfold read_inner, get_heap, raise. unfold mbind, M_bind, mret, M_ret.
  by destruct (inner_data s !! l).
Qed.

Lemma field_reads {A} (f : InnerSystem → A) x s :
  ((l ← _inner_data x; i ← read_inner l; mret (f i)) s).1 = s.
Proof.
  rewrite bind_run. pose proof (inner_data_ref_reads x s) as Hr.
  destruct (_inner_data x s) as [s1 [l|e]]; simpl in *; subst; [|done].
  rewrite bind_run. pose proof (read_inner_reads l s) as Hi.
  destruct (read_inner l s) as [s1 [i|e]]; simpl in *; by subst.
Qed.

Lemma read_handler_reads l name s : (read_handler l name s).1 = s.
Proof.
  unfold read_handler. rewrite bind_run. pose proof (read_inner_reads l s) as Hi.
  destruct (read_inner l s) as [s1 [i|e]]; simpl in *; subst; [|done].
  by destruct (dict_get name (handlers i)).
Qed.

Lemma getitem_reads x item s : (__getitem__ x item s).1 = s.
Proof.
  unfold __getitem__. destruct item as [name| | |]; try done.
  destruct (decide (name = "positions")) as [Hp|Hp].
  { rewrite bind_run. pose proof (field_reads positions x s) as Hr.
    fold (get_positions x) in Hr.
    destruct (get_positions x s) as [s1 [p|err]]; simpl in *; by subst. }
  destruct (decide (name ∈ ({[ "box"; "box_vectors" ]} : gset string))) as [Hb|Hb].
  { rewrite bind_run. pose proof (field_reads box x s) as Hr.
    fold (get_box x) in Hr.
    destruct (get_box x s) as [s1 [p|err]]; simpl in *; by subst. }
  rewrite bind_run. pose proof (field_reads handlers x s) as Hr.
  fold (get_handlers x) in Hr.
  destruct (get_handlers x s) as [s1 [hs|err]]; simpl in *; subst; [|done].
  by destruct (dict_get name hs).
Qed.

Lemma electrostatics_charges_reads x s : (electrostatics_charges x s).1 = s.
Proof.
  unfold electrostatics_charges. rewrite bind_run.
  pose proof (getitem_reads x (PyStr "Electrostatics") s) as Hr.
  destruct (__getitem__ x (PyStr "Electrostatics") s) as [s1 [c|e]]; simpl in *; subst; [|done].
  destruct c as [| |hd]; try done. by destruct (charges hd).
Qed.

Lemma confined_write_inner i : confined sc ls (write_inner ls i).
Proof.
  intros s _. unfold write_inner, get_heap, put_heap. unfold mbind, M_bind. simpl.
  repeat split; simpl. by rewrite length_insert.
Qed.

Lemma confined_via_ref {A} (k : loc → M A) :
  confined sc ls (k ls) → confined sc ls (l ← _inner_data sc; k l).
Proof.
  intros Hk s Hsc. rewrite bind_run. unfold _inner_data. rewrite bind_run.
  unfold get_heap. rewrite Hsc. by apply Hk.
Qed.

Lemma confined_write_handler name hd : confined sc ls (write_handler ls name hd).
Proof.
  apply confined_bind; [apply confined_read, read_inner_reads|].
  intros i. apply confined_write_inner.
Qed.

Lemma confined_slot_map_update name k v : confined sc ls (slot_map_update ls name k v).
Proof.
  apply confined_bind; [apply confined_read, read_handler_reads|].
  intros hd. apply confined_write_handler.
Qed.

Lemma confined_potentials_update name k v : confined sc ls (potentials_update ls name k v).
Proof.
  apply confined_bind; [apply confined_read, read_handler_reads|].
  intros hd. apply confined_write_handler.
Qed.

Lemma confined_modify_topology f : confined sc ls (modify_topology ls f).
Proof.
  apply confined_bind; [apply confined_read, read_inner_reads|].
  intros i. destruct (topology i); [apply confined_write_inner|apply confined_raise].
Qed.

Lemma confined_set_positions v : confined sc ls (set_positions sc v).
Proof.
  apply confined_via_ref.
  apply confined_bind; [apply confined_read, read_inner_reads|].
  intros i. apply confined_write_inner.
Qed.

Lemma confined_charges_update k v : confined sc ls (electrostatics_charges_update sc k v).
Proof.
  apply confined_bind; [apply confined_read, electrostatics_charges_reads|].
  intros t. apply confined_via_ref.
  apply confined_bind; [apply confined_read, read_handler_reads|].
  intros hd. apply confined_write_handler.
Qed.

Lemma confined_combine_slot lo n name k pk : confined sc ls (combine_slot ls lo n name k pk).
Proof.
  apply confined_bind; [apply confined_slot_map_update|]. intros _.
  apply confined_bind; [apply confined_read, read_handler_reads|]. intros hd.
  destruct (dict_get pk (potentials hd)); [apply confined_potentials_update|apply confined_raise].
Qed.

Lemma confined_iterate_items {K V} (read : M (pydict K V)) n0 i fuel (body : K → V → M unit) :
  confined sc ls read → (∀ k v, confined sc ls (body k v)) →
  confined sc ls (iterate_items read n0 i fuel body).
Proof.
  intros Hread Hbody. revert i. induction fuel as [|fuel IH]; intros i; simpl.
  - apply confined_bind; [done|]. intros d.
    destruct (decide (length d ≠ n0)); [apply confined_raise|apply confined_ret].
  - apply confined_bind; [done|]. intros d.
    destruct (decide (length d ≠ n0)); [apply confined_raise|].
    match goal with
    | |- context [match ?o with Some _ => _ | None => _ end] => destruct o as [[k v]|]
    end; [|apply confined_ret].
    apply confined_bind; [apply Hbody|]. intros _. apply IH.
Qed.

Lemma confined_for_items {K V} (read : M (pydict K V)) (body : K → V → M unit) :
  confined sc ls read → (∀ k v, confined sc ls (body k v)) →
  confined sc ls (for_items read body).
Proof.
  intros Hread Hbody. apply confined_bind; [done|]. intros d.
  by apply confined_iterate_items.
Qed.

Lemma confined_for_each {A} (l : list A) (body : A → M unit) :
  (∀ x, confined sc ls (body x)) → confined sc ls (for_each l body).
Proof.
  intros Hbody. induction l as [|x l IH]; simpl; [apply confined_ret|].
  apply confined_bind; [apply Hbody|]. by intros _.
Qed.

Lemma confined_combine_handler lo n name hb :
  confined sc ls (combine_handler ls lo n name hb).
Proof.
  apply confined_bind; [apply confined_read, read_handler_reads|]. intros _.
  destruct (decide (name = "Electrostatics")); [apply confined_ret|].
  apply confined_for_items.
  - apply confined_bind; [apply confined_read, read_handler_reads|]. intros hd.
    apply confined_ret.
  - intros k v. apply confined_combine_slot.
Qed.

Lemma confined_combine_charge n k c : confined sc ls (combine_charge sc n k c).
Proof.
  unfold combine_charge. destruct (atom_indices k); [apply confined_raise|].
  apply confined_charges_update.
Qed.

Lemma confined_combination other :
  confined sc ls
    (top ← get_topology sc;
     atom_offset ←
       match top with
       | Some t =>
           match mdtop t with
           | Some n => mret (Z.of_nat n)
           | None => raise (mk_exn AttributeError [])
           end
       | None => raise (mk_exn AttributeError [])
       end;
     other_top ← get_topology other;
     mols ←
       match other_top with
       | Some t => mret (topology_molecules t)
       | None => raise (mk_exn AttributeError [])
       end;
     for_each mols (λ top_mol, modify_topology ls (add_molecule top_mol));;
     modify_topology ls (λ t, mk_OFFBioTop (topology_molecules t) (Some (from_openmm_n_atoms t)));;
     lo ← _inner_data other;
     for_items (i ← read_inner lo; mret (handlers i)) (combine_handler ls lo atom_offset);;
     for_items (electrostatics_charges other) (combine_charge sc atom_offset);;
     p_self ← get_positions sc;
     p_other ← get_positions other;
     new_positions ← lift (vstack p_self p_other);
     set_positions sc (Some new_positions);;
     b_self ← get_box sc;
     b_other ← get_box other;
     if all_equal b_self b_other then mret sc
     else raise unequal_box_error).
Proof.
  apply confined_bind; [apply confined_read, field_reads|]. intros top.
  apply confined_bind.
  { destruct top as [t|]; [|apply confined_raise].
    destruct (mdtop t); [apply confined_ret|apply confined_raise]. }
  intros atom_offset.
  apply confined_bind; [apply confined_read, field_reads|]. intros other_top.
  apply confined_bind.
  { destruct other_top; [apply confined_ret|apply confined_raise]. }
  intros mols.
  apply confined_bind.
  { apply confined_for_each. intros m. apply confined_modify_topology. }
  intros _.
  apply confined_bind; [apply confined_modify_topology|]. intros _.
  apply confined_bind; [apply confined_read, inner_data_ref_reads|]. intros lo.
  apply confined_bind.
  { apply confined_for_items.
    - apply confined_bind; [apply confined_read, read_inner_reads|]. intros i.
      apply confined_ret.
    - intros name hb. apply confined_combine_handler. }
  intros _.
  apply confined_bind.
  { apply confined_for_items.
    - apply confined_read, electrostatics_charges_reads.
    - intros k c. apply confined_combine_charge. }
  intros _.
  apply confined_bind; [apply confined_read, field_reads|]. intros p_self.
  apply confined_bind; [apply confined_read, field_reads|]. intros p_other.
  apply confined_bind; [apply confined_lift|]. intros new_positions.
  apply confined_bind; [apply confined_set_positions|]. intros _.
  apply confined_bind; [apply confined_read, field_reads|]. intros b_self.
  apply confined_bind; [apply confined_read, field_reads|]. intros b_other.
  destruct (all_equal b_self b_other); [apply confined_ret|apply confined_raise].
Qed.

End Confined.

Lemma add_prefix {A} (k : loc → loc → M A) h self ls :
  systems h !! self = Some ls →
  (warn combination_warning;;
   self_copy ← System_new;
   l ← _inner_data self;
   set_inner_data self_copy l;;
   k self_copy l) h
  = k (length (systems h)) ls
      (mk_heap (systems h ++ [ls]) (inner_data h ++ [InnerSystem_default])
         (warnings h ++ [combination_warning])).
Proof.
  intros Hself.
  unfold warn, System_new, _inner_data, set_inner_data, get_heap, put_heap.
  unfold mbind, M_bind, mret, M_ret. simpl.
  rewrite (lookup_app_l_Some _ _ _ _ Hself). simpl.
  rewrite insert_app_r_alt by done. by rewrite Nat.sub_diag.
Qed.

(** X15: whatever the operands hold and whether the combination returns
    or raises, it issues the one warning, creates one [System] object,
    which points to the inner data of the left operand, and one fresh
    [InnerSystem], and leaves every existing [System] object pointing where
    it did. *)
Theorem add_warns_and_creates_one_alias (h : heap) (self other ls : loc) :
  systems h !! self = Some ls →
  warnings (__add__ self other h).1 = warnings h ++ [combination_warning]
  ∧ systems (__add__ self other h).1 = systems h ++ [ls]
  ∧ length (inner_data (__add__ self other h).1) = S (length (inner_data h)).
Proof.
  intros Hself.
  assert (same_objects
            (mk_heap (systems h ++ [ls]) (inner_data h ++ [InnerSystem_default])
               (warnings h ++ [combination_warning]))
            (__add__ self other h).1) as (Hsys & Hwarn & Hlen).
  { unfold __add__. rewrite (add_prefix _ h self ls Hself).
    apply (confined_combination (length (systems h)) ls other).
    simpl. by rewrite lookup_app_r, Nat.sub_diag. }
  rewrite Hsys, Hwarn, Hlen. simpl.
  split; [done|]. split; [done|].
  rewrite length_app. simpl. lia.
Qed.

Lemma add_warns_and_creates_one_alias_witness :
  warnings (__add__ 0 1 positioned_unpositioned).1 = [] ++ [combination_warning]
  ∧ systems (__add__ 0 1 positioned_unpositioned).1 = [0; 1]%nat ++ [0%nat]
  ∧ length (inner_data (__add__ 0 1 positioned_unpositioned).1) = 3%nat.
Proof.
  apply (add_warns_and_creates_one_alias positioned_unpositioned 0 1 0). reflexivity.
Defined.

(** ** Combination: positions *)

(** C1: the combination stacks the two position fields whatever they are.
    A positioned left operand with an unpositioned right operand, or the
    reverse, makes it raise ValueError, where the claim has it return a
    container without positions; two unpositioned operands give a container
    whose positions are a 2x1 array of [None] entries, not [None]; two
    positioned operands of one atom each give the 2x3 array of the left
    rows followed by the right rows. *)
Theorem add_positions_without_and_rule :
  (__add__ 0 1 positioned_unpositioned).2 = Raise (mk_exn ValueError [])
  ∧ (__add__ 1 0 positioned_unpositioned).2 = Raise (mk_exn ValueError [])
  ∧ (__add__ 0 1 unpositioned_unpositioned).2 = Ok 2%nat
  ∧ (get_positions 2 (__add__ 0 1 unpositioned_unpositioned).1).2
    = Ok (Some (mk_ndarray [2; 1]%nat [NoneCell; NoneCell]))
  ∧ (__add__ 0 1 positioned_positioned).2 = Ok 2%nat
  ∧ (get_positions 2 (__add__ 0 1 positioned_positioned).1).2
    = Ok (Some (mk_ndarray [2; 3]%nat
                  [Num (q 0); Num (q 0); Num (q 0); Num (q 1); Num (q 1); Num (q 1)])).
Proof. by vm_compute. Qed.

(** ** Combination: the operands *)

(** C2: combining two positioned one-atom containers returns a new
    [System] object, at location 2, whose [_inner_data] is the very
    [InnerSystem] of the left operand. After the combination the left
    operand has two atoms in its topology, two entries in its vdW slot map
    and in its charge table, and two rows of positions; the right operand is
    as it was. *)
Theorem add_mutates_left_operand :
  let h := positioned_positioned in
  let h' := (__add__ 0 1 h).1 in
  (__add__ 0 1 h).2 = Ok 2%nat
  ∧ systems h' !! 2%nat = systems h' !! 0%nat
  ∧ inner_data h !! 0%nat = Some (one_atom (lj 1 2) (Some (one_position 0)))
  ∧ inner_data h' !! 0%nat
    = Some (mk_InnerSystem
              [("vdW", mk_PotentialHandler "cutoff"
                         [(atom 0, "[#6:1]"); (atom 1, "[#6:1]")]
                         [("[#6:1]", lj 1 2)] None);
               ("Electrostatics", mk_PotentialHandler "pme" [] []
                                    (Some [(atom 0, 0%Qc); (atom 1, 0%Qc)]))]
              (Some (mk_OFFBioTop [mk_Molecule "C" 1; mk_Molecule "C" 1] (Some 2%nat)))
              None
              (Some (mk_ndarray [2; 3]%nat
                       [Num (q 0); Num (q 0); Num (q 0); Num (q 1); Num (q 1); Num (q 1)])))
  ∧ inner_data h' !! 1%nat = inner_data h !! 1%nat.
Proof. by vm_compute. Qed.

(** ** Combination: the vdW table *)

Lemma dict_get_elem {K V} `{EqDecision K} (k : K) (v : V) d :
  dict_get k d = Some v → (k, v) ∈ d.
Proof.
  induction d as [|[k' v'] d IH]; simpl; [done|].
  destruct (decide (k = k')) as [->|Hne].
  - intros [= ->]. by left.
  - intros Hget. right. by apply IH.
Qed.

Lemma handler_of_Some h x name hd :
  handler_of h x name = Some hd →
  ∃ l i, systems h !! x = Some l ∧ inner_data h !! l = Some i
         ∧ dict_get name (handlers i) = Some hd.
Proof.
  unfold handler_of. intros H.
  apply bind_Some in H as (l & Hl & H). apply bind_Some in H as (i & Hi & H).
  by exists l, i.
Qed.

(** C3, as amended: let two containers hold distinct inner data and let
    their combination return a container. The atom-index offset is the atom
    count n of the left operand: every entry of the vdW slot map of the
    right operand is entered into that of the left operand under its atom
    indices raised by n. When the left vdW atom indices lie below n and the
    right vdW keys are distinct, non-empty and non-negative, the vdW slot
    map of the result is the left operand's followed by the right operand's
    so raised. When moreover every potential identity of the left vdW store
    that the right store also holds has the same potential there, the vdW
    table of the result is the left operand's table followed by the right
    operand's. *)
Theorem add_vdw_table_is_concatenation (h h' : heap) (self other c ls lo : loc)
    (ib : InnerSystem) (n : nat) (va vb : PotentialHandler) :
  systems h !! self = Some ls →
  systems h !! other = Some lo →
  ls ≠ lo →
  inner_data h !! lo = Some ib →
  NoDup (dict_keys (handlers ib)) →
  n_atoms_of h self = Some n →
  handler_of h self "vdW" = Some va →
  handler_of h other "vdW" = Some vb →
  __add__ self other h = (h', Ok c) →
  ∃ vc,
    handler_of h' c "vdW" = Some vc
    ∧ slot_map vc
      = foldl (λ sm e, dict_set (offset_key (Z.of_nat n) e.1) e.2 sm) (slot_map va) (slot_map vb)
    ∧ (NoDup (dict_keys (slot_map vb)) →
       Forall (λ k, (atom_index k < Z.of_nat n)%Z) (dict_keys (slot_map va)) →
       Forall (λ k, atom_indices k ≠ [] ∧ (0 ≤ atom_index k)%Z) (dict_keys (slot_map vb)) →
       slot_map vc = slot_map va ++ (shift_entry (Z.of_nat n) <$> slot_map vb)
       ∧ (Forall (λ e : PotentialKey * Potential,
                    dict_get e.1 (potentials vb) = None
                    ∨ dict_get e.1 (potentials vb) = Some e.2)
                 (potentials va) →
          ∀ ta tb,
            get_system_parameters va = Ok ta →
            get_system_parameters vb = Ok tb →
            get_system_parameters vc = Ok (ta ++ tb))).
Proof.
  intros Hself Hother Hne Hib Hnd Hn Hva Hvb Hadd.
  apply handler_of_Some in Hva as (ls' & ia & Hls' & Hia & Hva).
  apply handler_of_Some in Hvb as (lo' & ib' & Hlo' & Hib' & Hvb).
  assert (ls' = ls) as -> by congruence.
  assert (lo' = lo) as -> by congruence.
  assert (ib' = ib) as -> by congruence.
  unfold n_atoms_of in Hn.
  apply bind_Some in Hn as (l1 & Hl1 & Hn). assert (l1 = ls) as -> by congruence.
  apply bind_Some in Hn as (i1 & Hi1 & Hn). assert (i1 = ia) as -> by congruence.
  destruct (add_run_vdw h self other ls lo ia ib Hself Hother Hne Hia Hib n va vb h' c
              Hn Hva Hvb Hnd Hadd) as (-> & x & -> & Hvc).
  exists (merge_handler (Z.of_nat n) vb va).
  split.
  { unfold handler_of. rewrite (St_systems_copy h ls x). simpl.
    rewrite list_lookup_insert_eq
      by (rewrite length_app; apply lookup_lt_Some in Hia; lia).
    done. }
  split; [unfold merge_handler; apply merge_fold_slot_map|].
  intros Hndb Hla Hlb.
  assert (∀ k, k ∈ dict_keys (slot_map va) → (atom_index k < Z.of_nat n)%Z) as Hla'
    by (intros k Hk; by eapply (proj1 (Forall_forall _ _) Hla)).
  assert (∀ k, k ∈ dict_keys (slot_map vb) → atom_indices k ≠ [] ∧ (0 ≤ atom_index k)%Z)
    as Hlb' by (intros k Hk; by eapply (proj1 (Forall_forall _ _) Hlb)).
  split; [by apply merged_slot_map|].
  intros Hagree ta tb Hta Htb.
  apply (merged_table (Z.of_nat n) va vb ta tb); try done.
  intros pk p p' Hp Hp'. apply dict_get_elem in Hp.
  destruct (proj1 (Forall_forall _ _) Hagree _ Hp) as [Hnone|Hsome]; simpl in *; congruence.
Qed.

Lemma add_vdw_table_is_concatenation_witness :
  ∃ vc,
    handler_of (__add__ 0 1 positioned_positioned).1 2 "vdW" = Some vc
    ∧ slot_map vc = [(atom 0, "[#6:1]")] ++ (shift_entry 1 <$> [(atom 0, "[#6:1]")])
    ∧ get_system_parameters vc = Ok ([[q 1; q 2]] ++ [[q 1; q 2]]).
Proof.
  destruct (add_vdw_table_is_concatenation positioned_positioned
              (__add__ 0 1 positioned_positioned).1 0 1 2 0 1
              (one_atom (lj 1 2) (Some (one_position 1))) 1
              (vdw_of (lj 1 2)) (vdw_of (lj 1 2)))
    as (vc & Hvc & _ & Hrest).
  - reflexivity.
  - reflexivity.
  - discriminate.
  - reflexivity.
  - apply (bool_decide_unpack _). vm_compute. exact I.
  - reflexivity.
  - reflexivity.
  - reflexivity.
  - by vm_compute.
  - exists vc. split; [done|].
    destruct Hrest as [Hsm Htable].
    + apply (bool_decide_unpack _). vm_compute. exact I.
    + apply (bool_decide_unpack _). vm_compute. exact I.
    + apply (bool_decide_unpack _). vm_compute. exact I.
    + split; [done|]. apply Htable; [|reflexivity|reflexivity].
      apply (bool_decide_unpack _). vm_compute. exact I.
Defined.

(** C3, as the claim states it, fails: two positioned one-atom containers
    with equal boxes (both [None]) combine without an error, the left vdW
    table is [[1, 2]] and the right one [[3, 4]], but the two vdW stores
    give the one potential identity different parameters, and the vdW table
    of the result is [[3, 4], [3, 4]]. *)
Lemma add_vdw_table_clash :
  let h := clashing_identities in
  box_of h 0 = box_of h 1
  ∧ (__add__ 0 1 h).2 = Ok 2%nat
  ∧ get_system_parameters <$> handler_of h 0 "vdW" = Some (Ok [[q 1; q 2]])
  ∧ get_system_parameters <$> handler_of h 1 "vdW" = Some (Ok [[q 3; q 4]])
  ∧ get_system_parameters <$> handler_of (__add__ 0 1 h).1 2 "vdW"
    = Some (Ok [[q 3; q 4]; [q 3; q 4]])
  ∧ [[q 3; q 4]; [q 3; q 4]] ≠ [[q 1; q 2]] ++ [[q 3; q 4]].
Proof.
  repeat split; by vm_compute.
Qed.

(** ** Combination: the charge table *)

Lemma moved_charge_key_single n k :
  length (atom_indices k) = 1%nat → moved_charge_key n k = offset_key n k.
Proof. destruct k as [[|x [|y l]] m]; done. Qed.

Lemma merge_charges_fresh n (ca cb : pydict TopologyKey Qc) :
  NoDup cb.*1 →
  (∀ e, e ∈ cb → length (atom_indices e.1) = 1%nat) →
  (∀ e, e ∈ cb → offset_key n e.1 ∉ dict_keys ca) →
  merge_charges n ca cb = ca ++ (shift_charge n <$> cb).
Proof.
  unfold merge_charges. revert ca.
  induction cb as [|e cb IH]; intros ca Hnd Hone Hfresh; csimpl.
  - by rewrite app_nil_r.
  - apply NoDup_cons in Hnd as [Hnin Hnd].
    rewrite moved_charge_key_single by (apply Hone; by left).
    rewrite dict_set_fresh by (apply Hfresh; by left).
    rewrite IH; [by rewrite <- app_assoc|done|intros ??; apply Hone; by right|].
    intros e' He'. unfold dict_keys. rewrite fmap_app, elem_of_app. intros [Hin|Hin].
    + eapply Hfresh; [by right|done].
    + simpl in Hin. apply list_elem_of_singleton in Hin.
      apply offset_key_inj in Hin. apply Hnin. rewrite <- Hin.
      apply list_elem_of_fmap. by exists e'.
Qed.

(** X14: let two containers hold distinct inner data, each with an
    "Electrostatics" handler that has a charge table, and let their
    combination return a container. When the keys of the right table are
    single atoms with non-negative indices and the atom indices of the left
    table lie below the atom count n of the left operand, the charge table
    of the result is the left table followed by the right table with every
    atom index raised by n. The method, the slot map and the potentials of
    the "Electrostatics" handler of the result are those of the left
    operand: those of the right operand are not merged. *)
Theorem add_appends_offset_charges (h h' : heap) (self other c ls lo : loc)
    (n : nat) (ea eb : PotentialHandler) (ca cb : pydict TopologyKey Qc) :
  systems h !! self = Some ls →
  systems h !! other = Some lo →
  ls ≠ lo →
  n_atoms_of h self = Some n →
  handler_of h self "Electrostatics" = Some ea →
  handler_of h other "Electrostatics" = Some eb →
  charges ea = Some ca →
  charges eb = Some cb →
  NoDup (dict_keys cb) →
  Forall (λ k, (atom_index k < Z.of_nat n)%Z) (dict_keys ca) →
  Forall (λ k, length (atom_indices k) = 1%nat ∧ (0 ≤ atom_index k)%Z) (dict_keys cb) →
  __add__ self other h = (h', Ok c) →
  ∃ ec,
    handler_of h' c "Electrostatics" = Some ec
    ∧ charges ec = Some (ca ++ (shift_charge (Z.of_nat n) <$> cb))
    ∧ method ec = method ea
    ∧ slot_map ec = slot_map ea
    ∧ potentials ec = potentials ea.
Proof.
  intros Hself Hother Hne Hn Hea Heb Hca Hcb Hnd Hla Hlb Hadd.
  apply handler_of_Some in Hea as (ls' & ia & Hls' & Hia & Hea).
  apply handler_of_Some in Heb as (lo' & ib & Hlo' & Hib & Heb).
  assert (ls' = ls) as -> by congruence.
  assert (lo' = lo) as -> by congruence.
  unfold n_atoms_of in Hn.
  apply bind_Some in Hn as (l1 & Hl1 & Hn). assert (l1 = ls) as -> by congruence.
  apply bind_Some in Hn as (i1 & Hi1 & Hn). assert (i1 = ia) as -> by congruence.
  apply bind_Some in Hn as (ta & Hta & Hn).
  destruct (add_run h self other ls lo ia ib Hself Hother Hne Hia Hib h' c Hadd)
    as (-> & _).
  destruct (add_run_shape h self other ls lo ia ib Hself Hother Hne Hia Hib h' _ Hadd)
    as (ta' & n' & tb & eb' & cb' & x & Hta' & Hn' & _ & Heb' & Hcb' & _ & -> & _ & _ & Hes).
  assert (ta' = ta) as -> by congruence. assert (n' = n) as -> by congruence.
  assert (eb' = eb) as -> by congruence. assert (cb' = cb) as -> by congruence.
  specialize (Hes ea ca Hea Hca).
  eexists. split.
  { unfold handler_of. rewrite (St_systems_copy h ls x). simpl.
    rewrite list_lookup_insert_eq
      by (rewrite length_app; apply lookup_lt_Some in Hia; lia).
    exact Hes. }
  simpl. split; [|done]. f_equal.
  apply merge_charges_fresh; [done| |].
  - intros e He. eapply (proj1 (Forall_forall _ _) Hlb).
    apply list_elem_of_fmap. by exists e.
  - intros e He Hin.
    assert (e.1 ∈ dict_keys cb) as Hk by (apply list_elem_of_fmap; by exists e).
    destruct (proj1 (Forall_forall _ _) Hlb _ Hk) as [Hone Hge].
    pose proof (proj1 (Forall_forall _ _) Hla _ Hin) as Hlt. cbv beta in Hlt.
    rewrite atom_index_offset in Hlt by (intros Hnil; by rewrite Hnil in Hone). lia.
Qed.

Lemma add_appends_offset_charges_witness :
  ∃ ec,
    handler_of (__add__ 0 1 positioned_positioned).1 2 "Electrostatics" = Some ec
    ∧ charges ec = Some ([(atom 0, 0%Qc)] ++ (shift_charge 1 <$> [(atom 0, 0%Qc)]))
    ∧ method ec = "pme"
    ∧ slot_map ec = []
    ∧ potentials ec = [].
Proof.
  apply (add_appends_offset_charges positioned_positioned
           (__add__ 0 1 positioned_positioned).1 0 1 2 0 1 1
           (electrostatics_of 0%Qc) (electrostatics_of 0%Qc)
           [(atom 0, 0%Qc)] [(atom 0, 0%Qc)]).
  - reflexivity.
  - reflexivity.
  - discriminate.
  - reflexivity.
  - reflexivity.
  - reflexivity.
  - reflexivity.
  - reflexivity.
  - apply (bool_decide_unpack _). vm_compute. exact I.
  - apply (bool_decide_unpack _). vm_compute. exact I.
  - apply (bool_decide_unpack _). vm_compute. exact I.
  - by vm_compute.
Defined.

(** ** Registering, removing and looking up handlers *)

Lemma add_handler_run h self ls i name hd :
  systems h !! self = Some ls →
  inner_data h !! ls = Some i →
  add_handler self name hd h
    = (mk_heap (systems h)
         (<[ls := with_handlers (dict_set name hd (handlers i)) i]> (inner_data h))
         (warnings h), Ok tt).
Proof.
  intros Hs Hi. unfold add_handler, _inner_data, read_inner, write_inner, get_heap, put_heap.
  unfold mbind, M_bind, mret, M_ret. rewrite Hs. simpl. by rewrite Hi.
Qed.

Lemma remove_handler_run h self ls i name :
  systems h !! self = Some ls →
  inner_data h !! ls = Some i →
  remove_handler self name h
    = match dict_pop name (handlers i) with
      | Some (_, rest) =>
          (mk_heap (systems h) (<[ls := with_handlers rest i]> (inner_data h)) (warnings h),
           Ok tt)
      | None => (h, Raise (mk_exn KeyError [Fmt (PyStr name)]))
      end.
Proof.
  intros Hs Hi. unfold remove_handler, _inner_data, read_inner, write_inner, get_heap, put_heap.
  unfold mbind, M_bind, mret, M_ret. rewrite Hs. simpl. rewrite Hi. simpl.
  by destruct (dict_pop name (handlers i)) as [[? ?]|].
Qed.

Lemma dict_pop_None {K V} `{EqDecision K} (k : K) (d : pydict K V) :
  dict_pop k d = None ↔ dict_get k d = None.
Proof.
  induction d as [|[k' v'] d IH]; simpl; [done|].
  destruct (decide (k = k')); [done|].
  destruct (dict_pop k d) as [[? ?]|]; destruct (dict_get k d) as [?|];
    split; try done; intros Hx.
  - by apply IH in Hx.
  - assert (@None (V * pydict K V) = None) as Hy by done. by apply IH in Hy.
Qed.

Lemma dict_pop_Some {K V} `{EqDecision K} (k : K) (v : V) (d rest : pydict K V) :
  dict_pop k d = Some (v, rest) →
  dict_get k d = Some v
  ∧ (∀ k', k' ≠ k → dict_get k' rest = dict_get k' d)
  ∧ (NoDup (dict_keys d) → dict_get k rest = None ∧ NoDup (dict_keys rest))
  ∧ length rest = pred (length d).
Proof.
  revert rest. induction d as [|[k0 v0] d IH]; intros rest; simpl; [done|].
  destruct (decide (k = k0)) as [->|Hne].
  - intros [= -> ->]. split; [done|]. split.
    + intros k' Hk'. by rewrite decide_False.
    + split; [|done]. unfold dict_keys. csimpl. intros Hnd.
      apply NoDup_cons in Hnd as [Hnin Hnd]. split; [|done].
      by apply dict_get_None.
  - destruct (dict_pop k d) as [[w r]|] eqn:Hpop; [|done].
    intros [= -> <-]. destruct (IH r eq_refl) as (Hget & Hother & Hnd & Hlen).
    split; [done|]. split.
    + intros k' Hk'. simpl. destruct (decide (k' = k0)); [done|]. by apply Hother.
    + split.
      * unfold dict_keys in *. csimpl. intros Hnd'.
        apply NoDup_cons in Hnd' as [Hnin Hnd']. destruct (Hnd Hnd') as [Hr Hndr].
        split; [by rewrite decide_False|].
        apply NoDup_cons. split; [|done].
        intros Hin. apply Hnin.
        destruct (dict_get k0 r) as [x|] eqn:Hx.
        -- rewrite Hother in Hx by done. by eapply dict_get_Some_keys.
        -- apply dict_get_None in Hx. done.
      * simpl. rewrite Hlen. apply dict_get_Some_keys in Hget.
        unfold dict_keys in Hget. destruct d; [by apply elem_of_nil in Hget|done].
Qed.

Lemma dict_pop_set_fresh {K V} `{EqDecision K} (k : K) (v : V) (d : pydict K V) :
  dict_get k d = None → dict_pop k (dict_set k v d) = Some (v, d).
Proof.
  induction d as [|[k0 v0] d IH]; simpl.
  - intros _. by rewrite decide_True.
  - destruct (decide (k = k0)) as [->|Hne]; [done|].
    intros Hnone. simpl. rewrite decide_False by done. by rewrite IH.
Qed.

Lemma dict_set_keys {K V} `{EqDecision K} (k : K) (v : V) (d : pydict K V) :
  dict_keys (dict_set k v d)
    = if decide (k ∈ dict_keys d) then dict_keys d else dict_keys d ++ [k].
Proof.
  destruct (decide (k ∈ dict_keys d)) as [Hin|Hnin].
  - by apply dict_set_keys_present.
  - rewrite dict_set_fresh by done. unfold dict_keys. by rewrite fmap_app.
Qed.

Lemma getitem_positions h self ls i :
  systems h !! self = Some ls →
  inner_data h !! ls = Some i →
  __getitem__ self (PyStr "positions") h = (h, Ok (CPositions (positions i))).
Proof.
  intros Hs Hi. unfold __getitem__. rewrite decide_True by done.
  unfold get_positions, _inner_data, read_inner, get_heap.
  unfold mbind, M_bind, mret, M_ret. rewrite Hs. simpl. by rewrite Hi.
Qed.

Lemma getitem_box h self ls i name :
  name = "box" ∨ name = "box_vectors" →
  systems h !! self = Some ls →
  inner_data h !! ls = Some i →
  __getitem__ self (PyStr name) h = (h, Ok (CBox (box i))).
Proof.
  intros Hname Hs Hi. unfold __getitem__.
  rewrite decide_False by (destruct Hname as [-> | ->]; done).
  rewrite decide_True
    by (rewrite elem_of_union, !elem_of_singleton; tauto).
  unfold get_box, _inner_data, read_inner, get_heap.
  unfold mbind, M_bind, mret, M_ret. rewrite Hs. simpl. by rewrite Hi.
Qed.

(** X1: on a container, [add_handler] always succeeds and touches nothing
    but the handlers; the registered names keep their order, a new name goes
    last; looking the name up afterwards returns the handler just given,
    unless the name is one of "positions", "box" and "box_vectors", which
    the lookup answers with the positions or the box instead; every other
    registered handler is still found. *)
Theorem add_handler_then_getitem (h : heap) (self ls : loc) (i : InnerSystem)
    (name : string) (hd : PotentialHandler) :
  systems h !! self = Some ls →
  inner_data h !! ls = Some i →
  ∃ h' i',
    add_handler self name hd h = (h', Ok tt)
    ∧ systems h' = systems h ∧ warnings h' = warnings h
    ∧ inner_data h' !! ls = Some i'
    ∧ topology i' = topology i ∧ box i' = box i ∧ positions i' = positions i
    ∧ dict_keys (handlers i')
      = (if decide (name ∈ dict_keys (handlers i)) then dict_keys (handlers i)
         else dict_keys (handlers i) ++ [name])
    ∧ (name ≠ "positions" → name ≠ "box" → name ≠ "box_vectors" →
         __getitem__ self (PyStr name) h' = (h', Ok (CHandler hd)))
    ∧ __getitem__ self (PyStr "positions") h' = (h', Ok (CPositions (positions i)))
    ∧ __getitem__ self (PyStr "box") h' = (h', Ok (CBox (box i)))
    ∧ __getitem__ self (PyStr "box_vectors") h' = (h', Ok (CBox (box i)))
    ∧ (∀ other_name other_hd,
         other_name ≠ name →
         other_name ≠ "positions" → other_name ≠ "box" → other_name ≠ "box_vectors" →
         dict_get other_name (handlers i) = Some other_hd →
         __getitem__ self (PyStr other_name) h' = (h', Ok (CHandler other_hd))).
Proof.
  intros Hs Hi.
  assert (ls < length (inner_data h))%nat as Hlt by (by eapply lookup_lt_Some).
  assert (∀ x, <[ls:=x]> (inner_data h) !! ls = Some x) as Hnew
    by (intros x; by apply list_lookup_insert_eq).
  exists (mk_heap (systems h)
            (<[ls := with_handlers (dict_set name hd (handlers i)) i]> (inner_data h))
            (warnings h)),
         (with_handlers (dict_set name hd (handlers i)) i).
  split; [by apply add_handler_run|].
  repeat split; try done.
  - apply Hnew.
  - apply dict_set_keys.
  - intros Hp Hb Hbv. erewrite getitem_handler_name; cycle 1; [done|apply Hnew|done..|].
    simpl. by rewrite dict_get_set_eq.
  - erewrite getitem_positions; cycle 1; [done|apply Hnew|done].
  - erewrite getitem_box; cycle 1; [by left|done|apply Hnew|done].
  - erewrite getitem_box; cycle 1; [by right|done|apply Hnew|done].
  - intros other_name other_hd Hne Hp Hb Hbv Hget.
    erewrite getitem_handler_name; cycle 1; [done|apply Hnew|done..|].
    simpl. rewrite dict_get_set_ne by done. by rewrite Hget.
Qed.

Lemma add_handler_then_getitem_witness :
  ∃ h', add_handler 0 "Bonds" (vdw_of (lj 3 4)) positioned_positioned = (h', Ok tt)
    ∧ __getitem__ 0 (PyStr "Bonds") h' = (h', Ok (CHandler (vdw_of (lj 3 4))))
    ∧ __getitem__ 0 (PyStr "vdW") h' = (h', Ok (CHandler (vdw_of (lj 1 2)))).
Proof.
  destruct (add_handler_then_getitem positioned_positioned 0 0
              (one_atom (lj 1 2) (Some (one_position 0))) "Bonds" (vdw_of (lj 3 4))
              eq_refl eq_refl)
    as (h' & i' & Hadd & _ & _ & _ & _ & _ & _ & _ & Hnew & _ & _ & _ & Hold).
  exists h'. split; [done|]. split.
  - apply Hnew; discriminate.
  - apply Hold; (discriminate || reflexivity).
Defined.

(** X2: [remove_handler] on a name that is not registered raises KeyError
    and leaves the store as it was. On a registered name it returns, one
    handler fewer is registered, every other name still resolves to the
    handler it had, and the topology, the box and the positions are
    untouched; the names of a dictionary being unique, the removed name no
    longer resolves, and looking it up raises the "Could not find" error. *)
Theorem remove_handler_missing_or_removed (h : heap) (self ls : loc) (i : InnerSystem)
    (name : string) :
  systems h !! self = Some ls →
  inner_data h !! ls = Some i →
  (dict_get name (handlers i) = None →
     remove_handler self name h = (h, Raise (mk_exn KeyError [Fmt (PyStr name)])))
  ∧ (∀ hd, dict_get name (handlers i) = Some hd →
       ∃ h' i',
         remove_handler self name h = (h', Ok tt)
         ∧ systems h' = systems h ∧ warnings h' = warnings h
         ∧ inner_data h' !! ls = Some i'
         ∧ topology i' = topology i ∧ box i' = box i ∧ positions i' = positions i
         ∧ length (handlers i') = pred (length (handlers i))
         ∧ (∀ other, other ≠ name →
              dict_get other (handlers i') = dict_get other (handlers i))
         ∧ (NoDup (dict_keys (handlers i)) →
              dict_get name (handlers i') = None
              ∧ (name ≠ "positions" → name ≠ "box" → name ≠ "box_vectors" →
                 __getitem__ self (PyStr name) h'
                   = (h', Raise (could_not_find_error (PyStr name)
                                   (dict_keys (handlers i'))))))).
Proof.
  intros Hs Hi.
  assert (ls < length (inner_data h))%nat as Hlt by (by eapply lookup_lt_Some).
  split.
  - intros Hnone. rewrite (remove_handler_run h self ls i) by done.
    apply dict_pop_None in Hnone. by rewrite Hnone.
  - intros hd Hsome.
    destruct (dict_pop name (handlers i)) as [[v rest]|] eqn:Hpop;
      [|apply dict_pop_None in Hpop; congruence].
    destruct (dict_pop_Some _ _ _ _ Hpop) as (Hget & Hother & Hnd & Hlen).
    exists (mk_heap (systems h) (<[ls := with_handlers rest i]> (inner_data h)) (warnings h)),
           (with_handlers rest i).
    split; [rewrite (remove_handler_run h self ls i) by done; by rewrite Hpop|].
    assert (<[ls := with_handlers rest i]> (inner_data h) !! ls = Some (with_handlers rest i))
      as Hnew by (by apply list_lookup_insert_eq).
    split; [done|]. split; [done|]. split; [done|].
    split; [done|]. split; [done|]. split; [done|].
    split; [done|]. split; [done|].
    intros Hnodup. destruct (Hnd Hnodup) as [Hgone _]. split; [done|].
    intros Hp Hb Hbv.
    erewrite getitem_handler_name; cycle 1; [done|apply Hnew|done..|].
    simpl. by rewrite Hgone.
Qed.

Lemma remove_handler_missing_or_removed_witness :
  remove_handler 0 "Bonds" positioned_positioned
    = (positioned_positioned, Raise (mk_exn KeyError [Fmt (PyStr "Bonds")]))
  ∧ ∃ h' i', remove_handler 0 "vdW" positioned_positioned = (h', Ok tt)
      ∧ inner_data h' !! 0%nat = Some i'
      ∧ dict_get "Electrostatics" (handlers i') = Some (electrostatics_of 0%Qc)
      ∧ __getitem__ 0 (PyStr "vdW") h'
        = (h', Raise (could_not_find_error (PyStr "vdW") (dict_keys (handlers i')))).
Proof.
  destruct (remove_handler_missing_or_removed positioned_positioned 0 0
              (one_atom (lj 1 2) (Some (one_position 0))) "Bonds" eq_refl eq_refl)
    as [Hmiss _].
  destruct (remove_handler_missing_or_removed positioned_positioned 0 0
              (one_atom (lj 1 2) (Some (one_position 0))) "vdW" eq_refl eq_refl)
    as [_ Hhit].
  split; [by apply Hmiss|].
  destruct (Hhit (vdw_of (lj 1 2)) eq_refl)
    as (h' & i' & Hrun & _ & _ & Hin & _ & _ & _ & _ & Hother & Hnd).
  exists h', i'. split; [done|]. split; [done|]. split.
  - rewrite Hother by discriminate. reflexivity.
  - destruct Hnd as [_ Hlook]; [apply (bool_decide_unpack _); vm_compute; exact I|].
    apply Hlook; discriminate.
Defined.

(** X3: registering a handler under a name that was not registered and
    then removing that name gives back the store exactly as it was. *)
Theorem add_then_remove_handler_restores (h : heap) (self ls : loc) (i : InnerSystem)
    (name : string) (hd : PotentialHandler) :
  systems h !! self = Some ls →
  inner_data h !! ls = Some i →
  dict_get name (handlers i) = None →
  (add_handler self name hd;; remove_handler self name) h = (h, Ok tt).
Proof.
  intros Hs Hi Hfresh.
  assert (ls < length (inner_data h))%nat as Hlt by (by eapply lookup_lt_Some).
  rewrite bind_run, (add_handler_run h self ls i) by done.
  erewrite remove_handler_run; cycle 1;
    [done | simpl; by apply list_lookup_insert_eq |].
  simpl. rewrite dict_pop_set_fresh by done. simpl.
  rewrite list_insert_insert_eq. unfold with_handlers. simpl.
  destruct h as [sys inner ws]. simpl in *. do 2 f_equal.
  apply list_insert_id. rewrite Hi. by destruct i.
Qed.

Lemma add_then_remove_handler_restores_witness :
  (add_handler 0 "Bonds" (vdw_of (lj 3 4));; remove_handler 0 "Bonds") positioned_positioned
    = (positioned_positioned, Ok tt).
Proof.
  apply (add_then_remove_handler_restores positioned_positioned 0 0
           (one_atom (lj 1 2) (Some (one_position 0)))); reflexivity.
Defined.

(** ** The box that is stored *)

Lemma validate_box_idempotent value v :
  validate_box value = Ok v →
  validate_box v = Ok v
  ∧ (v = None ∨ ∃ arr, v = Some arr ∧ shape arr = [3; 3]%nat)
  ∧ (value = None ↔ v = None).
Proof.
  unfold validate_box. destruct value as [arr|].
  - destruct (decide (shape arr = [3; 3]%nat)) as [H33|H33].
    + intros [= <-]. rewrite decide_True by done. split; [done|]. split; [|done].
      right. by exists arr.
    + destruct (decide (shape arr = [3]%nat)); [|done].
      intros [= <-]. simpl. split; [done|]. split; [|done].
      right. by eexists.
  - intros [= <-]. split; [done|]. split; [by left|done].
Qed.

(** X4: whenever assigning to the box of a container returns, the box
    then stored is [None] or an array of shape (3, 3), it is [None] exactly
    when [None] was assigned, and assigning the stored box again changes
    nothing. *)
Theorem box_setter_stores_matrix_or_none (h h' : heap) (self ls : loc) (i : InnerSystem)
    (value : option (ndarray float)) :
  systems h !! self = Some ls →
  inner_data h !! ls = Some i →
  set_box self value h = (h', Ok tt) →
  ∃ b, get_box self h' = (h', Ok b)
    ∧ (b = None ∨ ∃ arr, b = Some arr ∧ shape arr = [3; 3]%nat)
    ∧ (value = None ↔ b = None)
    ∧ set_box self b h' = (h', Ok tt).
Proof.
  intros Hs Hi. rewrite (set_box_run h self ls i) by done.
  assert (ls < length (inner_data h))%nat as Hlt by (by eapply lookup_lt_Some).
  destruct (validate_box value) as [v|e] eqn:Hv; [|done].
  intros [= <-]. destruct (validate_box_idempotent _ _ Hv) as (Hidem & Hshape & Hnone).
  exists v. split.
  { erewrite get_box_run; cycle 1; [done | simpl; by apply list_lookup_insert_eq | done]. }
  split; [done|]. split; [done|].
  erewrite set_box_run; cycle 1; [done | simpl; by apply list_lookup_insert_eq |].
  rewrite Hidem. simpl. by rewrite list_insert_insert_eq.
Qed.

Lemma box_setter_stores_matrix_or_none_witness :
  ∃ b, get_box 0 (set_box 0 (Some (vector3 4 4 4)) positioned_positioned).1
       = ((set_box 0 (Some (vector3 4 4 4)) positioned_positioned).1, Ok b)
    ∧ (b = None ∨ ∃ arr, b = Some arr ∧ shape arr = [3; 3]%nat)
    ∧ (Some (vector3 4 4 4) = None ↔ b = None)
    ∧ set_box 0 b (set_box 0 (Some (vector3 4 4 4)) positioned_positioned).1
      = ((set_box 0 (Some (vector3 4 4 4)) positioned_positioned).1, Ok tt).
Proof.
  apply (box_setter_stores_matrix_or_none positioned_positioned _ 0 0
           (one_atom (lj 1 2) (Some (one_position 0)))).
  - reflexivity.
  - reflexivity.
  - by vm_compute.
Defined.

(** X5: a lookup by name never changes the store, whatever the key and
    whether or not it raises, and the keys "box" and "box_vectors" give the
    same answer. *)
Theorem getitem_never_writes (self : loc) (item : pyobj) (h : heap) :
  (__getitem__ self item h).1 = h
  ∧ __getitem__ self (PyStr "box_vectors") h = __getitem__ self (PyStr "box") h.
Proof.
  split; [|done].
  unfold __getitem__. destruct item as [s| | |]; try done.
  destruct (decide (s = "positions")).
  - unfold get_positions, _inner_data, read_inner, get_heap.
    unfold mbind, M_bind, mret, M_ret, raise.
    destruct (systems h !! self) as [l|]; [|done]. simpl.
    by destruct (inner_data h !! l).
  - destruct (decide (s ∈ ({[ "box"; "box_vectors" ]} : gset string))).
    + unfold get_box, _inner_data, read_inner, get_heap.
      unfold mbind, M_bind, mret, M_ret, raise.
      destruct (systems h !! self) as [l|]; [|done]. simpl.
      by destruct (inner_data h !! l).
    + unfold get_handlers, _inner_data, read_inner, get_heap.
      unfold mbind, M_bind, mret, M_ret, raise.
      destruct (systems h !! self) as [l|]; [|done]. simpl.
      destruct (inner_data h !! l) as [i|]; [|done]. simpl.
      by destruct (dict_get s (handlers i)).
Qed.

(** ** The nonbonded settings and the file exports of the container *)

Section ExportProperties.
Import SystemExports.

Lemma from_store_run {A} (m : M A) w :
  from_store m w
    = match m (store w) with
      | (h', Ok a) => (mk_world h' (delegated w), Returned a)
      | (h', Raise e) => (mk_world h' (delegated w), Failed (Builtin e))
      end.
Proof. reflexivity. Qed.

Lemma E_bind_run {A B} (m : E A) (f : A → E B) w :
  (m ≫= f) w = match m w with
               | (w', Returned a) => f a w'
               | (w', Failed e) => (w', Failed e)
               end.
Proof. reflexivity. Qed.

Lemma world_eta w : mk_world (store w) (delegated w) = w.
Proof. by destruct w. Qed.

Lemma get_positions_run h self ls i :
  systems h !! self = Some ls →
  inner_data h !! ls = Some i →
  get_positions self h = (h, Ok (positions i)).
Proof.
  intros Hs Hi. unfold get_positions, _inner_data, read_inner, get_heap.
  unfold mbind, M_bind, mret, M_ret. rewrite Hs. simpl. by rewrite Hi.
Qed.

Lemma handler_item_run w self ls i name :
  systems (store w) !! self = Some ls →
  inner_data (store w) !! ls = Some i →
  handler_item self name w
    = (w, match dict_get name (handlers i) with
          | Some hd => Returned hd
          | None => Failed (Builtin (mk_exn KeyError [Fmt (PyStr name)]))
          end).
Proof.
  intros Hs Hi. unfold handler_item.
  rewrite E_bind_run, from_store_run, (get_handlers_run _ self ls i), world_eta by done.
  by destruct (dict_get name (handlers i)).
Qed.

(** X6: on a container that has an "Electrostatics" handler,
    [_get_nonbonded_methods] reports the method of that handler, the method
    of the "vdW" handler when there is one, whether or not a "Buckingham-6"
    handler is registered too, and the method of the "Buckingham-6" handler
    only when there is no "vdW" handler; the topology is reported periodic
    exactly when a box is stored. The store is left as it was. *)
Theorem get_nonbonded_methods_prefers_vdw (w : world) (self ls : loc) (i : InnerSystem)
    (es : PotentialHandler) :
  systems (store w) !! self = Some ls →
  inner_data (store w) !! ls = Some i →
  dict_get "Electrostatics" (handlers i) = Some es →
  (∀ vdw, dict_get "vdW" (handlers i) = Some vdw →
     _get_nonbonded_methods self w
       = (w, Returned (mk_nonbonded_methods (method es) (method vdw)
                         (match box i with Some _ => true | None => false end))))
  ∧ (∀ b6, dict_get "vdW" (handlers i) = None →
       dict_get "Buckingham-6" (handlers i) = Some b6 →
       _get_nonbonded_methods self w
         = (w, Returned (mk_nonbonded_methods (method es) (method b6)
                           (match box i with Some _ => true | None => false end)))).
Proof.
  intros Hs Hi Hes. split.
  - intros vdw Hv. unfold _get_nonbonded_methods.
    rewrite E_bind_run, from_store_run, (get_handlers_run _ self ls i), world_eta by done.
    unfold dict_in. rewrite Hv. rewrite E_bind_run. simpl.
    rewrite E_bind_run, (handler_item_run w self ls i) by done. rewrite Hes.
    rewrite E_bind_run, (handler_item_run w self ls i) by done. rewrite Hv.
    rewrite E_bind_run, from_store_run, (get_box_run _ self ls i), world_eta by done.
    done.
  - intros b6 Hv Hb. unfold _get_nonbonded_methods.
    rewrite E_bind_run, from_store_run, (get_handlers_run _ self ls i), world_eta by done.
    unfold dict_in. rewrite Hv, Hb. rewrite E_bind_run. simpl.
    rewrite E_bind_run, (handler_item_run w self ls i) by done. rewrite Hes.
    rewrite E_bind_run, (handler_item_run w self ls i) by done. rewrite Hb.
    rewrite E_bind_run, from_store_run, (get_box_run _ self ls i), world_eta by done.
    done.
Qed.

Lemma get_nonbonded_methods_prefers_vdw_witness :
  _get_nonbonded_methods 0 (mk_world positioned_positioned [])
    = (mk_world positioned_positioned [],
       Returned (mk_nonbonded_methods "pme" "cutoff" false)).
Proof.
  destruct (get_nonbonded_methods_prefers_vdw (mk_world positioned_positioned []) 0 0
              (one_atom (lj 1 2) (Some (one_position 0))) (electrostatics_of 0%Qc)
              eq_refl eq_refl eq_refl) as [Hvdw _].
  apply (Hvdw (vdw_of (lj 1 2))). reflexivity.
Defined.

(** X7: [_get_nonbonded_methods] on a container with neither a "vdW" nor
    a "Buckingham-6" handler raises InternalInconsistencyError, also when
    the "Electrostatics" handler is missing too; with one of the two and no
    "Electrostatics" handler it raises KeyError for "Electrostatics". The
    store is left as it was. *)
Theorem get_nonbonded_methods_errors (w : world) (self ls : loc) (i : InnerSystem) :
  systems (store w) !! self = Some ls →
  inner_data (store w) !! ls = Some i →
  (dict_get "vdW" (handlers i) = None →
   dict_get "Buckingham-6" (handlers i) = None →
   _get_nonbonded_methods self w
     = (w, Failed (InternalInconsistencyError "Found no non-bonded handlers")))
  ∧ (dict_in "vdW" (handlers i) || dict_in "Buckingham-6" (handlers i) = true →
     dict_get "Electrostatics" (handlers i) = None →
     _get_nonbonded_methods self w
       = (w, Failed (Builtin (mk_exn KeyError [Fmt (PyStr "Electrostatics")])))).
Proof.
  intros Hs Hi. split.
  - intros Hv Hb. unfold _get_nonbonded_methods.
    rewrite E_bind_run, from_store_run, (get_handlers_run _ self ls i), world_eta by done.
    unfold dict_in. by rewrite Hv, Hb.
  - intros Hany Hes. unfold _get_nonbonded_methods.
    rewrite E_bind_run, from_store_run, (get_handlers_run _ self ls i), world_eta by done.
    rewrite E_bind_run.
    destruct (dict_in "vdW" (handlers i)).
    + simpl. rewrite E_bind_run, (handler_item_run w self ls i) by done. by rewrite Hes.
    + simpl in Hany. rewrite Hany. simpl.
      rewrite E_bind_run, (handler_item_run w self ls i) by done. by rewrite Hes.
Qed.

Lemma get_nonbonded_methods_errors_witness :
  _get_nonbonded_methods 0
    (mk_world (two_systems InnerSystem_default InnerSystem_default) [])
    = (mk_world (two_systems InnerSystem_default InnerSystem_default) [],
       Failed (InternalInconsistencyError "Found no non-bonded handlers"))
  ∧ _get_nonbonded_methods 0
      (mk_world (two_systems (mk_InnerSystem [("vdW", vdw_of (lj 1 2))] None None None)
                   InnerSystem_default) [])
    = (mk_world (two_systems (mk_InnerSystem [("vdW", vdw_of (lj 1 2))] None None None)
                   InnerSystem_default) [],
       Failed (Builtin (mk_exn KeyError [Fmt (PyStr "Electrostatics")]))).
Proof.
  split.
  - apply (get_nonbonded_methods_errors
             (mk_world (two_systems InnerSystem_default InnerSystem_default) []) 0 0
             InnerSystem_default eq_refl eq_refl); reflexivity.
  - apply (get_nonbonded_methods_errors
             (mk_world (two_systems (mk_InnerSystem [("vdW", vdw_of (lj 1 2))] None None None)
                          InnerSystem_default) []) 0 0
             (mk_InnerSystem [("vdW", vdw_of (lj 1 2))] None None None) eq_refl eq_refl);
      reflexivity.
Defined.

(** X8: [to_gro] on a container without positions raises
    MissingPositionsError whatever the writer, the path and the number of
    decimals are; no writer is called and no warning is issued. *)
Theorem to_gro_requires_positions (w : world) (self ls : loc) (i : InnerSystem)
    (file_path writer : string) (decimal : Z) :
  systems (store w) !! self = Some ls →
  inner_data (store w) !! ls = Some i →
  positions i = None →
  to_gro self file_path writer decimal w = (w, Failed missing_positions_error).
Proof.
  intros Hs Hi Hp. unfold to_gro.
  rewrite !E_bind_run, from_store_run, (get_positions_run _ self ls i), world_eta by done.
  by rewrite Hp.
Qed.

Lemma to_gro_requires_positions_witness :
  to_gro 1 "out.gro" "parmed" 8 (mk_world positioned_unpositioned [])
    = (mk_world positioned_unpositioned [], Failed missing_positions_error).
Proof.
  apply (to_gro_requires_positions (mk_world positioned_unpositioned []) 1 1
           (one_atom (lj 1 2) None)); reflexivity.
Defined.

(** X9: [to_gro] on a container whose positions are an array of numbers
    returns for every writer name. It issues the zero-positions warning
    exactly when every coordinate is within 1e-8 of zero, and the warning
    does not stop the export: the writer "parmed" is handed to the ParmEd
    wrapper, the writer "internal" to the GROMACS writer with the number of
    decimals, and for any other writer name nothing is written. *)
Theorem to_gro_warns_then_writes (w : world) (self ls : loc) (i : InnerSystem)
    (a : ndarray scalar) (all_zero : bool) (file_path writer : string) (decimal : Z) :
  systems (store w) !! self = Some ls →
  inner_data (store w) !! ls = Some i →
  positions i = Some a →
  allclose_zero a = Ok all_zero →
  to_gro self file_path writer decimal w
    = (mk_world
         (mk_heap (systems (store w)) (inner_data (store w))
            (warnings (store w) ++ (if all_zero then [zero_positions_warning] else [])))
         (delegated w ++
            (if decide (writer = "parmed") then [ParmEdWrapper_to_file self file_path]
             else if decide (writer = "internal") then [gromacs_to_gro self file_path decimal]
             else [])),
       Returned tt).
Proof.
  intros Hs Hi Hp Hz. unfold to_gro.
  rewrite !E_bind_run, from_store_run, (get_positions_run _ self ls i), world_eta by done.
  rewrite Hp. rewrite !E_bind_run, from_store_run. unfold lift. rewrite Hz.
  destruct w as [[sys inner ws] ds]. simpl in *.
  destruct all_zero; simpl.
  - destruct (decide (writer = "parmed")); [done|].
    destruct (decide (writer = "internal")); [done|].
    unfold mret, E_ret. by rewrite app_nil_r.
  - rewrite app_nil_r.
    destruct (decide (writer = "parmed")); [done|].
    destruct (decide (writer = "internal")); [done|].
    unfold mret, E_ret. by rewrite app_nil_r.
Qed.

Lemma to_gro_warns_then_writes_witness :
  to_gro 0 "out.gro" "internal" 8 (mk_world positioned_positioned [])
    = (mk_world
         (mk_heap (systems positioned_positioned) (inner_data positioned_positioned)
            ([] ++ [zero_positions_warning]))
         ([] ++ [gromacs_to_gro 0 "out.gro" 8]),
       Returned tt).
Proof.
  apply (to_gro_warns_then_writes (mk_world positioned_positioned []) 0 0
           (one_atom (lj 1 2) (Some (one_position 0))) (one_position 0) true
           "out.gro" "internal" 8); reflexivity.
Defined.

(** X10: for a writer name other than "parmed" and "internal", [to_top]
    returns without writing anything, while [to_lammps], [to_prmtop] and
    [to_crd] raise UnsupportedExportError; none of them changes the store
    or calls a writer. [to_lammps] also rejects "parmed", and [to_prmtop]
    and [to_crd] reject "internal". *)
Theorem exporters_on_other_writers (w : world) (self : loc) (file_path writer : string) :
  writer ≠ "parmed" →
  writer ≠ "internal" →
  to_top self file_path writer w = (w, Returned tt)
  ∧ to_lammps self file_path writer w = (w, Failed UnsupportedExportError)
  ∧ to_prmtop self file_path writer w = (w, Failed UnsupportedExportError)
  ∧ to_crd self file_path writer w = (w, Failed UnsupportedExportError)
  ∧ to_lammps self file_path "parmed" w = (w, Failed UnsupportedExportError)
  ∧ to_prmtop self file_path "internal" w = (w, Failed UnsupportedExportError)
  ∧ to_crd self file_path "internal" w = (w, Failed UnsupportedExportError).
Proof.
  intros Hp Hi. unfold to_top, to_lammps, to_prmtop, to_crd.
  rewrite !(decide_False (P := writer = "parmed")) by done.
  rewrite (decide_False (P := writer = "internal")) by done.
  rewrite (decide_True (P := writer ≠ "internal")) by done.
  done.
Qed.

Lemma exporters_on_other_writers_witness :
  to_top 0 "out.top" "openmm" (mk_world positioned_positioned [])
    = (mk_world positioned_positioned [], Returned tt)
  ∧ to_lammps 0 "out.top" "openmm" (mk_world positioned_positioned [])
    = (mk_world positioned_positioned [], Failed UnsupportedExportError).
Proof.
  destruct (exporters_on_other_writers (mk_world positioned_positioned []) 0
              "out.top" "openmm") as (Htop & Hlammps & _); [discriminate..|].
  by split.
Defined.

End ExportProperties.

(** ** OpenMM export of the nonbonded handlers *)

Import OpenMMExport.

Lemma particle_loop_keeps_system values s : (particle_loop values s).1 = s.
Proof.
  induction values as [|v rest IH]; [done|].
  simpl. unfold mbind, X_bind, particle_step.
  destruct (String.list_ascii_of_string v) as [|c1 [|c2 [|c3 l]]]; done.
Qed.

Lemma supported_vdw_method_is_capitalised m :
  m ∈ supported_cutoff_methods.*1 → m ≠ "cutoff".
Proof.
  simpl. intros Hin ->. apply list_elem_of_singleton in Hin. discriminate.
Qed.

(** C4: whatever the container and its periodicity, the force the exporter
    adds never has its nonbonded method set. Either nothing is added to the
    OpenMM system, or exactly one force is added and no call at all was made
    on it, so that it keeps the engine's default method. A periodic
    container whose handlers name the supported methods is exported without
    an error and with the default method [NoCutoff]; with an atom in its
    vdW slot map the export stops with ValueError after the force was
    added. *)
Theorem nonbonded_method_never_configured :
  (∀ openff_sys s,
     forces (_process_nonbonded_forces openff_sys s).1 = forces s
     ∨ forces (_process_nonbonded_forces openff_sys s).1 = forces s ++ [mk_NonbondedForce []])
  ∧ _process_nonbonded_forces supported_periodic empty_openmm
    = (mk_OpenMMSystem [mk_NonbondedForce []], Ok tt)
  ∧ method_configured (mk_NonbondedForce []) = false
  ∧ getNonbondedMethod (mk_NonbondedForce []) = NoCutoff
  ∧ _process_nonbonded_forces supported_periodic_one_atom empty_openmm
    = (mk_OpenMMSystem [mk_NonbondedForce []], Raise (mk_exn ValueError [])).
Proof.
  split; [|by vm_compute].
  intros sys s. unfold _process_nonbonded_forces, lookup_handler.
  unfold mbind, X_bind, mret, X_ret, xraise.
  destruct (dict_get "vdW" (handlers sys)) as [vdw|]; [|by left].
  destruct (decide (method vdw ∉ supported_cutoff_methods.*1)) as [|Hin]; [by left|].
  apply dec_stable in Hin.
  destruct (dict_get "Electrostatics" (handlers sys)) as [es|]; [|by left].
  destruct (decide (method es ∉ supported_cutoff_methods.*2)); [by left|].
  right. unfold addForce.
  rewrite decide_False by (by apply supported_vdw_method_is_capitalised).
  by rewrite particle_loop_keeps_system.
Qed.

Lemma particle_loop_returns_nothing values s s' :
  particle_loop values s = (s', Ok tt) → values = [].
Proof.
  destruct values as [|v rest]; [done|].
  simpl. unfold mbind, X_bind, particle_step, xraise.
  destruct (String.list_ascii_of_string v) as [|c1 [|c2 [|c3 l]]]; done.
Qed.

(** X16: the nonbonded export returns exactly when the container has a
    "vdW" handler whose method is "Cutoff", an "Electrostatics" handler
    whose method is "PME", and no entry in the vdW slot map; it then has
    added one force on which no call was made. With any atom in the vdW
    slot map the export raises: no particle is ever given parameters. *)
Theorem nonbonded_export_returns_only_without_particles
    (openff_sys : OpenFFSystem) (s : OpenMMSystem) :
  (∀ s', _process_nonbonded_forces openff_sys s = (s', Ok tt) →
     s' = mk_OpenMMSystem (forces s ++ [mk_NonbondedForce []])
     ∧ ∃ vdw es,
         dict_get "vdW" (handlers openff_sys) = Some vdw ∧ method vdw = "Cutoff"
         ∧ dict_get "Electrostatics" (handlers openff_sys) = Some es ∧ method es = "PME"
         ∧ slot_map vdw = [])
  ∧ (∀ vdw es,
       dict_get "vdW" (handlers openff_sys) = Some vdw → method vdw = "Cutoff" →
       dict_get "Electrostatics" (handlers openff_sys) = Some es → method es = "PME" →
       slot_map vdw = [] →
       _process_nonbonded_forces openff_sys s
         = (mk_OpenMMSystem (forces s ++ [mk_NonbondedForce []]), Ok tt)).
Proof.
  split.
  - intros s'. unfold _process_nonbonded_forces, lookup_handler.
    unfold mbind, X_bind, mret, X_ret, xraise.
    destruct (dict_get "vdW" (handlers openff_sys)) as [vdw|]; [|done].
    destruct (decide (method vdw ∉ supported_cutoff_methods.*1)) as [|Hvdw]; [done|].
    apply dec_stable in Hvdw.
    destruct (dict_get "Electrostatics" (handlers openff_sys)) as [es|]; [|done].
    destruct (decide (method es ∉ supported_cutoff_methods.*2)) as [|Hes]; [done|].
    apply dec_stable in Hes.
    unfold addForce.
    rewrite decide_False by (by apply supported_vdw_method_is_capitalised).
    intros Hrun.
    pose proof (particle_loop_keeps_system (dict_values (slot_map vdw))
                  (mk_OpenMMSystem (forces s ++ [mk_NonbondedForce []]))) as Hkeep.
    rewrite Hrun in Hkeep. simpl in Hkeep. split; [done|].
    apply particle_loop_returns_nothing in Hrun.
    exists vdw, es.
    simpl in Hvdw, Hes. apply list_elem_of_singleton in Hvdw, Hes.
    repeat split; try done.
    unfold dict_values in Hrun. by apply fmap_nil_inv in Hrun.
  - intros vdw es Hv Hvm He Hem Hsm. unfold _process_nonbonded_forces, lookup_handler.
    unfold mbind, X_bind, mret, X_ret, xraise. rewrite Hv.
    rewrite decide_False by (rewrite Hvm; intros Hn; apply Hn; by left).
    rewrite He.
    rewrite decide_False by (rewrite Hem; intros Hn; apply Hn; by left).
    rewrite decide_False by (by rewrite Hvm).
    by rewrite Hsm.
Qed.

Lemma nonbonded_export_returns_only_without_particles_witness :
  _process_nonbonded_forces supported_periodic empty_openmm
    = (mk_OpenMMSystem (forces empty_openmm ++ [mk_NonbondedForce []]), Ok tt)
  ∧ ∀ s', _process_nonbonded_forces supported_periodic_one_atom empty_openmm ≠ (s', Ok tt).
Proof.
  split.
  - eapply (proj2 (nonbonded_export_returns_only_without_particles
                     supported_periodic empty_openmm)); reflexivity.
  - intros s' Hrun.
    destruct (proj1 (nonbonded_export_returns_only_without_particles
                       supported_periodic_one_atom empty_openmm) s' Hrun)
      as (_ & vdw & es & Hv & _ & _ & _ & Hsm).
    injection Hv as <-. discriminate Hsm.
Defined.

(** ** OpenMM export of virtual sites *)

Import VirtualSites.

Section VirtualSiteProperties.
Variable separation_of : list Z → result float.
Variable arccos : float → float.
Variable cos : float → float.

Local Abbreviation create := (_create_openmm_virtual_site separation_of arccos cos).

Lemma bond_charge_export virtual_site particle_map p1 p2 separation :
  class_of virtual_site = _BondChargeVirtualSite →
  lookup_all particle_map (orientations virtual_site) = Ok [p1; p2] →
  separation_of (orientations virtual_site) = Ok separation →
  create virtual_site particle_map
    = Ok (TwoParticleAverageSite p1 p2
            (1 + distance virtual_site / separation)%float
            (0 - distance virtual_site / separation)%float).
Proof.
  intros Hc Hl Hs. unfold _create_openmm_virtual_site.
  rewrite Hl. simpl. by rewrite Hc, Hs.
Qed.




End VirtualSiteProperties.

Lemma lookup_all_mapped (m : gmap Z Z) keys vs :
  lookup_all m keys = Ok vs ↔ Forall2 (λ o p, m !! o = Some p) keys vs.
Proof.
  revert vs. induction keys as [|k rest IH]; intros vs; simpl.
  - split; [intros [= <-]; constructor|]. intros H. by inversion H.
  - destruct (m !! k) as [v|] eqn:Hk.
    + destruct (lookup_all m rest) as [ws|e] eqn:Hrest; simpl.
      * split.
        -- intros [= <-]. constructor; [done|]. by apply IH.
        -- intros H. inversion H as [|? p ? ps Hp Hps]; subst.
           apply IH in Hps. injection Hps as ->.
           assert (v = p) as -> by congruence. reflexivity.
      * split; [done|]. intros H. inversion H as [|? p ? ps Hp Hps]; subst.
        by apply IH in Hps.
    + split; [done|]. intros H. inversion H; congruence.
Qed.

(** C8, as amended: for a bond-charge virtual site whose two orientation
    atoms are the particles p1 and p2 of the particle map and are
    [separation] apart, the exporter returns the two-particle average site
    on p1 and p2 whose weights are the doubles w1 = 1.0 + ratio and
    w2 = 0.0 - ratio, where ratio is the double quotient
    distance / separation. *)
Theorem bond_charge_weights (separation_of : list Z → result float)
    (arccos : float → float) (cos : float → float)
    (virtual_site : _VirtualSite) (particle_map : gmap Z Z) (o1 o2 p1 p2 : Z)
    (separation : float) :
  class_of virtual_site = _BondChargeVirtualSite →
  orientations virtual_site = [o1; o2] →
  particle_map !! o1 = Some p1 →
  particle_map !! o2 = Some p2 →
  separation_of [o1; o2] = Ok separation →
  ∃ w1 w2,
    _create_openmm_virtual_site separation_of arccos cos virtual_site particle_map
      = Ok (TwoParticleAverageSite p1 p2 w1 w2)
    ∧ w1 = (1 + distance virtual_site / separation)%float
    ∧ w2 = (0 - distance virtual_site / separation)%float.
Proof.
  intros Hc Ho H1 H2 Hs.
  eexists _, _. split; [|done].
  apply bond_charge_export; [done| |by rewrite Ho].
  rewrite Ho. apply lookup_all_mapped. by repeat constructor.
Qed.

Lemma bond_charge_weights_witness :
  ∃ w1 w2,
    _create_openmm_virtual_site separation_two arccos_at_one cos_at_zero
      bond_charge_site shuffled_map3
      = Ok (TwoParticleAverageSite 5 7 w1 w2)
    ∧ w1 = (1 + 1 / 2)%float
    ∧ w2 = (0 - 1 / 2)%float.
Proof.
  apply (bond_charge_weights separation_two arccos_at_one cos_at_zero bond_charge_site
           shuffled_map3 0 1 5 7 2%float).
  - reflexivity.
  - reflexivity.
  - reflexivity.
  - reflexivity.
  - reflexivity.
Defined.

(** C8, the claim as stated fails: for the distance 0.01 and the
    separation 0.6 the weights the exporter returns are
    1.0166666666666666 and -0.016666666666666666, and their sum in doubles
    is 0.9999999999999999, not 1. *)
Lemma bond_charge_weights_sum_not_one :
  ∃ w1 w2,
    _create_openmm_virtual_site separation_six_tenths arccos_at_one cos_at_zero
      (bond_charge_site_at 0.01) shuffled_map3
      = Ok (TwoParticleAverageSite 5 7 w1 w2)
    ∧ w1 = 1.0166666666666666%float
    ∧ w2 = (-0.016666666666666666)%float
    ∧ (w1 + w2)%float = 0.9999999999999999%float
    ∧ (w1 + w2)%float ≠ 1%float
    ∧ (w1 + w2 =? 1)%float = false.
Proof.
  eexists _, _. split; [reflexivity|].
  split; [vm_compute; reflexivity|]. split; [vm_compute; reflexivity|].
  split; [vm_compute; reflexivity|]. split; [|vm_compute; reflexivity].
  intros H. apply (f_equal (λ x, (x =? 1)%float)) in H. vm_compute in H. discriminate H.
Qed.



(** ** Virtual sites: the particle map and the particles *)

Lemma lookup_all_missing (m : gmap Z Z) keys o :
  o ∈ keys → m !! o = None →
  ∃ o', lookup_all m keys = Raise (mk_exn KeyError [Fmt (PyInt o')])
        ∧ o' ∈ keys ∧ m !! o' = None.
Proof.
  induction keys as [|k rest IH]; intros Hin Hnone.
  - by apply elem_of_nil in Hin.
  - simpl. destruct (m !! k) as [v|] eqn:Hk.
    + apply elem_of_cons in Hin as [->|Hin]; [congruence|].
      destruct (IH Hin Hnone) as (o' & Hl & Ho' & Hm). exists o'.
      rewrite Hl. split; [done|]. split; [by right|done].
    + exists k. split; [done|]. split; [by left|done].
Qed.

(** X17: when an orientation atom of a virtual site has no entry in the
    particle map, the exporter raises KeyError for an unmapped orientation
    atom, whatever the class of the site is and whatever the separations
    between the atoms are. *)
Theorem unmapped_orientation_raises_key_error (separation_of : list Z → result float)
    (arccos : float → float) (cos : float → float)
    (virtual_site : _VirtualSite) (particle_map : gmap Z Z) (o : Z) :
  o ∈ orientations virtual_site →
  particle_map !! o = None →
  ∃ o',
    _create_openmm_virtual_site separation_of arccos cos virtual_site particle_map
      = Raise (mk_exn KeyError [Fmt (PyInt o')])
    ∧ o' ∈ orientations virtual_site
    ∧ particle_map !! o' = None.
Proof.
  intros Hin Hnone.
  destruct (lookup_all_missing particle_map _ o Hin Hnone) as (o' & Hl & Ho' & Hm).
  exists o'. split; [|done].
  unfold _create_openmm_virtual_site. by rewrite Hl.
Qed.

Lemma unmapped_orientation_raises_key_error_witness :
  ∃ o',
    _create_openmm_virtual_site separation_two arccos_at_one cos_at_zero
      (divalent_site 0) {[ 0%Z := 0%Z; 1%Z := 1%Z ]}
      = Raise (mk_exn KeyError [Fmt (PyInt o')])
    ∧ o' ∈ orientations (divalent_site 0)
    ∧ ({[ 0%Z := 0%Z; 1%Z := 1%Z ]} : gmap Z Z) !! o' = None.
Proof.
  apply (unmapped_orientation_raises_key_error separation_two arccos_at_one cos_at_zero
           (divalent_site 0) {[ 0%Z := 0%Z; 1%Z := 1%Z ]} 2).
  - apply (bool_decide_unpack _). vm_compute. exact I.
  - reflexivity.
Defined.

(** X18: whenever the exporter returns a site, that site depends on as
    many particles as the virtual site has orientation atoms, and each of
    them is the entry of the particle map for the orientation atom at the
    same place, whichever of the three kinds of site is returned. *)
Theorem exported_particles_are_mapped_orientations (separation_of : list Z → result float)
    (arccos : float → float) (cos : float → float)
    (virtual_site : _VirtualSite) (particle_map : gmap Z Z) (site : VirtualSite) :
  _create_openmm_virtual_site separation_of arccos cos virtual_site particle_map = Ok site →
  Forall2 (λ o p, particle_map !! o = Some p) (orientations virtual_site) (particles_of site)
  ∧ length (particles_of site) = length (orientations virtual_site).
Proof.
  intros Hrun.
  assert (lookup_all particle_map (orientations virtual_site) = Ok (particles_of site)) as Hl.
  { revert Hrun. unfold _create_openmm_virtual_site, local_frame_site.
    destruct (lookup_all particle_map (orientations virtual_site)) as [indices|]; [|done].
    simpl. destruct (local_frame_weights virtual_site) as [[ow xd] yd].
    destruct (class_of virtual_site).
    - destruct (separation_of (orientations virtual_site)) as [sep|]; [|done]. simpl.
      destruct indices as [|p1 [|p2 [|p3 l]]]; try done. by intros [= <-].
    - by intros [= <-].
    - destruct (separation_of (take 2 (orientations virtual_site))) as [r12|]; [|done]. simpl.
      destruct (index (orientations virtual_site) 0) as [o0|]; [|done]. simpl.
      destruct (index (orientations virtual_site) 2) as [o2|]; [|done]. simpl.
      destruct (separation_of [o0; o2]) as [r13|]; [|done]. simpl.
      destruct ((r12 =? r13)%float && (out_of_plane_angle virtual_site =? 0)%float);
        [|by intros [= <-]].
      destruct (separation_of (drop 1 (orientations virtual_site))) as [r23|]; [|done]. simpl.
      destruct indices as [|p1 [|p2 [|p3 [|p4 l]]]]; try done. by intros [= <-].
    - by intros [= <-]. }
  apply lookup_all_mapped in Hl. split; [done|].
  symmetry. by eapply Forall2_length.
Qed.

Lemma exported_particles_are_mapped_orientations_witness :
  Forall2 (λ o p, shuffled_map3 !! o = Some p) [0; 1; 2]%Z
    (particles_of (ThreeParticleAverageSite 5 7 6 1.5%float (-0.25)%float (-0.25)%float))
  ∧ length (particles_of (ThreeParticleAverageSite 5 7 6 1.5%float (-0.25)%float (-0.25)%float))
    = length [0; 1; 2]%Z.
Proof.
  apply (exported_particles_are_mapped_orientations separation_coincident arccos_at_one
           cos_at_zero (divalent_site 0) shuffled_map3). reflexivity.
Defined.

(** X19: whenever the exporter returns a two-particle average site, its
    weights are 1.0 + ratio and 0.0 - ratio for one double [ratio];
    whenever it returns a three-particle average site, its second and third
    weights are both the double (1 - w1) / 2 computed from the first;
    whenever it returns a local-coordinates site, the weights and the
    position of that site are the local frame weights and the local frame
    position of the virtual site. *)
Theorem exported_weights_follow_first_weight (separation_of : list Z → result float)
    (arccos : float → float) (cos : float → float)
    (virtual_site : _VirtualSite) (particle_map : gmap Z Z) (site : VirtualSite) :
  _create_openmm_virtual_site separation_of arccos cos virtual_site particle_map = Ok site →
  match site with
  | TwoParticleAverageSite _ _ w1 w2 =>
      ∃ ratio, w1 = (1 + ratio)%float ∧ w2 = (0 - ratio)%float
  | ThreeParticleAverageSite _ _ _ w1 w2 w3 =>
      w2 = ((1 - w1) / 2)%float ∧ w3 = ((1 - w1) / 2)%float
  | LocalCoordinatesSite _ originwt xdir ydir pos =>
      (originwt, xdir, ydir) = local_frame_weights virtual_site
      ∧ pos = local_frame_positions virtual_site
  end.
Proof.
  unfold _create_openmm_virtual_site, local_frame_site.
  destruct (lookup_all particle_map (orientations virtual_site)) as [indices|]; [|done].
  simpl. destruct (local_frame_weights virtual_site) as [[ow xd] yd].
  destruct (class_of virtual_site).
  - destruct (separation_of (orientations virtual_site)) as [sep|]; [|done]. simpl.
    destruct indices as [|p1 [|p2 [|p3 l]]]; try done. intros [= <-]. by eexists.
  - by intros [= <-].
  - destruct (separation_of (take 2 (orientations virtual_site))) as [r12|]; [|done]. simpl.
    destruct (index (orientations virtual_site) 0) as [o0|]; [|done]. simpl.
    destruct (index (orientations virtual_site) 2) as [o2|]; [|done]. simpl.
    destruct (separation_of [o0; o2]) as [r13|]; [|done]. simpl.
    destruct ((r12 =? r13)%float && (out_of_plane_angle virtual_site =? 0)%float);
      [|by intros [= <-]].
    destruct (separation_of (drop 1 (orientations virtual_site))) as [r23|]; [|done]. simpl.
    destruct indices as [|p1 [|p2 [|p3 [|p4 l]]]]; try done. by intros [= <-].
  - by intros [= <-].
Qed.

Lemma exported_weights_follow_first_weight_witness :
  (-0.25)%float = ((1 - 1.5) / 2)%float ∧ (-0.25)%float = ((1 - 1.5) / 2)%float.
Proof.
  apply (exported_weights_follow_first_weight separation_coincident arccos_at_one cos_at_zero
           (divalent_site 0) shuffled_map3
           (ThreeParticleAverageSite 5 7 6 1.5%float (-0.25)%float (-0.25)%float)).
  reflexivity.
Defined.

(** X20: a monovalent or a trivalent lone-pair site whose orientation
    atoms are all in the particle map is exported as the local-coordinates
    site on the mapped atoms, with the local frame weights and position of
    the site, whatever the separations between the atoms are; the exporter
    never returns an average site for these classes. *)
Theorem other_lone_pairs_use_local_frame (separation_of : list Z → result float)
    (arccos : float → float) (cos : float → float)
    (virtual_site : _VirtualSite) (particle_map : gmap Z Z) (particles : list Z) :
  class_of virtual_site = _MonovalentLonePairVirtualSite
  ∨ class_of virtual_site = _TrivalentLonePairVirtualSite →
  lookup_all particle_map (orientations virtual_site) = Ok particles →
  _create_openmm_virtual_site separation_of arccos cos virtual_site particle_map
    = Ok (LocalCoordinatesSite particles
            (local_frame_weights virtual_site).1.1
            (local_frame_weights virtual_site).1.2
            (local_frame_weights virtual_site).2
            (local_frame_positions virtual_site)).
Proof.
  intros Hc Hl. unfold _create_openmm_virtual_site, local_frame_site.
  rewrite Hl. simpl. destruct (local_frame_weights virtual_site) as [[ow xd] yd].
  by destruct Hc as [-> | ->].
Qed.

Lemma other_lone_pairs_use_local_frame_witness :
  _create_openmm_virtual_site separation_two arccos_at_one cos_at_zero
    (mk_VirtualSite _TrivalentLonePairVirtualSite [0%Z; 1%Z; 2%Z] 1%float 0%float
       ([1; 0; 0]%float, [-1; 1; 0]%float, [-1; 0; 1]%float) (1, 0, 0)%float)
    identity_map3
    = Ok (LocalCoordinatesSite [0%Z; 1%Z; 2%Z] [1; 0; 0]%float [-1; 1; 0]%float
            [-1; 0; 1]%float (1, 0, 0)%float).
Proof.
  apply (other_lone_pairs_use_local_frame separation_two arccos_at_one cos_at_zero
           (mk_VirtualSite _TrivalentLonePairVirtualSite [0%Z; 1%Z; 2%Z] 1%float 0%float
              ([1; 0; 0]%float, [-1; 1; 0]%float, [-1; 0; 1]%float) (1, 0, 0)%float)
           identity_map3 [0%Z; 1%Z; 2%Z]).
  - by right.
  - reflexivity.
Defined.

(** ** OpenMM export of the bond and angle handlers *)

Section BondedProperties.
Import OpenMMBonded BondedViews.

Lemma B_bind_run {A C} (m : B A) (f : A → B C) s :
  (m ≫= f) s = match m s with
               | (s', Ok a) => f a s'
               | (s', Raise e) => (s', Raise e)
               end.
Proof. reflexivity. Qed.

Lemma call_force_last fs K cs c :
  accepted c = true →
  call_force c (mk_OpenMMSystem (fs ++ [mk_Force K cs]))
    = (mk_OpenMMSystem (fs ++ [mk_Force K (cs ++ [c])]), Ok tt).
Proof.
  intros Hc. unfold call_force. rewrite Hc. simpl.
  rewrite reverse_app. simpl. by rewrite reverse_involutive.
Qed.

Lemma bond_step_run py_eval hd bond key fs K cs :
  bond_step py_eval hd bond key (mk_OpenMMSystem (fs ++ [mk_Force K cs]))
    = match bond_of_slot py_eval hd (bond, key) with
      | Some c => (mk_OpenMMSystem (fs ++ [mk_Force K (cs ++ [c])]), Ok tt)
      | None => (bond_step py_eval hd bond key (mk_OpenMMSystem (fs ++ [mk_Force K cs])))
      end
    ∧ (bond_of_slot py_eval hd (bond, key) = None →
       ∃ e, bond_step py_eval hd bond key (mk_OpenMMSystem (fs ++ [mk_Force K cs]))
            = (mk_OpenMMSystem (fs ++ [mk_Force K cs]), Raise e)).
Proof.
  unfold bond_step, bond_of_slot, getitem, subscript, blift, braise. simpl.
  rewrite B_bind_run.
  destruct (py_eval bond) as [indices|e]; simpl; [|split; [done|by eexists]].
  rewrite B_bind_run.
  destruct (dict_get key (potentials hd)) as [pot|]; simpl; [|split; [done|by eexists]].
  rewrite B_bind_run.
  destruct (dict_get "k" (parameters pot)) as [k|]; simpl; [|split; [done|by eexists]].
  rewrite B_bind_run.
  destruct (dict_get "length" (parameters pot)) as [len|]; simpl; [|split; [done|by eexists]].
  rewrite B_bind_run.
  destruct (indices !! 0%nat) as [p1|]; simpl; [|split; [done|by eexists]].
  rewrite B_bind_run.
  destruct (indices !! 1%nat) as [p2|]; simpl; [|split; [done|by eexists]].
  rewrite call_force_last by reflexivity. split; [done|]. intros Hn. discriminate Hn.
Qed.

Lemma bond_loop_run py_eval hd items fs K cs s' :
  bond_loop py_eval hd items (mk_OpenMMSystem (fs ++ [mk_Force K cs])) = (s', Ok tt)
  ↔ ∃ cs', mapM (bond_of_slot py_eval hd) items = Some cs'
           ∧ s' = mk_OpenMMSystem (fs ++ [mk_Force K (cs ++ cs')]).
Proof.
  revert cs. induction items as [|[bond key] rest IH]; intros cs; simpl.
  - split.
    + intros [= <-]. exists []. by rewrite app_nil_r.
    + intros (cs' & [= <-] & ->). by rewrite app_nil_r.
  - rewrite B_bind_run.
    destruct (bond_step_run py_eval hd bond key fs K cs) as [Hrun Hfail].
    destruct (bond_of_slot py_eval hd (bond, key)) as [c|] eqn:Hc.
    + rewrite Hrun. rewrite IH. csimpl. split.
      * intros (cs' & Hm & ->). exists (c :: cs'). rewrite Hm. csimpl.
        by rewrite <- app_assoc.
      * intros (cs' & Hm & ->).
        destruct (mapM (bond_of_slot py_eval hd) rest) as [cs2|]; [|done].
        injection Hm as <-. exists cs2. by rewrite <- app_assoc.
    + destruct (Hfail eq_refl) as [e ->]. csimpl. split; [done|].
      by intros (cs' & Hm & _).
Qed.

(** The call the angle exporter makes for a slot carries the angle in
    degrees and the force constant in kcal/mol/angstrom^2. *)
Lemma angle_of_slot_units py_eval hd slot c :
  angle_of_slot py_eval hd slot = Some c →
  ∃ p1 p2 p3 angle k,
    c = addAngle p1 p2 p3 (mk_Quantity angle degree) (mk_Quantity k kcal_ang).
Proof.
  unfold angle_of_slot. intros Hc.
  destruct (ok_value (py_eval slot.1)) as [indices|]; [|done]. simpl in Hc.
  destruct (dict_get slot.2 (potentials hd)) as [pot|]; [|done]. simpl in Hc.
  destruct (dict_get "k" (parameters pot)) as [k|]; [|done]. simpl in Hc.
  destruct (dict_get "angle" (parameters pot)) as [ang|]; [|done]. simpl in Hc.
  destruct (indices !! 0%nat) as [p1|]; [|done]. simpl in Hc.
  destruct (indices !! 1%nat) as [p2|]; [|done]. simpl in Hc.
  destruct (indices !! 2%nat) as [p3|]; [|done]. simpl in Hc.
  injection Hc as <-. by eexists _, _, _, _, _.
Qed.

(** The body of the angle loop never returns: where the slot stands for
    an angle, the call is rejected. *)
Lemma angle_step_run py_eval hd angle key s :
  ∃ e, angle_step py_eval hd angle key s = (s, Raise e)
       ∧ (is_Some (angle_of_slot py_eval hd (angle, key)) → e = mk_exn TypeError []).
Proof.
  unfold angle_step, angle_of_slot, getitem, subscript, blift, braise. simpl.
  rewrite B_bind_run.
  destruct (py_eval angle) as [indices|e]; simpl;
    [|eexists; split; [done|by intros [? ?]]].
  rewrite B_bind_run.
  destruct (dict_get key (potentials hd)) as [pot|]; simpl;
    [|eexists; split; [done|by intros [? ?]]].
  rewrite B_bind_run.
  destruct (dict_get "k" (parameters pot)) as [k|]; simpl;
    [|eexists; split; [done|by intros [? ?]]].
  rewrite B_bind_run.
  destruct (dict_get "angle" (parameters pot)) as [ang|]; simpl;
    [|eexists; split; [done|by intros [? ?]]].
  rewrite B_bind_run.
  destruct (indices !! 0%nat) as [p1|]; simpl;
    [|eexists; split; [done|by intros [? ?]]].
  rewrite B_bind_run.
  destruct (indices !! 1%nat) as [p2|]; simpl;
    [|eexists; split; [done|by intros [? ?]]].
  rewrite B_bind_run.
  destruct (indices !! 2%nat) as [p3|]; simpl;
    [|eexists; split; [done|by intros [? ?]]].
  by eexists.
Qed.

Lemma process_bond_forces_run py_eval sys s :
  _process_bond_forces py_eval sys s
    = match dict_get "Bonds" (handlers sys) with
      | Some hd =>
          bond_loop py_eval hd (slot_map hd)
            (mk_OpenMMSystem (forces s ++ [mk_Force HarmonicBondForce []]))
      | None => (mk_OpenMMSystem (forces s ++ [mk_Force HarmonicBondForce []]),
                 Raise (mk_exn KeyError [Fmt (PyStr "Bonds")]))
      end.
Proof.
  unfold _process_bond_forces, getitem, addForce, braise. rewrite !B_bind_run.
  by destruct (dict_get "Bonds" (handlers sys)).
Qed.

Lemma process_angle_forces_run py_eval sys s :
  _process_angle_forces py_eval sys s
    = match dict_get "Angles" (handlers sys) with
      | Some hd =>
          angle_loop py_eval hd (slot_map hd)
            (mk_OpenMMSystem (forces s ++ [mk_Force HarmonicAngleForce []]))
      | None => (mk_OpenMMSystem (forces s ++ [mk_Force HarmonicAngleForce []]),
                 Raise (mk_exn KeyError [Fmt (PyStr "Angles")]))
      end.
Proof.
  unfold _process_angle_forces, getitem, addForce, braise. rewrite !B_bind_run.
  by destruct (dict_get "Angles" (handlers sys)).
Qed.

Lemma process_angle_forces_returns py_eval sys s s' :
  _process_angle_forces py_eval sys s = (s', Ok tt)
  ↔ ∃ hd, dict_get "Angles" (handlers sys) = Some hd
          ∧ slot_map hd = []
          ∧ s' = mk_OpenMMSystem (forces s ++ [mk_Force HarmonicAngleForce []]).
Proof.
  rewrite process_angle_forces_run.
  destruct (dict_get "Angles" (handlers sys)) as [hd|]; [|split; [done|by intros (? & ? & _)]].
  destruct (slot_map hd) as [|[angle key] rest] eqn:Hslots; simpl.
  - split.
    + intros [= <-]. by exists hd.
    + by intros (hd' & _ & _ & ->).
  - rewrite B_bind_run.
    destruct (angle_step_run py_eval hd angle key
                (mk_OpenMMSystem (forces s ++ [mk_Force HarmonicAngleForce []])))
      as (e & -> & _).
    split; [done|]. intros (hd' & [= <-] & Hnil & _). congruence.
Qed.

(** X21: the bond exporter and the angle exporter add their force to the
    OpenMM system before they look their handler up: on a container
    without a "Bonds" handler the bond exporter raises KeyError and leaves
    an empty HarmonicBondForce in the system, and on a container without an
    "Angles" handler the angle exporter raises KeyError and leaves an empty
    HarmonicAngleForce. *)
Theorem bonded_force_added_before_lookup (py_eval : string → result (list Z))
    (openff_sys : OpenFFSystem) (s : OpenMMSystem) :
  (dict_get "Bonds" (handlers openff_sys) = None →
     _process_bond_forces py_eval openff_sys s
       = (mk_OpenMMSystem (forces s ++ [mk_Force HarmonicBondForce []]),
          Raise (mk_exn KeyError [Fmt (PyStr "Bonds")])))
  ∧ (dict_get "Angles" (handlers openff_sys) = None →
       _process_angle_forces py_eval openff_sys s
         = (mk_OpenMMSystem (forces s ++ [mk_Force HarmonicAngleForce []]),
            Raise (mk_exn KeyError [Fmt (PyStr "Angles")]))).
Proof.
  split; intros Hnone.
  - by rewrite process_bond_forces_run, Hnone.
  - by rewrite process_angle_forces_run, Hnone.
Qed.

(** X22: the bond exporter returns exactly when the container has a
    "Bonds" handler every slot of which stands for a bond: its key
    evaluates to at least two indices and its potential is in the store
    with parameters "k" and "length". The system then has one more force, a
    HarmonicBondForce with one bond per slot, in the order of the slot map,
    between the first two indices of the key, with the length in angstrom
    and the force constant in kcal/mol/angstrom^2. *)
Theorem bond_export_one_bond_per_slot (py_eval : string → result (list Z))
    (openff_sys : OpenFFSystem) (s : OpenMMSystem) :
  (∀ s', _process_bond_forces py_eval openff_sys s = (s', Ok tt) →
     ∃ bond_handler bonds,
       dict_get "Bonds" (handlers openff_sys) = Some bond_handler
       ∧ mapM (bond_of_slot py_eval bond_handler) (slot_map bond_handler) = Some bonds
       ∧ length bonds = length (slot_map bond_handler)
       ∧ s' = mk_OpenMMSystem (forces s ++ [mk_Force HarmonicBondForce bonds]))
  ∧ (∀ bond_handler bonds,
       dict_get "Bonds" (handlers openff_sys) = Some bond_handler →
       mapM (bond_of_slot py_eval bond_handler) (slot_map bond_handler) = Some bonds →
       _process_bond_forces py_eval openff_sys s
         = (mk_OpenMMSystem (forces s ++ [mk_Force HarmonicBondForce bonds]), Ok tt)).
Proof.
  split.
  - intros s'. rewrite process_bond_forces_run.
    destruct (dict_get "Bonds" (handlers openff_sys)) as [hd|]; [|done].
    intros Hrun. apply bond_loop_run in Hrun as (cs & Hm & ->).
    exists hd, cs. split; [done|]. split; [done|]. split; [|done].
    apply mapM_Some in Hm. symmetry. by eapply Forall2_length.
  - intros hd cs Hhd Hm. rewrite process_bond_forces_run, Hhd.
    apply bond_loop_run. by exists cs.
Qed.

Lemma bond_export_one_bond_per_slot_witness :
  _process_bond_forces eval_example bonded_example (mk_OpenMMSystem [])
    = (mk_OpenMMSystem
         ([] ++ [mk_Force HarmonicBondForce
                   [addBond 0 1 (mk_Quantity (Q2Qc (inject_Z 1)) angstrom)
                      (mk_Quantity (Q2Qc (inject_Z 680)) kcal_ang)]]), Ok tt).
Proof.
  eapply (proj2 (bond_export_one_bond_per_slot eval_example bonded_example
                   (mk_OpenMMSystem []))); reflexivity.
Defined.

Lemma bonded_force_added_before_lookup_witness :
  _process_bond_forces eval_example (mk_OpenFFSystem []) (mk_OpenMMSystem [])
    = (mk_OpenMMSystem ([] ++ [mk_Force HarmonicBondForce []]),
       Raise (mk_exn KeyError [Fmt (PyStr "Bonds")]))
  ∧ _process_angle_forces eval_example (mk_OpenFFSystem []) (mk_OpenMMSystem [])
    = (mk_OpenMMSystem ([] ++ [mk_Force HarmonicAngleForce []]),
       Raise (mk_exn KeyError [Fmt (PyStr "Angles")])).
Proof.
  destruct (bonded_force_added_before_lookup eval_example (mk_OpenFFSystem [])
              (mk_OpenMMSystem [])) as [Hbonds Hangles].
  split; [by apply Hbonds|by apply Hangles].
Defined.

(** X23: the angle exporter hands OpenMM the force constant of an angle in
    kcal/mol/angstrom^2, the unit of the bond force constants, where
    [addAngle] expects an energy per squared angle and fails with TypeError.
    So the exporter returns only on a container whose "Angles" handler has
    no slot, and has then added an empty HarmonicAngleForce; and when the
    first slot of the handler stands for an angle (its key evaluates to at
    least three indices and its potential is in the store with parameters
    "k" and "angle"), the exporter stops at that angle with TypeError, the
    empty force left in the system. *)
Theorem angle_export_stops_at_first_angle (py_eval : string → result (list Z))
    (openff_sys : OpenFFSystem) (s : OpenMMSystem) :
  (∀ s', _process_angle_forces py_eval openff_sys s = (s', Ok tt) →
     ∃ angle_handler,
       dict_get "Angles" (handlers openff_sys) = Some angle_handler
       ∧ slot_map angle_handler = []
       ∧ s' = mk_OpenMMSystem (forces s ++ [mk_Force HarmonicAngleForce []]))
  ∧ (∀ angle_handler slot rest c,
       dict_get "Angles" (handlers openff_sys) = Some angle_handler →
       slot_map angle_handler = slot :: rest →
       angle_of_slot py_eval angle_handler slot = Some c →
       (∃ p1 p2 p3 angle k,
          c = addAngle p1 p2 p3 (mk_Quantity angle degree) (mk_Quantity k kcal_ang))
       ∧ _process_angle_forces py_eval openff_sys s
         = (mk_OpenMMSystem (forces s ++ [mk_Force HarmonicAngleForce []]),
            Raise (mk_exn TypeError []))).
Proof.
  split.
  - intros s' Hrun. by apply process_angle_forces_returns in Hrun.
  - intros hd [angle key] rest c Hhd Hslots Hc.
    split; [by eapply angle_of_slot_units|].
    rewrite process_angle_forces_run, Hhd, Hslots. simpl. rewrite B_bind_run.
    destruct (angle_step_run py_eval hd angle key
                (mk_OpenMMSystem (forces s ++ [mk_Force HarmonicAngleForce []])))
      as (e & -> & He).
    by rewrite He by (by rewrite Hc).
Qed.

Lemma angle_export_stops_at_first_angle_witness :
  (∃ p1 p2 p3 angle k,
     addAngle 0 1 2 (mk_Quantity (Q2Qc (inject_Z 109)) degree)
       (mk_Quantity (Q2Qc (inject_Z 100)) kcal_ang)
     = addAngle p1 p2 p3 (mk_Quantity angle degree) (mk_Quantity k kcal_ang))
  ∧ _process_angle_forces eval_example bonded_example (mk_OpenMMSystem [])
    = (mk_OpenMMSystem ([] ++ [mk_Force HarmonicAngleForce []]), Raise (mk_exn TypeError [])).
Proof.
  apply (proj2 (angle_export_stops_at_first_angle eval_example bonded_example
                  (mk_OpenMMSystem []))
           one_angle ("(0, 1, 2)", "[#1:1]-[#6:2]-[#1:3]") []).
  - reflexivity.
  - reflexivity.
  - reflexivity.
Defined.

(** X24: the bonded part of [to_openmm] returns only if the container has
    both a "Bonds" and an "Angles" handler and the "Angles" handler has no
    slot. It then has added exactly two forces, a HarmonicBondForce with
    one bond per slot followed by an empty HarmonicAngleForce: the two
    torsion exporters add nothing. On a container without a "Bonds" handler
    it stops with KeyError before the angle exporter runs. *)
Theorem bonded_part_adds_two_forces (py_eval : string → result (list Z))
    (openff_sys : OpenFFSystem) (s : OpenMMSystem) :
  (∀ s', process_bonded_forces py_eval openff_sys s = (s', Ok tt) →
     ∃ bond_handler angle_handler bonds,
       dict_get "Bonds" (handlers openff_sys) = Some bond_handler
       ∧ dict_get "Angles" (handlers openff_sys) = Some angle_handler
       ∧ slot_map angle_handler = []
       ∧ mapM (bond_of_slot py_eval bond_handler) (slot_map bond_handler) = Some bonds
       ∧ length bonds = length (slot_map bond_handler)
       ∧ s' = mk_OpenMMSystem
                (forces s ++ [mk_Force HarmonicBondForce bonds;
                              mk_Force HarmonicAngleForce []]))
  ∧ (dict_get "Bonds" (handlers openff_sys) = None →
       process_bonded_forces py_eval openff_sys s
         = (mk_OpenMMSystem (forces s ++ [mk_Force HarmonicBondForce []]),
            Raise (mk_exn KeyError [Fmt (PyStr "Bonds")]))).
Proof.
  split.
  - intros s'. unfold process_bonded_forces. rewrite B_bind_run.
    destruct (_process_bond_forces py_eval openff_sys s) as [s1 [[]|e]] eqn:Hb; [|done].
    rewrite process_bond_forces_run in Hb.
    destruct (dict_get "Bonds" (handlers openff_sys)) as [hb|]; [|done].
    apply bond_loop_run in Hb as (bonds & Hmb & ->). simpl in *.
    rewrite B_bind_run.
    destruct (_process_angle_forces py_eval openff_sys _) as [s2 [[]|e]] eqn:Ha; [|done].
    apply process_angle_forces_returns in Ha as (ha & Hha & Hnil & ->). simpl in *.
    unfold _process_proper_torsion_forces, _process_impproper_torsion_forces.
    intros [= <-].
    exists hb, ha, bonds.
    split; [done|]. split; [done|]. split; [done|]. split; [done|].
    split; [apply mapM_Some in Hmb; symmetry; by eapply Forall2_length|].
    by rewrite <- app_assoc.
  - intros Hnone. unfold process_bonded_forces.
    by rewrite B_bind_run, process_bond_forces_run, Hnone.
Qed.

Lemma bonded_part_adds_two_forces_witness :
  ∃ bond_handler angle_handler bonds,
    dict_get "Bonds" (handlers bond_only_example) = Some bond_handler
    ∧ dict_get "Angles" (handlers bond_only_example) = Some angle_handler
    ∧ slot_map angle_handler = []
    ∧ mapM (bond_of_slot eval_example bond_handler) (slot_map bond_handler) = Some bonds
    ∧ length bonds = length (slot_map bond_handler)
    ∧ (process_bonded_forces eval_example bond_only_example (mk_OpenMMSystem [])).1
      = mk_OpenMMSystem
          (forces (mk_OpenMMSystem []) ++ [mk_Force HarmonicBondForce bonds;
                                          mk_Force HarmonicAngleForce []]).
Proof.
  apply (proj1 (bonded_part_adds_two_forces eval_example bond_only_example
                  (mk_OpenMMSystem []))).
  reflexivity.
Defined.

End BondedProperties.

(** ** The comparison helpers of the tests *)

Section TestHelperProperties.
Import TestHelpers TestHelperViews.

Lemma for_each_o_pass {A} (l : list A) (body : A → outcome unit) :
  (∀ x, x ∈ l → body x = Done tt) → for_each_o l body = Done tt.
Proof.
  induction l as [|x l IH]; intros Hbody; simpl; [done|].
  rewrite Hbody by (by left). simpl. apply IH. intros y Hy. apply Hbody. by right.
Qed.

Lemma for_each_o_Done {A} (l : list A) (body : A → outcome unit) :
  for_each_o l body = Done tt → ∀ x, x ∈ l → body x = Done tt.
Proof.
  induction l as [|x l IH]; simpl; intros Hrun y Hy; [by apply elem_of_nil in Hy|].
  destruct (body x) as [[]| |] eqn:Hx; try done. simpl in Hrun.
  apply elem_of_cons in Hy as [->|Hy]; [done|by apply IH].
Qed.

Lemma add_torsion_eq d t :
  add_torsion d t
    = dict_set (key_of t) (default [] (dict_get (key_of t) d) ++ [term_of t]) d.
Proof.
  unfold add_torsion, defaultdict_getitem.
  destruct (dict_get (key_of t) d) as [l|] eqn:Hget; simpl.
  - by rewrite Hget.
  - rewrite dict_get_set_eq. by rewrite dict_set_set.
Qed.

Lemma get_add_torsion key d t :
  default [] (dict_get key (add_torsion d t))
    = default [] (dict_get key d) ++ (if decide (key_of t = key) then [term_of t] else []).
Proof.
  rewrite add_torsion_eq. destruct (decide (key_of t = key)) as [<-|Hne].
  - by rewrite dict_get_set_eq.
  - rewrite dict_get_set_ne by done. by rewrite app_nil_r.
Qed.

Lemma get_create_from key d f :
  default [] (dict_get key (foldl add_torsion d f))
    = default [] (dict_get key d) ++ (term_of <$> filter (λ t, key_of t = key) f).
Proof.
  revert d. induction f as [|t f IH]; intros d; simpl.
  - by rewrite app_nil_r.
  - rewrite IH, get_add_torsion, filter_cons.
    destruct (decide (key_of t = key)); csimpl.
    + by rewrite <- app_assoc.
    + by rewrite app_nil_r.
Qed.

Lemma total_terms_set k v (d : pydict torsion_key (list torsion_term)) :
  (total_terms (dict_set k v d) + length (default [] (dict_get k d))
   = total_terms d + length v)%nat.
Proof.
  unfold total_terms, dict_values. induction d as [|[k' v'] d IH]; csimpl.
  - lia.
  - destruct (decide (k = k')) as [->|Hne]; csimpl; lia.
Qed.

Lemma total_terms_add d t : total_terms (add_torsion d t) = S (total_terms d).
Proof.
  rewrite add_torsion_eq.
  pose proof (total_terms_set (key_of t)
                (default [] (dict_get (key_of t) d) ++ [term_of t]) d) as H.
  rewrite length_app in H. simpl in H. lia.
Qed.

Lemma total_terms_from d f :
  total_terms (foldl add_torsion d f) = (total_terms d + length f)%nat.
Proof.
  revert d. induction f as [|t f IH]; intros d; simpl; [lia|].
  rewrite IH, total_terms_add. lia.
Qed.

(** X25: the dictionary [_create_torsion_dict] builds from a force holds,
    under each key, the periodicity, phase and force constant of the
    torsions of the force on these four particles, in the order of the
    force, and nothing under any other key; over all keys it holds as many
    terms as the force has torsions, so that the first two assertions of
    [_compare_torsion_forces] cannot fail. *)
Theorem torsion_dict_keeps_every_torsion (torsion_force : list torsion) :
  (∀ key, default [] (dict_get key (_create_torsion_dict torsion_force))
          = term_of <$> filter (λ t, key_of t = key) torsion_force)
  ∧ sum_list (length <$> dict_values (_create_torsion_dict torsion_force))
    = length torsion_force.
Proof.
  split.
  - intros key. unfold _create_torsion_dict. by rewrite get_create_from.
  - unfold _create_torsion_dict. apply (total_terms_from [] torsion_force).
Qed.












Lemma compare_particle_symmetric (force1 force2 : list particle) i :
  ('(q1, sig1, eps1) ← item force1 i;
   '(q2, sig2, eps2) ← item force2 i;
   assert_ (bool_decide (Qcabs (q2 - q1) < tol_8)%Qc)
     [Text "charge mismatch in particle "; Value (Q2Qc (inject_Z (Z.of_nat i)));
      Text ": "; Value q1; Text " vs "; Value q2];;
   assert_ (bool_decide (Qcabs (sig2 - sig1) < tol_12)%Qc)
     [Text "sigma mismatch in particle "; Value (Q2Qc (inject_Z (Z.of_nat i)));
      Text ": "; Value sig1; Text " vs "; Value sig2];;
   assert_ (bool_decide (Qcabs (eps2 - eps1) < tol_12)%Qc)
     [Text "epsilon mismatch in particle "; Value (Q2Qc (inject_Z (Z.of_nat i)));
      Text ": "; Value eps1; Text " vs "; Value eps2]) = Done tt →
  ('(q1, sig1, eps1) ← item force2 i;
   '(q2, sig2, eps2) ← item force1 i;
   assert_ (bool_decide (Qcabs (q2 - q1) < tol_8)%Qc)
     [Text "charge mismatch in particle "; Value (Q2Qc (inject_Z (Z.of_nat i)));
      Text ": "; Value q1; Text " vs "; Value q2];;
   assert_ (bool_decide (Qcabs (sig2 - sig1) < tol_12)%Qc)
     [Text "sigma mismatch in particle "; Value (Q2Qc (inject_Z (Z.of_nat i)));
      Text ": "; Value sig1; Text " vs "; Value sig2];;
   assert_ (bool_decide (Qcabs (eps2 - eps1) < tol_12)%Qc)
     [Text "epsilon mismatch in particle "; Value (Q2Qc (inject_Z (Z.of_nat i)));
      Text ": "; Value eps1; Text " vs "; Value eps2]) = Done tt.
Proof.
  unfold item.
  destruct (force1 !! i) as [[[q1 s1] e1]|]; [|done].
  destruct (force2 !! i) as [[[q2 s2] e2]|]; [|done]. simpl.
  rewrite (Qcabs_Qcminus q1 q2), (Qcabs_Qcminus s1 s2), (Qcabs_Qcminus e1 e2).
  unfold assert_.
  destruct (bool_decide (Qcabs (q2 - q1) < tol_8)%Qc); [|done]. simpl.
  destruct (bool_decide (Qcabs (s2 - s1) < tol_12)%Qc); [|done]. simpl.
  by destruct (bool_decide (Qcabs (e2 - e1) < tol_12)%Qc).
Qed.

(** X28: [_compare_nonbonded_parameters] is symmetric in what it accepts:
    whenever it returns for two forces in one order, it returns for them
    in the other order. *)
Theorem nonbonded_parameter_comparison_is_symmetric (force1 force2 : list particle) :
  _compare_nonbonded_parameters force1 force2 = Done tt →
  _compare_nonbonded_parameters force2 force1 = Done tt.
Proof.
  unfold _compare_nonbonded_parameters, assert_ at 1 5.
  destruct (bool_decide (length force1 = length force2)) eqn:Hlen; [|done].
  apply bool_decide_eq_true in Hlen. simpl.
  rewrite bool_decide_eq_true_2 by done. simpl. rewrite <- Hlen.
  intros Hrun. apply for_each_o_pass. intros i Hi.
  apply compare_particle_symmetric.
  by apply (for_each_o_Done _ _ Hrun).
Qed.

Lemma nonbonded_parameter_comparison_is_symmetric_witness :
  _compare_nonbonded_parameters
    [(Q2Qc (1 # 1000000000), Q2Qc (inject_Z 1), Q2Qc (inject_Z 2));
     (Q2Qc (1 # 2), Q2Qc (3 # 10), Q2Qc (4 # 10))]
    [(0%Qc, Q2Qc (inject_Z 1), Q2Qc (inject_Z 2));
     (Q2Qc (1 # 2), Q2Qc (3000000000001 # 10000000000000), Q2Qc (4 # 10))]
  = Done tt.
Proof.
  apply (nonbonded_parameter_comparison_is_symmetric
           [(0%Qc, Q2Qc (inject_Z 1), Q2Qc (inject_Z 2));
            (Q2Qc (1 # 2), Q2Qc (3000000000001 # 10000000000000), Q2Qc (4 # 10))]
           [(Q2Qc (1 # 1000000000), Q2Qc (inject_Z 1), Q2Qc (inject_Z 2));
            (Q2Qc (1 # 2), Q2Qc (3 # 10), Q2Qc (4 # 10))]).
  by vm_compute.
Defined.

End TestHelperProperties.
